(** * Healthcare Copilot: a shallow embedding of the agent and service layer

  The first part follows the source tree: the Python built-ins the sources
  use, then [utils/exceptions.py], [agents/base.py],
  [services/vector_service.py] (similarity search),
  [services/llm_service.py], the three agents, [utils/config.py],
  [services/document_service.py] (validation), [services/auth_service.py]
  (rate limiter), [services/evaluation_service.py] and
  [services/guardrails_service.py] with the part of [re] its patterns need.
  Module [Spec] holds the vocabulary and the sample inputs of the
  statements. The second part states and proves the properties.

  Conventions of the embedding.
  - Text is [string]; the model covers ASCII text (case mapping, white
    space and word characters are the ASCII ones).
  - Python floats are exact rationals ([Q]); integers are [Z] or [nat].
  - A dictionary decoded from the model's JSON answer is a record whose
    fields are optional (a key may be absent) and carry the types of the
    JSON schema the prompt prescribes.
  - Code that raises returns [except]; code that mutates an agent state
    runs in a small state-and-exception monad. The [handle_exceptions]
    decorator around the asynchronous [process] methods only wraps the
    creation of the coroutine and is transparent there.
  - The vector database, the language model and the JSON decoder are
    outside the repository: they are the fields of a [World]. The clock is
    an argument of the functions that read it. *)

From stdpp Require Import gmap strings.
From Stdlib Require Import ZArith QArith Qround Lia.
From Stdlib Require Import Strings.String Strings.Ascii Numbers.DecimalString.

Open Scope string_scope.

(** ** Python built-ins used by the sources *)

Module Py.

Definition code (c : ascii) : nat := nat_of_ascii c.

(** [str.isspace] on the ASCII range. *)
Definition is_space (c : ascii) : bool :=
  let n := code c in
  ((9 <=? n) && (n <=? 13) || (28 <=? n) && (n <=? 32))%nat.

Definition is_upper (c : ascii) : bool :=
  let n := code c in ((65 <=? n) && (n <=? 90))%nat.

Definition is_lower (c : ascii) : bool :=
  let n := code c in ((97 <=? n) && (n <=? 122))%nat.

Definition is_digit (c : ascii) : bool :=
  let n := code c in ((48 <=? n) && (n <=? 57))%nat.

Definition lower_char (c : ascii) : ascii :=
  if is_upper c then ascii_of_nat (code c + 32) else c.

Definition upper_char (c : ascii) : ascii :=
  if is_lower c then ascii_of_nat (code c - 32) else c.

(** [s.lower()] and [s.upper()] *)
Fixpoint lower (s : string) : string :=
  match s with
  | EmptyString => EmptyString
  | String c s' => String (lower_char c) (lower s')
  end.

Fixpoint upper (s : string) : string :=
  match s with
  | EmptyString => EmptyString
  | String c s' => String (upper_char c) (upper s')
  end.

(** [s[:n]] *)
Fixpoint slice_to (n : nat) (s : string) : string :=
  match n, s with
  | S n', String c s' => String c (slice_to n' s')
  | _, _ => EmptyString
  end.

(** [s[n:]] *)
Fixpoint slice_from (n : nat) (s : string) : string :=
  match n, s with
  | S n', String _ s' => slice_from n' s'
  | _, _ => s
  end.

(** [s.startswith(p)] *)
Fixpoint startswith (p s : string) : bool :=
  match p, s with
  | EmptyString, _ => true
  | String a p', String b s' => Ascii.eqb a b && startswith p' s'
  | String _ _, EmptyString => false
  end.

(** [p in s] for strings *)
Fixpoint contains (p s : string) : bool :=
  startswith p s ||
  match s with
  | EmptyString => false
  | String _ s' => contains p s'
  end.

(** [s.endswith(p)] *)
Definition endswith (p s : string) : bool :=
  (String.length p <=? String.length s)%nat &&
  String.eqb (slice_from (String.length s - String.length p) s) p.

(** [s.lstrip()], [s.rstrip()], [s.strip()] *)
Fixpoint lstrip (s : string) : string :=
  match s with
  | String c s' => if is_space c then lstrip s' else s
  | EmptyString => EmptyString
  end.

Fixpoint rstrip (s : string) : string :=
  match s with
  | EmptyString => EmptyString
  | String c s' =>
      match rstrip s' with
      | EmptyString => if is_space c then EmptyString else String c EmptyString
      | r => String c r
      end
  end.

Definition strip (s : string) : string := rstrip (lstrip s).

(** [s.lstrip(ch)] for a one-character argument *)
Fixpoint lstrip_char (ch : ascii) (s : string) : string :=
  match s with
  | String c s' => if Ascii.eqb c ch then lstrip_char ch s' else s
  | EmptyString => EmptyString
  end.

(** [s.split()]: the maximal runs of non-space characters, in order.
    [cur] is the word being read. *)
Fixpoint split_from (cur : string) (s : string) : list string :=
  match s with
  | EmptyString => if String.eqb cur "" then [] else [cur]
  | String c s' =>
      if is_space c
      then (if String.eqb cur "" then split_from "" s'
            else cur :: split_from "" s')
      else split_from (cur ++ String c "") s'
  end.

Definition split (s : string) : list string := split_from "" s.

(** [s.split(sep)] for a one-character separator: empty fields are kept *)
Fixpoint split_on_from (sep : ascii) (cur : string) (s : string) : list string :=
  match s with
  | EmptyString => [cur]
  | String c s' =>
      if Ascii.eqb c sep then cur :: split_on_from sep "" s'
      else split_on_from sep (cur ++ String c "") s'
  end.

Definition split_on (sep : ascii) (s : string) : list string :=
  split_on_from sep "" s.

(** [sep.join(l)] *)
Fixpoint join (sep : string) (l : list string) : string :=
  match l with
  | [] => ""
  | [x] => x
  | x :: l' => x ++ sep ++ join sep l'
  end.

(** [str(n)] for integers *)
Definition str_of_nat (n : nat) : string :=
  NilEmpty.string_of_uint (Nat.to_uint n).

Definition str_of_Z (z : Z) : string :=
  NilEmpty.string_of_int (Z.to_int z).

(** [min(a, b)] and [max(a, b)] on numbers: the first argument is kept
    unless the second is strictly smaller (larger). *)
Definition Qltb (a b : Q) : bool := negb (Qle_bool b a).

Definition min (a b : Q) : Q := if Qltb b a then b else a.
Definition max (a b : Q) : Q := if Qltb a b then b else a.

(** [sum(l)] on numbers *)
Definition sum (l : list Q) : Q := fold_left Qplus l 0%Q.

(** [len(l)] as a number *)
Definition len {A} (l : list A) : Q := inject_Z (Z.of_nat (List.length l)).

(** [f"{x:.2f}"]: two decimals, ties to even, on the exact value. Python
    formats the binary float nearest to a decimal literal, so the last
    digit can differ where the exact value is a tie (0.995 prints as 0.99);
    the statements below only use the format of 0. *)
Definition round_half_even (x : Q) : Z :=
  let fl := Qfloor x in
  let r := (x - inject_Z fl)%Q in
  if Qltb r (1 # 2) then fl
  else if Qltb (1 # 2) r then (fl + 1)%Z
  else if Z.even fl then fl else (fl + 1)%Z.

Definition format_2f (x : Q) : string :=
  let n := round_half_even (x * 100) in
  let a := Z.abs n in
  let frac := (a mod 100)%Z in
  (if (n <? 0)%Z then "-" else "") ++
  str_of_Z (a / 100) ++ "." ++
  (if (frac <? 10)%Z then "0" else "") ++ str_of_Z frac.

(** [range(start, stop, step)] for a positive step *)
Fixpoint range_fuel (fuel start stop step : nat) : list nat :=
  match fuel with
  | O => []
  | S fuel' =>
      if (start <? stop)%nat then start :: range_fuel fuel' (start + step) stop step
      else []
  end.

Definition range (start stop step : nat) : list nat :=
  range_fuel stop start stop step.

(** [enumerate(l)] *)
Definition enumerate {A} (l : list A) : list (nat * A) :=
  combine (seq 0 (List.length l)) l.

(** Truth value of [d.get(key)] for a list or a string: absent and empty
    are false. *)
Definition truthy_list {A} (o : option (list A)) : bool :=
  match o with
  | Some (_ :: _) => true
  | _ => false
  end.

Definition truthy_str (o : option string) : bool :=
  match o with
  | Some (String _ _) => true
  | _ => false
  end.

(** [d.get(key, dflt)] on an optional field *)
Definition get_or {A} (o : option A) (dflt : A) : A :=
  match o with
  | Some a => a
  | None => dflt
  end.

(** An open key/value bag ([Dict[str, Any]]): request context, chunk
    metadata. *)
#[warnings="-register-all"] Inductive json : Type :=
| JNull
| JBool (b : bool)
| JInt (z : Z)
| JFloat (q : Q)
| JStr (s : string)
| JArr (l : list json)
| JObj (d : list (string * json)).

Definition Dict : Type := list (string * json).

End Py.

(** ** utils/exceptions.py *)

Module Exceptions.

(** The domain errors, and [Builtin] for every exception that is not a
    [HealthcareCopilotException] (type name and message). *)
Inductive exn : Type :=
| HealthcareCopilotException (message error_code : string)
| DocumentProcessingError (message : string) (filename : option string)
| VectorStoreError (message : string) (operation : option string)
| QueryProcessingError (message : string) (query : option string)
| ValidationError (message : string) (field : option string)
| Builtin (type_name message : string).

(** [str(e)] *)
Definition str (e : exn) : string :=
  match e with
  | HealthcareCopilotException m _ => m
  | DocumentProcessingError m _ => m
  | VectorStoreError m _ => m
  | QueryProcessingError m _ => m
  | ValidationError m _ => m
  | Builtin _ m => m
  end.

Definition error_code (e : exn) : string :=
  match e with
  | HealthcareCopilotException _ c => c
  | DocumentProcessingError _ _ => "DOCUMENT_PROCESSING_ERROR"
  | VectorStoreError _ _ => "VECTOR_STORE_ERROR"
  | QueryProcessingError _ _ => "QUERY_PROCESSING_ERROR"
  | ValidationError _ _ => "VALIDATION_ERROR"
  | Builtin _ _ => "INTERNAL_SERVER_ERROR"
  end.

Definition is_domain (e : exn) : bool :=
  match e with
  | Builtin _ _ => false
  | _ => true
  end.

Inductive except (A : Type) : Type :=
| Ok (a : A)
| Raise (e : exn).
Arguments Ok {A} a.
Arguments Raise {A} e.

Definition bind {A B} (m : except A) (k : A -> except B) : except B :=
  match m with
  | Ok a => k a
  | Raise e => Raise e
  end.

Definition ZeroDivisionError : exn := Builtin "ZeroDivisionError" "division by zero".

(** [a / b] on integers (true division) *)
Definition div (a b : Z) : except Q :=
  if (b =? 0)%Z then Raise ZeroDivisionError
  else Ok (inject_Z a / inject_Z b)%Q.

(** The [handle_exceptions] decorator around a synchronous function
    named [func_name]: domain errors pass, anything else becomes a
    SERVICE_ERROR. *)
Definition handle_exceptions {A} (func_name : string) (r : except A) : except A :=
  match r with
  | Ok a => Ok a
  | Raise e =>
      if is_domain e then Raise e
      else Raise (HealthcareCopilotException
                    ("Error in " ++ func_name ++ ": " ++ str e) "SERVICE_ERROR")
  end.

End Exceptions.
Import Exceptions.

(** ** agents/base.py *)

Module Base.

(** [AgentState], with the type [R] of the [result] bag of the owning agent. *)
Record AgentState (R : Type) : Type := mkAgentState {
  query : string;
  context : Py.Dict;
  confidence : Q;
  reasoning : list string;
  result : option R;
  error : option string
}.
Arguments mkAgentState {R}.
Arguments query {R}.
Arguments context {R}.
Arguments confidence {R}.
Arguments reasoning {R}.
Arguments result {R}.
Arguments error {R}.

(** [AgentState(query=..., context=...)] with the declared defaults *)
Definition new_state {R} (q : string) (ctx : Py.Dict) : AgentState R :=
  mkAgentState q ctx 0%Q [] None None.

(** Code that mutates the state and may raise. *)
Definition M (R A : Type) : Type := AgentState R -> AgentState R * except A.

Definition ret {R A} (a : A) : M R A := fun state => (state, Ok a).

Definition mbind {R A B} (m : M R A) (k : A -> M R B) : M R B :=
  fun state =>
    match m state with
    | (state', Ok a) => k a state'
    | (state', Raise e) => (state', Raise e)
    end.

Definition get {R} : M R (AgentState R) := fun state => (state, Ok state).

Definition lift {R A} (r : except A) : M R A := fun state => (state, r).

Definition set_result {R} (r : R) : M R unit :=
  fun state =>
    (mkAgentState (query state) (context state) (confidence state)
       (reasoning state) (Some r) (error state), Ok tt).

Definition log_reasoning {R} (step : string) : M R unit :=
  fun state =>
    (mkAgentState (query state) (context state) (confidence state)
       (reasoning state ++ [step]) (result state) (error state), Ok tt).

Definition set_confidence {R} (c : Q) (reason : string) : M R unit :=
  fun state =>
    log_reasoning ("Confidence set to " ++ Py.format_2f c ++ ": " ++ reason)
      (mkAgentState (query state) (context state) c
         (reasoning state) (result state) (error state)).

Definition handle_error {R} (state : AgentState R) (e : exn) : AgentState R :=
  let error_msg := Exceptions.str e in
  let state := mkAgentState (query state) (context state) (confidence state)
                 (reasoning state) (result state) (Some error_msg) in
  let state := mkAgentState (query state) (context state) 0%Q
                 (reasoning state) (result state) (error state) in
  fst (log_reasoning ("Error occurred: " ++ error_msg) state).

(** [try: body; return state / except Exception as e: return
    self.handle_error(state, e)] *)
Definition try_process {R} (body : M R unit) (state : AgentState R) : AgentState R :=
  match body state with
  | (state', Ok _) => state'
  | (state', Raise e) => handle_error state' e
  end.

End Base.

Declare Scope agent_scope.
Delimit Scope agent_scope with agent.
Notation "x <- m ;; k" := (Base.mbind m (fun x => k))
  (at level 100, m at next level, right associativity) : agent_scope.
Notation "'do' m ;; k" := (Base.mbind m (fun _ => k))
  (at level 100, m at next level, right associativity) : agent_scope.

(** ** services/vector_service.py: similarity search *)

Module VectorService.

(** A formatted search result. *)
Record Doc : Type := mkDoc {
  content : string;
  metadata : Py.Dict;
  score : Q;
  source : string
}.

(** One hit of the collection's nearest-neighbour query: document text,
    metadata and distance. *)
Definition Hit : Type := (string * Py.Dict * Q)%type.

Fixpoint dict_get (k : string) (d : Py.Dict) : option Py.json :=
  match d with
  | [] => None
  | (k', v) :: d' => if String.eqb k k' then Some v else dict_get k d'
  end.

(** [metadata.get("filename", "unknown")]; file names are stored as text. *)
Definition filename_of (md : Py.Dict) : string :=
  match dict_get "filename" md with
  | Some (Py.JStr s) => s
  | _ => "unknown"
  end.

Definition format_hit (h : Hit) : Doc :=
  let '(document, md, distance) := h in
  let similarity_score := Py.max 0 (1 - distance)%Q in
  mkDoc document md similarity_score (filename_of md).

(** [search_similar], given the answer of the collection's [query]. *)
Definition search_similar (collection_query : string -> nat -> except (list Hit))
    (q : string) (max_results : nat) : except (list Doc) :=
  Exceptions.handle_exceptions "search_similar"
    match collection_query q max_results with
    | Ok hits => Ok (map format_hit hits)
    | Raise e =>
        Raise (VectorStoreError ("Similarity search failed: " ++ Exceptions.str e)
                 (Some "search_similar"))
    end.

End VectorService.

(** ** services/llm_service.py *)

(** The three structured outputs the prompts ask for. A field is [None]
    when the decoded object lacks the key. *)

Module PolicyInterpretation.
Record t : Type := mk {
  direct_answer : option string;
  requirements : option (list string);
  procedures : option (list string);
  exceptions : option (list string);
  compliance_notes : option (list string)
}.
End PolicyInterpretation.

Module WorkflowStep.
Record t : Type := mk {
  step_number : option Z;
  description : option string;
  estimated_time : option string;
  responsible_role : option string;
  requirements : option (list string)
}.
End WorkflowStep.

Module WorkflowPlan.
Record t : Type := mk {
  workflow_type : option string;
  steps : option (list WorkflowStep.t);
  total_duration : option string;
  required_roles : option (list string);
  compliance_requirements : option (list string)
}.
End WorkflowPlan.

Module ResolutionStep.
Record t : Type := mk {
  step : option Z;
  action : option string;
  responsible : option string;
  timeline : option string
}.
End ResolutionStep.

Module ExceptionPlan.
Record t : Type := mk {
  exception_type : option string;
  severity : option string;
  immediate_actions : option (list string);
  resolution_steps : option (list ResolutionStep.t);
  escalation_path : option (list string);
  prevention_measures : option (list string)
}.
End ExceptionPlan.

Module LLMService.

(** The messages sent to the model: a fixed system instruction per
    operation and a user message built from these arguments. *)
Inductive prompt : Type :=
| PolicyPrompt (query policy_content : string) (context : Py.Dict)
| WorkflowPrompt (query policy_content : string) (context : Py.Dict)
| ExceptionPrompt (query policy_content : string) (context : Py.Dict)
| RoutingPrompt (query : string) (context : Py.Dict).

(** What lies outside the repository: the collection's nearest-neighbour
    query, the model call ([self.llm.ainvoke], which may raise) and
    [json.loads] at each of the three shapes ([None] is JSONDecodeError). *)
Record World : Type := mkWorld {
  collection_query : string -> nat -> except (list VectorService.Hit);
  ainvoke : prompt -> except string;
  loads_policy : string -> option PolicyInterpretation.t;
  loads_workflow : string -> option WorkflowPlan.t;
  loads_exception : string -> option ExceptionPlan.t
}.

Definition blank_line : string := String "010"%char (String "010"%char "").

Definition _parse_fallback_response (content : string) : PolicyInterpretation.t :=
  PolicyInterpretation.mk
    (Some (if (200 <? String.length content)%nat
           then Py.slice_to 200 content ++ "..." else content))
    (Some []) (Some []) (Some []) (Some []).

Definition _parse_workflow_fallback (content : string) : WorkflowPlan.t :=
  WorkflowPlan.mk
    (Some "general_procedure")
    (Some [WorkflowStep.mk (Some 1%Z)
             (Some (if (100 <? String.length content)%nat
                    then Py.slice_to 100 content ++ "..." else content))
             (Some "10-15 minutes") (Some "Healthcare Staff") (Some [])])
    (Some "15-30 minutes")
    (Some ["Healthcare Staff"])
    (Some []).

Definition _parse_exception_fallback (content : string) : ExceptionPlan.t :=
  ExceptionPlan.mk
    (Some "general_exception")
    (Some "medium")
    (Some [if (100 <? String.length content)%nat
           then Py.slice_to 100 content ++ "..." else content])
    (Some [ResolutionStep.mk (Some 1%Z)
             (Some "Review the situation and consult supervisor")
             (Some "Healthcare Staff") (Some "immediate")])
    (Some ["Supervisor"; "Department Manager"])
    (Some []).

Section Generation.
Variable w : World.

Definition generate_policy_interpretation (query policy_content : string)
    (context : Py.Dict) : except PolicyInterpretation.t :=
  match ainvoke w (PolicyPrompt query policy_content context) with
  | Ok content =>
      match loads_policy w content with
      | Some result => Ok result
      | None => Ok (_parse_fallback_response content)
      end
  | Raise e =>
      Raise (QueryProcessingError
               ("Policy interpretation failed: " ++ Exceptions.str e) None)
  end.

Definition generate_workflow_plan (query : string)
    (policy_docs : list VectorService.Doc) (context : Py.Dict)
    : except WorkflowPlan.t :=
  let policy_content := Py.join blank_line (map VectorService.content policy_docs) in
  match ainvoke w (WorkflowPrompt query policy_content context) with
  | Ok content =>
      match loads_workflow w content with
      | Some result => Ok result
      | None => Ok (_parse_workflow_fallback content)
      end
  | Raise e =>
      Raise (QueryProcessingError
               ("Workflow planning failed: " ++ Exceptions.str e) None)
  end.

Definition generate_exception_handling (query : string)
    (policy_docs : list VectorService.Doc) (context : Py.Dict)
    : except ExceptionPlan.t :=
  let policy_content := Py.join blank_line (map VectorService.content policy_docs) in
  match ainvoke w (ExceptionPrompt query policy_content context) with
  | Ok content =>
      match loads_exception w content with
      | Some result => Ok result
      | None => Ok (_parse_exception_fallback content)
      end
  | Raise e =>
      Raise (QueryProcessingError
               ("Exception handling failed: " ++ Exceptions.str e) None)
  end.

(** [any(word in query_lower for word in words)] *)
Definition any_word_in (words : list string) (query_lower : string) : bool :=
  existsb (fun word => Py.contains word query_lower) words.

Definition _fallback_routing (query : string) : string :=
  let query_lower := Py.lower query in
  if any_word_in ["policy"; "regulation"; "compliance"; "rule"] query_lower
  then "PolicyInterpreter"
  else if any_word_in ["workflow"; "procedure"; "steps"; "process"] query_lower
  then "WorkflowPlanner"
  else if any_word_in ["problem"; "error"; "exception"; "emergency"; "issue"] query_lower
  then "ExceptionHandler"
  else "PolicyInterpreter".

Definition valid_agents : list string :=
  ["PolicyInterpreter"; "WorkflowPlanner"; "ExceptionHandler"].

Definition route_query (query : string) (context : Py.Dict) : string :=
  match ainvoke w (RoutingPrompt query context) with
  | Ok content =>
      let agent_name := Py.strip content in
      if existsb (String.eqb agent_name) valid_agents then agent_name
      else _fallback_routing query
  | Raise e => _fallback_routing query
  end.

End Generation.

End LLMService.

(** ** agents/policy_interpreter.py *)

Module PolicyInterpreter.
Import Base VectorService LLMService.

Record SourceRef : Type := mkSourceRef {
  src_source : string;
  src_relevance_score : Q;
  src_excerpt : string
}.

(** The structured response stored in [state.result]. *)
Record Response : Type := mkResponse {
  policy_summary : string;
  requirements : list string;
  procedures : list string;
  exceptions : list string;
  compliance_notes : list string;
  sources : list SourceRef;
  recommendations : list string;
  next_steps : list string
}.

Section Agent.
Variable w : World.

Definition _retrieve_policies (query : string) : except (list Doc) :=
  let enhanced_query := query ++ " policy procedure healthcare" in
  Exceptions.bind
    (search_similar (collection_query w) enhanced_query 5)
    (fun results => Ok (List.filter (fun r => Py.Qltb (3 # 10) (score r)) results)).

Definition _generate_recommendations (interpretation : PolicyInterpretation.t)
    : list string :=
  let recommendations := [] in
  let recommendations :=
    if Py.truthy_list (PolicyInterpretation.requirements interpretation)
    then (recommendations ++ ["Ensure all listed requirements are met"])%list
    else recommendations in
  let recommendations :=
    if Py.truthy_list (PolicyInterpretation.procedures interpretation)
    then (recommendations ++ ["Follow documented procedures in sequence"])%list
    else recommendations in
  let recommendations :=
    if Py.truthy_list (PolicyInterpretation.compliance_notes interpretation)
    then (recommendations ++ ["Review compliance requirements carefully"])%list
    else recommendations in
  (recommendations ++ ["Consult supervisor if uncertain about any aspect"])%list.

Definition _generate_next_steps (interpretation : PolicyInterpretation.t)
    : list string :=
  let next_steps := [] in
  let next_steps :=
    if Py.truthy_list (PolicyInterpretation.procedures interpretation)
    then (next_steps ++ ["Begin with the first documented procedure"])%list
    else next_steps in
  (next_steps ++ ["Document all actions for audit trail";
                  "Escalate to supervisor if exceptions apply";
                  "Ensure compliance documentation is complete"])%list.

Definition _structure_response (interpretation : PolicyInterpretation.t)
    (policy_docs : list Doc) : Response :=
  mkResponse
    (Py.get_or (PolicyInterpretation.direct_answer interpretation) "")
    (Py.get_or (PolicyInterpretation.requirements interpretation) [])
    (Py.get_or (PolicyInterpretation.procedures interpretation) [])
    (Py.get_or (PolicyInterpretation.exceptions interpretation) [])
    (Py.get_or (PolicyInterpretation.compliance_notes interpretation) [])
    (map (fun doc =>
            mkSourceRef (source doc) (score doc)
              (Py.join " " (Py.split (Py.slice_to 200 (content doc))) ++ "..."))
         policy_docs)
    (_generate_recommendations interpretation)
    (_generate_next_steps interpretation).

Definition _calculate_confidence (policy_docs : list Doc)
    (interpretation : PolicyInterpretation.t) : Q :=
  match policy_docs with
  | [] => 1 # 10
  | _ =>
      let avg_relevance := (Py.sum (map score policy_docs) / Py.len policy_docs)%Q in
      let llm_boost :=
        if Py.truthy_str (PolicyInterpretation.direct_answer interpretation)
        then 2 # 10 else 0%Q in
      let source_boost := Py.min (2 # 10) (Py.len policy_docs * (5 # 100))%Q in
      Py.min (95 # 100) (avg_relevance + llm_boost + source_boost)%Q
  end.

Definition no_policies_result : Response :=
  mkResponse
    "No specific policies found. Please consult supervisor or policy manual."
    [] [] [] [] []
    ["Consult with supervisor for guidance";
     "Review complete policy documentation";
     "Document query for policy development review"]
    ["Escalate to supervisor";
     "Document the query";
     "Seek department guidance"].

Definition _handle_no_policies : M Response unit :=
  (do log_reasoning "No relevant policies found" ;;
   do set_result no_policies_result ;;
   set_confidence (1 # 10) "No relevant policies found")%agent.

Definition process_body : M Response unit :=
  (state <- get ;;
   do log_reasoning ("Starting LLM-powered policy interpretation: "
                     ++ Py.slice_to 50 (query state) ++ "...") ;;
   policy_docs <- lift (_retrieve_policies (query state)) ;;
   match policy_docs with
   | [] => _handle_no_policies
   | _ =>
     do log_reasoning ("Retrieved " ++ Py.str_of_nat (List.length policy_docs)
                       ++ " relevant policy documents") ;;
     let policy_content := Py.join blank_line (map content policy_docs) in
     interpretation <- lift (generate_policy_interpretation w (query state)
                               policy_content (context state)) ;;
     let structured_response := _structure_response interpretation policy_docs in
     let confidence := _calculate_confidence policy_docs interpretation in
     do set_confidence confidence
          ("LLM interpretation with " ++ Py.str_of_nat (List.length policy_docs)
           ++ " policies") ;;
     do set_result structured_response ;;
     log_reasoning "LLM policy interpretation completed successfully"
   end)%agent.

Definition process (state : AgentState Response) : AgentState Response :=
  try_process process_body state.

End Agent.

End PolicyInterpreter.

(** ** agents/workflow_planner.py *)

Module WorkflowPlanner.
Import Base VectorService LLMService.

Record PolicySource : Type := mkPolicySource {
  ps_source : string;
  ps_relevance_score : Q
}.

Record Checkpoint : Type := mkCheckpoint {
  after_step : nat;
  checkpoint_type : string;
  description : string;
  reviewer_role : string
}.

(** [workflow_plan.copy()] with the keys the enrichment adds;
    [dependencies] is added only when the plan has a [steps] key. *)
Record Enhanced : Type := mkEnhanced {
  plan : WorkflowPlan.t;
  policy_sources : list PolicySource;
  dependencies : option (list string);
  checkpoints : list Checkpoint
}.

Definition _identify_dependencies (steps : list WorkflowStep.t) : list string :=
  fold_left
    (fun dependencies '(i, step) =>
       if (0 <? i)%nat
       then (dependencies ++ ["Step " ++ Py.str_of_nat (i + 1)
                              ++ " depends on completion of Step "
                              ++ Py.str_of_nat i]%string)%list
       else dependencies)
    (Py.enumerate steps) [].

Definition _add_checkpoints (steps : list WorkflowStep.t) : list Checkpoint :=
  fold_left
    (fun checkpoints i =>
       (checkpoints ++ [mkCheckpoint (i + 1) "Quality Review"
                          ("Review completion of steps 1-" ++ Py.str_of_nat (i + 1))
                          "Supervisor"])%list)
    (Py.range 2 (List.length steps) 3) [].

Definition _enhance_workflow (workflow_plan : WorkflowPlan.t)
    (policy_docs : list Doc) : Enhanced :=
  mkEnhanced workflow_plan
    (map (fun doc => mkPolicySource (source doc) (score doc)) policy_docs)
    (match WorkflowPlan.steps workflow_plan with
     | Some steps => Some (_identify_dependencies steps)
     | None => None
     end)
    (_add_checkpoints (Py.get_or (WorkflowPlan.steps workflow_plan) [])).

Definition _calculate_confidence (policy_docs : list Doc)
    (workflow_plan : WorkflowPlan.t) : Q :=
  let base_confidence := 8 # 10 in
  let policy_boost := Py.min (15 # 100) (Py.len policy_docs * (5 # 100))%Q in
  let detail_boost :=
    if Py.truthy_list (WorkflowPlan.steps workflow_plan)
       && (2 <? List.length (Py.get_or (WorkflowPlan.steps workflow_plan) []))%nat
    then 5 # 100 else 0%Q in
  Py.min (95 # 100) (base_confidence + policy_boost + detail_boost)%Q.

Section Agent.
Variable w : World.

Definition _get_relevant_policies (query : string) : except (list Doc) :=
  let enhanced_query := query ++ " workflow procedure policy healthcare" in
  Exceptions.bind
    (search_similar (collection_query w) enhanced_query 3)
    (fun results => Ok (List.filter (fun r => Py.Qltb (2 # 10) (score r)) results)).

Definition process_body : M Enhanced unit :=
  (state <- get ;;
   do log_reasoning ("Starting LLM-powered workflow planning: "
                     ++ Py.slice_to 50 (query state) ++ "...") ;;
   policy_docs <- lift (_get_relevant_policies (query state)) ;;
   do log_reasoning ("Retrieved " ++ Py.str_of_nat (List.length policy_docs)
                     ++ " relevant policies") ;;
   workflow_plan <- lift (generate_workflow_plan w (query state) policy_docs
                            (context state)) ;;
   let enhanced_workflow := _enhance_workflow workflow_plan policy_docs in
   let confidence := _calculate_confidence policy_docs workflow_plan in
   do set_confidence confidence
        ("LLM workflow with " ++ Py.str_of_nat (List.length policy_docs)
         ++ " policies") ;;
   do set_result enhanced_workflow ;;
   log_reasoning "LLM workflow planning completed successfully")%agent.

Definition process (state : AgentState Enhanced) : AgentState Enhanced :=
  try_process process_body state.

End Agent.

End WorkflowPlanner.

(** ** agents/exception_handler_llm.py *)

Module ExceptionHandler.
Import Base VectorService LLMService.

Record PolicySource : Type := mkPolicySource {
  ps_source : string;
  ps_relevance_score : Q
}.

Record RiskAssessment : Type := mkRisk {
  risk_score : Z;
  monitoring_required : bool;
  escalation_needed : bool
}.

(** [exception_plan.copy()] with the three keys the enrichment adds. *)
Record Enhanced : Type := mkEnhanced {
  plan : ExceptionPlan.t;
  policy_sources : list PolicySource;
  timeline_summary : gmap string (list string);
  risk_assessment : RiskAssessment
}.

(** One turn of the loop over the resolution steps. *)
Definition timeline_step (timeline : gmap string (list string))
    (step : ResolutionStep.t) : gmap string (list string) :=
  let timeline_key := Py.get_or (ResolutionStep.timeline step) "short_term" in
  match timeline !! timeline_key with
  | Some bucket =>
      <[timeline_key := (bucket ++ [Py.get_or (ResolutionStep.action step) ""])%list]>
        timeline
  | None => timeline
  end.

Definition _create_timeline_summary (exception_plan : ExceptionPlan.t)
    : gmap string (list string) :=
  let timeline : gmap string (list string) :=
    {[ "immediate" := []; "short_term" := []; "long_term" := [] ]} in
  fold_left timeline_step
    (Py.get_or (ExceptionPlan.resolution_steps exception_plan) [])
    timeline.

Definition risk_levels : gmap string RiskAssessment :=
  {[ "low" := mkRisk 2 false false;
     "medium" := mkRisk 5 true false;
     "high" := mkRisk 8 true true;
     "critical" := mkRisk 10 true true ]}.

Definition _assess_risk_level (exception_plan : ExceptionPlan.t) : RiskAssessment :=
  let severity := Py.get_or (ExceptionPlan.severity exception_plan) "medium" in
  match risk_levels !! severity, risk_levels !! "medium" with
  | Some row, _ => row
  | None, Some medium_row => medium_row
  | None, None => mkRisk 0 false false (* KeyError: the table has the key *)
  end.

Definition _enhance_exception_plan (exception_plan : ExceptionPlan.t)
    (policy_docs : list Doc) : Enhanced :=
  mkEnhanced exception_plan
    (map (fun doc => mkPolicySource (source doc) (score doc)) policy_docs)
    (_create_timeline_summary exception_plan)
    (_assess_risk_level exception_plan).

Definition severity_adjustments : gmap string Q :=
  {[ "low" := 5 # 100; "medium" := 0%Q; "high" := - (5 # 100);
     "critical" := - (1 # 10) ]}%Q.

Definition _calculate_confidence (policy_docs : list Doc)
    (exception_plan : ExceptionPlan.t) : Q :=
  let base_confidence := 75 # 100 in
  let policy_boost := Py.min (15 # 100) (Py.len policy_docs * (5 # 100))%Q in
  let detail_boost :=
    if Py.truthy_list (ExceptionPlan.resolution_steps exception_plan)
       && (1 <? List.length
                  (Py.get_or (ExceptionPlan.resolution_steps exception_plan) []))%nat
    then 5 # 100 else 0%Q in
  let severity := Py.get_or (ExceptionPlan.severity exception_plan) "medium" in
  let severity_adjustment :=
    Py.get_or (severity_adjustments !! severity) 0%Q in
  Py.min (95 # 100)
    (base_confidence + policy_boost + detail_boost + severity_adjustment)%Q.

Section Agent.
Variable w : World.

Definition _get_relevant_policies (query : string) : except (list Doc) :=
  let enhanced_query := query ++ " exception handling emergency procedure policy" in
  Exceptions.bind
    (search_similar (collection_query w) enhanced_query 3)
    (fun results => Ok (List.filter (fun r => Py.Qltb (2 # 10) (score r)) results)).

Definition process_body : M Enhanced unit :=
  (state <- get ;;
   do log_reasoning ("Starting LLM-powered exception handling: "
                     ++ Py.slice_to 50 (query state) ++ "...") ;;
   policy_docs <- lift (_get_relevant_policies (query state)) ;;
   do log_reasoning ("Retrieved " ++ Py.str_of_nat (List.length policy_docs)
                     ++ " relevant policies") ;;
   exception_plan <- lift (generate_exception_handling w (query state) policy_docs
                             (context state)) ;;
   let enhanced_plan := _enhance_exception_plan exception_plan policy_docs in
   let confidence := _calculate_confidence policy_docs exception_plan in
   do set_confidence confidence
        ("LLM exception handling with " ++ Py.str_of_nat (List.length policy_docs)
         ++ " policies") ;;
   do set_result enhanced_plan ;;
   log_reasoning "LLM exception handling completed successfully")%agent.

Definition process (state : AgentState Enhanced) : AgentState Enhanced :=
  try_process process_body state.

End Agent.

End ExceptionHandler.

(** ** utils/config.py *)

Module Config.

(** The settings read by the modelled services. *)
Record Settings : Type := mkSettings {
  rate_limit_requests : Z;
  rate_limit_window : Z;
  max_file_size_mb : Z;
  supported_file_types : string
}.

(** The declared defaults. *)
Definition default_settings : Settings :=
  mkSettings 100 3600 50 "pdf,txt,docx".

End Config.

(** ** pathlib: the suffix of a path (POSIX flavour) *)

Module Path.

(** The components of a path: the fields between slashes, without the
    empty ones and the single dots. *)
Definition parts (path : string) : list string :=
  List.filter (fun c => negb (String.eqb c "") && negb (String.eqb c "."))
    (Py.split_on "/" path).

(** [Path(path).name]: the last component, or the empty string. *)
Definition name (path : string) : string := List.last (parts path) "".

(** [s.rfind(ch)] counted from [i]; [None] stands for -1. *)
Fixpoint rfind_from (i : nat) (ch : ascii) (s : string) : option nat :=
  match s with
  | EmptyString => None
  | String c s' =>
      match rfind_from (S i) ch s' with
      | Some j => Some j
      | None => if Ascii.eqb c ch then Some i else None
      end
  end.

Definition rfind (ch : ascii) (s : string) : option nat := rfind_from 0 ch s.

(** [Path(path).suffix]: from the last dot of the name on, when that dot is
    neither the first nor the last character of the name. *)
Definition suffix (path : string) : string :=
  let name := name path in
  match rfind "." name with
  | Some i =>
      if (0 <? i)%nat && (i <? String.length name - 1)%nat
      then Py.slice_from i name else ""
  | None => ""
  end.

End Path.

(** ** services/document_service.py: validation *)

Module DocumentService.

(** The fields that [__init__] derives from the settings. *)
Record DocumentProcessor : Type := mkDocumentProcessor {
  supported_types : list string;
  max_size_bytes : Z
}.

Definition init (settings : Config.Settings) : DocumentProcessor :=
  mkDocumentProcessor
    (Py.split_on "," (Config.supported_file_types settings))
    (Config.max_file_size_mb settings * 1024 * 1024)%Z.

(** [repr] of a list of plain strings *)
Definition repr_list (l : list string) : string :=
  "[" ++ Py.join ", " (map (fun s => "'" ++ s ++ "'") l) ++ "]".

(** [validate_file] only reads [self]; it returns nothing or raises. *)
Definition validate_file (self : DocumentProcessor) (filename : string)
    (file_size : Z) (content_type : string) : except unit :=
  Exceptions.handle_exceptions "validate_file"
    (if (max_size_bytes self <? file_size)%Z
     then Raise (DocumentProcessingError
                   ("File size " ++ Py.str_of_Z file_size
                    ++ " bytes exceeds maximum allowed size of "
                    ++ Py.str_of_Z (max_size_bytes self) ++ " bytes")
                   (Some filename))
     else
       let file_ext := Py.lstrip_char "." (Py.lower (Path.suffix filename)) in
       if negb (existsb (String.eqb file_ext) (supported_types self))
       then Raise (DocumentProcessingError
                     ("File type '" ++ file_ext
                      ++ "' not supported. Supported types: "
                      ++ repr_list (supported_types self))
                     (Some filename))
       else Ok tt).

End DocumentService.

(** ** services/auth_service.py: the rate limiter *)

Module AuthService.

(** A [datetime] is its number of microseconds since the epoch. *)
Definition datetime : Type := Z.

(** [(a - b).seconds]: the seconds field of the normalised difference
    (days, 0 <= seconds < 86400, 0 <= microseconds < 1000000). *)
Definition timedelta_seconds (a b : datetime) : Z :=
  (((a - b) / 1000000) mod 86400)%Z.

(** [(a - b).total_seconds()], rounded down to whole seconds. *)
Definition timedelta_total_seconds (a b : datetime) : Z :=
  ((a - b) / 1000000)%Z.

Record RateLimiter : Type := mkRateLimiter {
  requests : gmap string (list datetime)
}.

(** [RateLimiter()] *)
Definition new : RateLimiter := mkRateLimiter ∅.

(** [is_allowed], with the value [now] of the clock: the answer and the
    limiter afterwards. *)
Definition is_allowed (self : RateLimiter) (now : datetime) (key : string)
    (limit window : Z) : bool * RateLimiter :=
  let requests :=
    match requests self !! key with
    | None => <[key := []]> (requests self)
    | Some _ => requests self
    end in
  let kept :=
    List.filter (fun req_time => (timedelta_seconds now req_time <? window)%Z)
      (Py.get_or (requests !! key) []) in
  let requests := <[key := kept]> requests in
  if (Z.of_nat (List.length kept) <? limit)%Z
  then (true, mkRateLimiter (<[key := (kept ++ [now])%list]> requests))
  else (false, mkRateLimiter requests).

(** The answers to a series of checks for one key at the given times. *)
Fixpoint run (self : RateLimiter) (key : string) (limit window : Z)
    (times : list datetime) : list bool * RateLimiter :=
  match times with
  | [] => ([], self)
  | now :: times' =>
      let '(ok, self') := is_allowed self now key limit window in
      let '(oks, self'') := run self' key limit window times' in
      (ok :: oks, self'')
  end.

End AuthService.

(** ** services/evaluation_service.py: RAG metrics *)

Module EvaluationService.

(** A retrieved document as the metrics read it: [doc.get('content', '')]
    and [doc.get('score', 0.0)]. *)
Record Doc : Type := mkDoc {
  content : option string;
  score : option Q
}.

Record RetrievalQuality : Type := mkRetrievalQuality {
  quality : string;
  rq_score : Q;
  num_docs : option nat;
  top_score : option Q
}.

Record Completeness : Type := mkCompleteness {
  has_content : bool;
  min_length_met : bool;
  has_structure : bool;
  is_complete : bool
}.

Record Metrics : Type := mkMetrics {
  answer_relevance : Q;
  faithfulness : Q;
  context_precision : Q;
  context_recall : Q;
  retrieval_quality : RetrievalQuality;
  response_completeness : Completeness;
  timestamp : Q;
  accuracy : option Q;
  overall_score : Q
}.

Record EvaluationService : Type := mkEvaluationService {
  metrics_history : list Metrics
}.

(** [set(s.lower().split())] *)
Definition words (s : string) : gset string :=
  list_to_set (Py.split (Py.lower s)).

(** [len(a.intersection(b))] and [len(a)] for sets *)
Definition overlap_count (a b : gset string) : Z := Z.of_nat (size (a ∩ b)).
Definition set_len (a : gset string) : Z := Z.of_nat (size a).

Definition is_empty_str (s : string) : bool := String.eqb s "".

Definition _calculate_answer_relevance (query answer : string) : Q :=
  if is_empty_str answer || is_empty_str query then 0%Q
  else
    let query_words := words query in
    let answer_words := words answer in
    let overlap := overlap_count query_words answer_words in
    let relevance :=
      if (set_len query_words =? 0)%Z then 0%Q
      else (inject_Z overlap / inject_Z (set_len query_words))%Q in
    let relevance :=
      if (String.length answer <? 50)%nat then (relevance * (7 # 10))%Q
      else relevance in
    Py.min relevance 1.

Definition _calculate_faithfulness (answer : string) (retrieved_docs : list Doc) : Q :=
  match retrieved_docs with
  | [] => 0%Q
  | _ =>
      if is_empty_str answer then 0%Q
      else
        let answer_words := words answer in
        let doc_words :=
          fold_left (fun doc_words doc => doc_words ∪ words (Py.get_or (content doc) ""))
            retrieved_docs (∅ : gset string) in
        if (set_len answer_words =? 0)%Z then 0%Q
        else
          let overlap := overlap_count answer_words doc_words in
          let faithfulness := (inject_Z overlap / inject_Z (set_len answer_words))%Q in
          Py.min faithfulness 1
  end.

(** One turn of the loop of [_calculate_context_precision]: the division
    by the number of answer words is not guarded. *)
Definition precision_step (answer_words : gset string) (relevant_count : except Z)
    (doc : Doc) : except Z :=
  Exceptions.bind relevant_count (fun relevant_count =>
    let content := Py.get_or (content doc) "" in
    let doc_words := words content in
    let overlap := overlap_count answer_words doc_words in
    Exceptions.bind (Exceptions.div overlap (set_len answer_words)) (fun ratio =>
      if Py.Qltb (2 # 10) ratio then Ok (relevant_count + 1)%Z
      else Ok relevant_count)).

Definition _calculate_context_precision (retrieved_docs : list Doc) (answer : string)
    : except Q :=
  match retrieved_docs with
  | [] => Ok 0%Q
  | _ =>
      let answer_words := words answer in
      Exceptions.bind
        (fold_left (precision_step answer_words) retrieved_docs (Ok 0%Z))
        (fun relevant_count =>
           Exceptions.div relevant_count (Z.of_nat (List.length retrieved_docs)))
  end.

Definition scores_of (retrieved_docs : list Doc) : list Q :=
  map (fun doc => Py.get_or (score doc) 0%Q) retrieved_docs.

Definition _calculate_context_recall (retrieved_docs : list Doc) (answer : string) : Q :=
  match retrieved_docs with
  | [] => 0%Q
  | _ =>
      let scores := scores_of retrieved_docs in
      let avg_score := (Py.sum scores / Py.len scores)%Q in
      Py.min avg_score 1
  end.

(** [max(scores)] of a non-empty list *)
Definition max_list (x : Q) (l : list Q) : Q := fold_left Py.max l x.

Definition _evaluate_retrieval_quality (retrieved_docs : list Doc) : RetrievalQuality :=
  match scores_of retrieved_docs with
  | [] => mkRetrievalQuality "poor" 0 None None
  | x :: rest as scores =>
      let avg_score := (Py.sum scores / Py.len scores)%Q in
      let quality :=
        if Py.Qltb (8 # 10) avg_score then "excellent"
        else if Py.Qltb (6 # 10) avg_score then "good"
        else if Py.Qltb (4 # 10) avg_score then "fair"
        else "poor" in
      mkRetrievalQuality quality avg_score (Some (List.length retrieved_docs))
        (Some (max_list x rest))
  end.

Definition _check_response_completeness (answer : string) : Completeness :=
  mkCompleteness
    (0 <? String.length (Py.strip answer))%nat
    (20 <=? String.length answer)%nat
    (existsb (fun marker => Py.contains marker answer)
       ["."; ":"; String "010"%char ""])
    (negb (Py.endswith "..." answer)).

Definition _calculate_accuracy (answer ground_truth : string) : Q :=
  let answer_words := words answer in
  let truth_words := words ground_truth in
  if (set_len truth_words =? 0)%Z then 0%Q
  else (inject_Z (overlap_count answer_words truth_words)
        / inject_Z (set_len truth_words))%Q.

Definition _calculate_overall_score (answer_relevance faithfulness
    context_precision context_recall : Q) : Q :=
  let score :=
    (0 + answer_relevance * (3 # 10) + faithfulness * (3 # 10)
     + context_precision * (2 # 10) + context_recall * (2 # 10))%Q in
  Py.min score 1.

(** [evaluate_rag_response], with the value [now] of [time.time()]: the
    metrics, or the exception that escapes, and the service afterwards.
    The entries of the dictionary are computed in the order written. *)
Definition evaluate_rag_response (self : EvaluationService) (query answer : string)
    (retrieved_docs : list Doc) (ground_truth : option string) (now : Q)
    : except Metrics * EvaluationService :=
  let answer_relevance := _calculate_answer_relevance query answer in
  let faithfulness := _calculate_faithfulness answer retrieved_docs in
  match _calculate_context_precision retrieved_docs answer with
  | Raise e => (Raise e, self)
  | Ok context_precision =>
      let context_recall := _calculate_context_recall retrieved_docs answer in
      let retrieval_quality := _evaluate_retrieval_quality retrieved_docs in
      let response_completeness := _check_response_completeness answer in
      let accuracy :=
        if Py.truthy_str ground_truth
        then Some (_calculate_accuracy answer (Py.get_or ground_truth ""))
        else None in
      let overall_score :=
        _calculate_overall_score answer_relevance faithfulness
          context_precision context_recall in
      let metrics :=
        mkMetrics answer_relevance faithfulness context_precision context_recall
          retrieval_quality response_completeness now accuracy overall_score in
      (Ok metrics, mkEvaluationService (metrics_history self ++ [metrics]))
  end.

End EvaluationService.

(** ** re: backtracking regular expressions, as far as the patterns of the
    guardrails need them *)

Module Re.

(** A compiled pattern. Repetition applies to one-character classes, which
    is all the patterns below use. *)
Inductive regex : Type :=
| Eps
| Chr (p : ascii -> bool)
| Boundary
| Seq (r1 r2 : regex)
| Alt (r1 r2 : regex)
| Rep (p : ascii -> bool) (lo : nat) (hi : option nat) (greedy : bool).

(** [\w] *)
Definition is_word (c : ascii) : bool :=
  Py.is_digit c || Py.is_upper c || Py.is_lower c || Ascii.eqb c "_".

Definition is_word_opt (c : option ascii) : bool :=
  match c with
  | Some c => is_word c
  | None => false
  end.

Definition head (s : string) : option ascii :=
  match s with
  | String c _ => Some c
  | EmptyString => None
  end.

(** A position: the character before it, if any, and the text after it. *)
Definition pos : Type := (option ascii * string)%type.

(** The repetition of a class between [lo] and [hi] times, then [k]:
    longest first when greedy, shortest first otherwise. *)
Fixpoint rep (p : ascii -> bool) (lo : nat) (hi : option nat) (greedy : bool)
    (prev : option ascii) (s : string) (k : option ascii -> string -> option pos)
    {struct s} : option pos :=
  let stop := if (lo =? 0)%nat then k prev s else None in
  let more :=
    match s with
    | String c s' =>
        if p c && match hi with Some O => false | _ => true end
        then rep p (Nat.pred lo) (option_map Nat.pred hi) greedy (Some c) s' k
        else None
    | EmptyString => None
    end in
  if greedy
  then match more with Some r => Some r | None => stop end
  else match stop with Some r => Some r | None => more end.

(** Match [r] at a position, then [k]; alternatives are tried in order. *)
Fixpoint run (r : regex) (prev : option ascii) (s : string)
    (k : option ascii -> string -> option pos) : option pos :=
  match r with
  | Eps => k prev s
  | Chr p =>
      match s with
      | String c s' => if p c then k (Some c) s' else None
      | EmptyString => None
      end
  | Boundary =>
      if xorb (is_word_opt prev) (is_word_opt (head s)) then k prev s else None
  | Seq r1 r2 => run r1 prev s (fun prev' s' => run r2 prev' s' k)
  | Alt r1 r2 =>
      match run r1 prev s k with
      | Some x => Some x
      | None => run r2 prev s k
      end
  | Rep p lo hi greedy => rep p lo hi greedy prev s k
  end.

(** The match that starts at this position, if any: where it ends. *)
Definition match_at (r : regex) (prev : option ascii) (s : string) : option pos :=
  run r prev s (fun prev' s' => Some (prev', s')).

(** [re.search(r, s)] is not [None], scanning from a position. *)
Fixpoint search_from (r : regex) (prev : option ascii) (s : string) : bool :=
  match match_at r prev s with
  | Some _ => true
  | None =>
      match s with
      | String c s' => search_from r (Some c) s'
      | EmptyString => false
      end
  end.

Definition search (r : regex) (s : string) : bool := search_from r None s.

(** [re.sub(r, repl, s)] for a replacement without escapes: the leftmost
    matches, left to right, without overlap. *)
Fixpoint sub_from (fuel : nat) (r : regex) (repl : string) (prev : option ascii)
    (s : string) : string :=
  match fuel with
  | O => s
  | S fuel' =>
      match match_at r prev s with
      | Some (prev', rest) =>
          if (String.length rest <? String.length s)%nat
          then repl ++ sub_from fuel' r repl prev' rest
          else
            match s with
            | String c s' => repl ++ String c (sub_from fuel' r repl (Some c) s')
            | EmptyString => repl
            end
      | None =>
          match s with
          | String c s' => String c (sub_from fuel' r repl (Some c) s')
          | EmptyString => EmptyString
          end
      end
  end.

Definition sub (r : regex) (repl : string) (s : string) : string :=
  sub_from (S (String.length s)) r repl None s.

(** Pattern syntax, under [re.IGNORECASE]. *)

(** A literal character, whatever its case. *)
Definition lit (c : ascii) : regex :=
  Chr (fun x => Ascii.eqb (Py.lower_char x) (Py.lower_char c)).

(** A literal text, whatever its case. *)
Fixpoint text (s : string) : regex :=
  match s with
  | EmptyString => Eps
  | String c EmptyString => lit c
  | String c s' => Seq (lit c) (text s')
  end.

Fixpoint seq (rs : list regex) : regex :=
  match rs with
  | [] => Eps
  | [r] => r
  | r :: rs' => Seq r (seq rs')
  end.

Fixpoint alt (rs : list regex) : regex :=
  match rs with
  | [] => Eps
  | [r] => r
  | r :: rs' => Alt r (alt rs')
  end.

(** [[...]]: one of the listed characters *)
Definition one_of (chars : string) (c : ascii) : bool :=
  existsb (Ascii.eqb c) (list_ascii_of_string chars).

(** [\d{lo,hi}] *)
Definition digits (lo hi : nat) : regex := Rep Py.is_digit lo (Some hi) true.

(** [[...]?], [[...]*], [[...]+] *)
Definition opt (p : ascii -> bool) : regex := Rep p 0 (Some 1%nat) true.
Definition star (p : ascii -> bool) : regex := Rep p 0 None true.
Definition plus (p : ascii -> bool) : regex := Rep p 1 None true.

(** [.] *)
Definition dot (c : ascii) : bool := negb (Ascii.eqb c "010").

End Re.

(** ** services/guardrails_service.py *)

Module GuardrailsService.

(** A pattern: its source text and its compiled form. *)
Record pattern : Type := mkPattern {
  source : string;
  compiled : Re.regex
}.

Definition is_alnum (c : ascii) : bool :=
  Py.is_digit c || Py.is_upper c || Py.is_lower c.

Definition ssn : pattern :=
  mkPattern "\b\d{3}-\d{2}-\d{4}\b"
    (Re.seq [Re.Boundary; Re.digits 3 3; Re.lit "-"; Re.digits 2 2; Re.lit "-";
             Re.digits 4 4; Re.Boundary]).

Definition phone : pattern :=
  mkPattern "\b\d{3}[-.]?\d{3}[-.]?\d{4}\b"
    (Re.seq [Re.Boundary; Re.digits 3 3; Re.opt (Re.one_of "-."); Re.digits 3 3;
             Re.opt (Re.one_of "-."); Re.digits 4 4; Re.Boundary]).

Definition email : pattern :=
  mkPattern "\b[A-Za-z0-9._%+-]+@[A-Za-z0-9.-]+\.[A-Z|a-z]{2,}\b"
    (Re.seq [Re.Boundary;
             Re.plus (fun c => is_alnum c || Re.one_of "._%+-" c);
             Re.lit "@";
             Re.plus (fun c => is_alnum c || Re.one_of ".-" c);
             Re.lit ".";
             Re.Rep (fun c => Py.is_upper c || Py.is_lower c || Ascii.eqb c "|")
               2 None true;
             Re.Boundary]).

Definition mrn : pattern :=
  mkPattern "\b(MRN|Medical Record Number)[:\s]*\d{6,10}\b"
    (Re.seq [Re.Boundary;
             Re.Alt (Re.text "MRN") (Re.text "Medical Record Number");
             Re.star (fun c => Ascii.eqb c ":" || Py.is_space c);
             Re.digits 6 10; Re.Boundary]).

Definition dob : pattern :=
  mkPattern "\b\d{1,2}[/-]\d{1,2}[/-]\d{2,4}\b"
    (Re.seq [Re.Boundary; Re.digits 1 2; Re.Chr (Re.one_of "/-"); Re.digits 1 2;
             Re.Chr (Re.one_of "/-"); Re.digits 2 4; Re.Boundary]).

Definition credit_card : pattern :=
  let sep := Re.opt (fun c => Ascii.eqb c "-" || Py.is_space c) in
  mkPattern "\b\d{4}[-\s]?\d{4}[-\s]?\d{4}[-\s]?\d{4}\b"
    (Re.seq [Re.Boundary; Re.digits 4 4; sep; Re.digits 4 4; sep; Re.digits 4 4;
             sep; Re.digits 4 4; Re.Boundary]).

(** The dictionary, in insertion order. *)
Definition PII_PATTERNS : list (string * pattern) :=
  [("ssn", ssn); ("phone", phone); ("email", email); ("mrn", mrn); ("dob", dob);
   ("credit_card", credit_card)].

Definition credentials : pattern :=
  mkPattern "\b(password|secret|api[_-]?key|token)\b"
    (Re.seq [Re.Boundary;
             Re.alt [Re.text "password"; Re.text "secret";
                     Re.seq [Re.text "api"; Re.opt (Re.one_of "_-"); Re.text "key"];
                     Re.text "token"];
             Re.Boundary]).

Definition sql_injection : pattern :=
  mkPattern "\b(inject|drop\s+table|union\s+select)\b"
    (Re.seq [Re.Boundary;
             Re.alt [Re.text "inject";
                     Re.seq [Re.text "drop"; Re.plus Py.is_space; Re.text "table"];
                     Re.seq [Re.text "union"; Re.plus Py.is_space; Re.text "select"]];
             Re.Boundary]).

Definition script_tag : pattern :=
  mkPattern "<script[^>]*>.*?</script>"
    (Re.seq [Re.text "<script"; Re.star (fun c => negb (Ascii.eqb c ">"));
             Re.lit ">"; Re.Rep Re.dot 0 None false; Re.text "</script>"]).

Definition PROHIBITED_PATTERNS : list pattern :=
  [credentials; sql_injection; script_tag].

Definition _detect_pii (text : string) : list string :=
  map fst
    (List.filter (fun '(pii_type, pattern) => Re.search (compiled pattern) text)
       PII_PATTERNS).

Definition _detect_prohibited_content (text : string) : list string :=
  map source
    (List.filter (fun pattern => Re.search (compiled pattern) text)
       PROHIBITED_PATTERNS).

Definition sanitize_output (text : string) : string :=
  let sanitized := text in
  let sanitized :=
    fold_left
      (fun sanitized '(pii_type, pattern) =>
         Re.sub (compiled pattern) ("[REDACTED_" ++ Py.upper pii_type ++ "]") sanitized)
      PII_PATTERNS sanitized in
  let sanitized :=
    fold_left
      (fun sanitized pattern => Re.sub (compiled pattern) "[REMOVED]" sanitized)
      PROHIBITED_PATTERNS sanitized in
  sanitized.

End GuardrailsService.

(** ** Reference definitions used to state the properties *)

Module Spec.

(** The action texts, in order, of the resolution steps whose timeline key
    (with [short_term] standing in for an absent field) is [k]. *)
Definition bucket_actions (k : string) (steps : list ResolutionStep.t) : list string :=
  map (fun s => Py.get_or (ResolutionStep.action s) "")
      (List.filter
         (fun s => String.eqb (Py.get_or (ResolutionStep.timeline s) "short_term") k)
         steps).

(** A timeline summary with the given three buckets and no other key. *)
Definition three_buckets (a b c : list string) : gmap string (list string) :=
  {[ "immediate" := a; "short_term" := b; "long_term" := c ]}.

(** An exception plan that only carries resolution steps. *)
Definition plan_of_steps (steps : list ResolutionStep.t) : ExceptionPlan.t :=
  ExceptionPlan.mk None None None (Some steps) None None.

(** "Step i depends on completion of Step i-1" *)
Definition dependency_text (i : nat) : string :=
  "Step " ++ Py.str_of_nat i ++ " depends on completion of Step "
  ++ Py.str_of_nat (i - 1).

(** The Quality Review checkpoint placed after step [m]. *)
Definition checkpoint_after (m : nat) : WorkflowPlanner.Checkpoint :=
  WorkflowPlanner.mkCheckpoint m "Quality Review"
    ("Review completion of steps 1-" ++ Py.str_of_nat m) "Supervisor".

(** A workflow plan that only carries steps. *)
Definition workflow_of_steps (steps : list WorkflowStep.t) : WorkflowPlan.t :=
  WorkflowPlan.mk None (Some steps) None None None.

Definition blank_step : WorkflowStep.t :=
  WorkflowStep.mk None None None None None.

(** The interval [0.0, 0.95]. *)
Definition in_range (c : Q) : Prop := (0 <= c)%Q /\ (c <= 95 # 100)%Q.

(** A world whose collection is empty and whose model is unreachable. *)
Definition empty_world : LLMService.World :=
  LLMService.mkWorld
    (fun _ _ => Ok [])
    (fun _ => Raise (Builtin "ConnectionError" "model unreachable"))
    (fun _ => None) (fun _ => None) (fun _ => None).

(** A world whose model always answers [reply], which never decodes as
    JSON, and whose collection holds the given hits. *)
Definition garbled_world (hits : list VectorService.Hit) (reply : string)
    : LLMService.World :=
  LLMService.mkWorld
    (fun _ _ => Ok hits) (fun _ => Ok reply)
    (fun _ => None) (fun _ => None) (fun _ => None).

(** The three keyword lists of the routing fallback. *)
Definition policy_words : list string :=
  ["policy"; "regulation"; "compliance"; "rule"].
Definition workflow_words : list string :=
  ["workflow"; "procedure"; "steps"; "process"].
Definition exception_words : list string :=
  ["problem"; "error"; "exception"; "emergency"; "issue"].

(** The lowercased query contains one of the words. *)
Definition mentions (words : list string) (query : string) : Prop :=
  exists word, In word words /\ Py.contains word (Py.lower query) = true.

(** The instant [n] seconds after the epoch. *)
Definition seconds (n : Z) : AuthService.datetime := (n * 1000000)%Z.

End Spec.

(** * Further parts of the sources *)

From Stdlib Require DecimalNat.

(** ** Vocabulary of the further properties of the agents *)

Module Trace.
Import Base.

(** [st'] keeps the query and the context of [st] and extends its trace by
    the lines [l]. *)
Definition extends_by {R} (l : list string) (st st' : AgentState R) : Prop :=
  query st' = query st /\ context st' = context st /\
  reasoning st' = (reasoning st ++ l)%list.

(** The outcome of a run: finished without error, with a result and a
    confidence of at least [floor]; or failed, with the error recorded, no
    result and confidence zero. *)
Definition finished_or_failed {R} (floor : Q) (st : AgentState R) : Prop :=
  (error st = None /\ (exists r, result st = Some r) /\ (floor <= confidence st)%Q)
  \/ ((exists msg, error st = Some msg) /\ result st = None /\ confidence st = 0%Q).

End Trace.

(** Sample inputs of the further properties. *)

Module Sample.

(** One hit at distance 0.1: a chunk about visiting hours. *)
Definition visiting_hit : VectorService.Hit :=
  ("Visiting hours end at 8pm.", [("filename", Py.JStr "visitors.txt")], 1 # 10).

(** A world with that hit whose model answers plain prose. *)
Definition prose_world : LLMService.World :=
  Spec.garbled_world [visiting_hit] "Sorry, I can only answer in prose.".

End Sample.

(** ** agents/multi_agent_orchestrator_llm.py *)

Module Orchestrator.
Import Base LLMService.

(** The state an agent hands back, whichever agent it was. *)
Inductive agent_output : Type :=
| PolicyOutput (st : AgentState PolicyInterpreter.Response)
| WorkflowOutput (st : AgentState WorkflowPlanner.Enhanced)
| ExceptionOutput (st : AgentState ExceptionHandler.Enhanced).

(** The values found in a response dictionary. *)
Inductive value : Type :=
| VStr (s : string)
| VInt (z : Z)
| VBool (b : bool)
| VFloat (q : Q)
| VDict (d : Py.Dict)
| VLines (l : list string)
| VOptStr (o : option string)
| VPolicyResult (r : option PolicyInterpreter.Response)
| VWorkflowResult (r : option WorkflowPlanner.Enhanced)
| VExceptionResult (r : option ExceptionHandler.Enhanced).

(** The fields [AgentState] declares, by name. *)
Definition state_field {R} (wrap : option R -> value) (st : AgentState R)
    (name : string) : option value :=
  if String.eqb name "query" then Some (VStr (query st))
  else if String.eqb name "context" then Some (VDict (context st))
  else if String.eqb name "confidence" then Some (VFloat (confidence st))
  else if String.eqb name "reasoning" then Some (VLines (reasoning st))
  else if String.eqb name "result" then Some (wrap (result st))
  else if String.eqb name "error" then Some (VOptStr (error st))
  else None.

(** [state.name]: attribute access on the state; a name that is not a field
    raises AttributeError. *)
Definition getattr (out : agent_output) (name : string) : except value :=
  let found :=
    match out with
    | PolicyOutput st => state_field VPolicyResult st name
    | WorkflowOutput st => state_field VWorkflowResult st name
    | ExceptionOutput st => state_field VExceptionResult st name
    end in
  match found with
  | Some v => Ok v
  | None =>
      Raise (Builtin "AttributeError"
               ("'AgentState' object has no attribute '" ++ name ++ "'"))
  end.

(** [int((t1 - t0) * 1000)]: truncation towards zero *)
Definition elapsed_ms (t0 t1 : Q) : Z :=
  let d := ((t1 - t0) * 1000)%Q in
  (Qnum d ÷ Zpos (Qden d))%Z.

(** The entries of a dictionary display are evaluated in the order written;
    the first one that raises ends the evaluation. *)
Fixpoint build (entries : list (string * except value))
    : except (list (string * value)) :=
  match entries with
  | [] => Ok []
  | (k, Ok v) :: rest =>
      match build rest with
      | Ok d => Ok ((k, v) :: d)
      | Raise e => Raise e
      end
  | (_, Raise e) :: _ => Raise e
  end.

Section Entry.
Variable w : World.

(** The agent chosen by name, run on a fresh state. *)
Definition dispatch (agent_name query : string) (context : Py.Dict) : agent_output :=
  if String.eqb agent_name "PolicyInterpreter"
  then PolicyOutput (PolicyInterpreter.process w (new_state query context))
  else if String.eqb agent_name "WorkflowPlanner"
  then WorkflowOutput (WorkflowPlanner.process w (new_state query context))
  else if String.eqb agent_name "ExceptionHandler"
  then ExceptionOutput (ExceptionHandler.process w (new_state query context))
  else PolicyOutput (PolicyInterpreter.process w (new_state query context)).

(** [process_complex_query], with the readings [start_time] and [end_time]
    of the event-loop clock. *)
Definition process_complex_query (query : string) (context : option Py.Dict)
    (multi_step : bool) (start_time end_time : Q) : list (string * value) :=
  let context := Py.get_or context [] in
  let agent_name := route_query w query context in
  let result := dispatch agent_name query context in
  let processing_time := elapsed_ms start_time end_time in
  match build [("query", Ok (VStr query));
               ("agent_used", Ok (VStr agent_name));
               ("confidence", getattr result "confidence");
               ("reasoning", getattr result "reasoning_log");
               ("result", getattr result "result");
               ("error", getattr result "error");
               ("processing_time_ms", Ok (VInt processing_time));
               ("llm_routing", Ok (VBool true))] with
  | Ok response => response
  | Raise e =>
      [("query", VStr query);
       ("agent_used", VStr "None");
       ("error", VStr (Exceptions.str e));
       ("processing_time_ms", VInt (elapsed_ms start_time end_time))]
  end.

(** [process_workflow_request] and [process_exception_request]: no handler
    around the dictionary.  The [handle_exceptions] decorator has a
    synchronous wrapper: around these coroutine functions it returns the
    coroutine, and what the coroutine raises when awaited passes unchanged. *)
Definition process_workflow_request (query : string) (context : option Py.Dict)
    : except (list (string * value)) :=
  let state := new_state query (Py.get_or context []) in
  let result_state := WorkflowOutput (WorkflowPlanner.process w state) in
  build [("query", Ok (VStr query));
         ("agent_used", Ok (VStr "WorkflowPlanner"));
         ("confidence", getattr result_state "confidence");
         ("reasoning", getattr result_state "reasoning_log");
         ("result", getattr result_state "result");
         ("error", getattr result_state "error")].

Definition process_exception_request (query : string) (context : option Py.Dict)
    : except (list (string * value)) :=
  let state := new_state query (Py.get_or context []) in
  let result_state := ExceptionOutput (ExceptionHandler.process w state) in
  build [("query", Ok (VStr query));
         ("agent_used", Ok (VStr "ExceptionHandler"));
         ("confidence", getattr result_state "confidence");
         ("reasoning", getattr result_state "reasoning_log");
         ("result", getattr result_state "result");
         ("error", getattr result_state "error")].

End Entry.

End Orchestrator.

(** ** services/auth_service.py: roles and permissions *)

Module Authorization.

(** [x in l] for a list of strings *)
Definition mem (x : string) (l : list string) : bool := existsb (String.eqb x) l.

Definition role_permissions : list (string * list string) :=
  [("admin", ["read:all"; "write:all"; "delete:all";
              "manage:users"; "manage:system"; "view:metrics"]);
   ("healthcare_staff", ["read:policies"; "read:workflows"; "read:exceptions";
                         "write:queries"; "write:workflows"; "write:exceptions"]);
   ("supervisor", ["read:all"; "write:all"; "approve:workflows";
                   "manage:staff"; "view:reports"]);
   ("viewer", ["read:policies"; "read:workflows"])].

(** [d.get(k)] on the table *)
Fixpoint lookup_role (role : string) (table : list (string * list string))
    : option (list string) :=
  match table with
  | [] => None
  | (k, v) :: rest => if String.eqb k role then Some v else lookup_role role rest
  end.

(** [get_user_permissions]; the role of a token without one is [None]. *)
Definition get_user_permissions (role : option string) : list string :=
  match role with
  | Some role => Py.get_or (lookup_role role role_permissions) []
  | None => []
  end.

(** The claims of a decoded token that [get_current_user] reads. *)
Record Payload : Type := mkPayload {
  sub : option string;
  payload_username : option string;
  payload_role : option string
}.

(** A user dictionary; a key may be absent. *)
Record User : Type := mkUser {
  user_id : option string;
  username : option string;
  role : option string;
  permissions : option (list string)
}.

(** An answer or the HTTPException raised instead. *)
Inductive http (A : Type) : Type :=
| Pass (a : A)
| HTTPException (status_code : Z) (detail : string).
Arguments Pass {A} a.
Arguments HTTPException {A} status_code detail.

(** [get_current_user], from the payload that [verify_token] returned. *)
Definition get_current_user (payload : Payload) : http User :=
  if Py.truthy_str (sub payload)
  then Pass (mkUser (sub payload) (payload_username payload) (payload_role payload)
               (Some (get_user_permissions (payload_role payload))))
  else HTTPException 401 "Invalid token payload".

Definition check_permission (user : User) (required_permission : string) : bool :=
  let user_permissions := Py.get_or (permissions user) [] in
  if mem "write:all" user_permissions then true
  else mem required_permission user_permissions.

(** The dependency made by [require_permission(permission)]. *)
Definition require_permission (permission : string) (user : User) : http User :=
  if negb (check_permission user permission)
  then HTTPException 403 ("Permission required: " ++ permission)
  else Pass user.

(** The dependency made by [require_role(required_roles)]. *)
Definition require_role (required_roles : list string) (user : User) : http User :=
  match role user with
  | Some user_role =>
      if negb (mem user_role required_roles)
      then HTTPException 403 ("Role required: " ++ Py.join ", " required_roles)
      else Pass user
  | None => HTTPException 403 ("Role required: " ++ Py.join ", " required_roles)
  end.

End Authorization.

(** ** services/auth_service.py: series of requests *)

Module Burst.

(** The times are in order, none before [lo]. *)
Fixpoint ascending_from (lo : Z) (times : list Z) : bool :=
  match times with
  | [] => true
  | t :: times' => (lo <=? t)%Z && ascending_from t times'
  end.

(** The times are in order and all fall in the [window] seconds that
    start at [t0]. *)
Definition within_window (t0 window : Z) (times : list Z) : bool :=
  ascending_from t0 times
  && forallb (fun t => (t <? t0 + window * 1000000)%Z) times.

(** The first [limit] of [n] requests pass. *)
Definition first_pass (limit : Z) (n : nat) : list bool :=
  map (fun i => (Z.of_nat i <? limit)%Z) (seq 0 n).

End Burst.

Module Staff.

Definition supervisor_payload : Authorization.Payload :=
  Authorization.mkPayload (Some "u17") (Some "lee") (Some "supervisor").

Definition supervisor_user : Authorization.User :=
  Authorization.mkUser (Some "u17") (Some "lee") (Some "supervisor")
    (Some ["read:all"; "write:all"; "approve:workflows"; "manage:staff";
           "view:reports"]).

End Staff.

(** ** re.findall, as far as the sources use it: the number of matches *)

Module Findall.

(** [len(re.findall(r, s))]: the leftmost matches, left to right, without
    overlap. *)
Fixpoint count_from (fuel : nat) (r : Re.regex) (prev : option ascii) (s : string)
    : nat :=
  match fuel with
  | O => 0
  | S fuel' =>
      match Re.match_at r prev s with
      | Some (prev', rest) =>
          if (String.length rest <? String.length s)%nat
          then S (count_from fuel' r prev' rest)
          else
            match s with
            | String c s' => S (count_from fuel' r (Some c) s')
            | EmptyString => 1
            end
      | None =>
          match s with
          | String c s' => count_from fuel' r (Some c) s'
          | EmptyString => 0
          end
      end
  end.

Definition count (r : Re.regex) (s : string) : nat :=
  count_from (S (String.length s)) r None s.

End Findall.

(** ** services/guardrails_service.py: validation and risk *)

Module GuardrailsChecks.
Import GuardrailsService.

Definition SENSITIVE_TERMS : list string :=
  ["diagnosis"; "treatment"; "medication"; "prescription";
   "patient name"; "patient id"; "insurance number"].

(** The patterns of [_assess_hallucination_risk]. The first two are used
    with [re.IGNORECASE], the other three without it. *)
Definition absolute_words : pattern :=
  mkPattern "\b(always|never|all|none|every|must|cannot)\b"
    (Re.seq [Re.Boundary;
             Re.alt [Re.text "always"; Re.text "never"; Re.text "all";
                     Re.text "none"; Re.text "every"; Re.text "must";
                     Re.text "cannot"];
             Re.Boundary]).

Definition certainty_words : pattern :=
  mkPattern "\b(definitely|certainly|absolutely|guaranteed)\b"
    (Re.seq [Re.Boundary;
             Re.alt [Re.text "definitely"; Re.text "certainly";
                     Re.text "absolutely"; Re.text "guaranteed"];
             Re.Boundary]).

Definition percentage : pattern :=
  mkPattern "\b\d+%\b"
    (Re.seq [Re.Boundary; Re.plus Py.is_digit; Re.Chr (fun c => Ascii.eqb c "%");
             Re.Boundary]).

Definition dollars : pattern :=
  mkPattern "\$\d+"
    (Re.seq [Re.Chr (fun c => Ascii.eqb c "$"); Re.plus Py.is_digit]).

Definition year : pattern :=
  mkPattern "\b\d{4}\b"
    (Re.seq [Re.Boundary; Re.digits 4 4; Re.Boundary]).

Definition absolute_patterns : list pattern := [absolute_words; certainty_words].
Definition specific_patterns : list pattern := [percentage; dollars; year].

(** [sum(len(re.findall(pattern, output)) for pattern in patterns)] *)
Definition count_all (patterns : list pattern) (output : string) : nat :=
  fold_left (fun total pattern => (total + Findall.count (compiled pattern) output)%nat)
    patterns 0%nat.

Definition _detect_sensitive_terms (text : string) : list string :=
  let text_lower := Py.lower text in
  List.filter (fun term => Py.contains term text_lower) SENSITIVE_TERMS.

Definition _assess_hallucination_risk (output : string) (source_docs : list string)
    : string :=
  match source_docs with
  | [] => "high"
  | _ =>
      let absolute_count := count_all absolute_patterns output in
      let specific_count := count_all specific_patterns output in
      if (5 <? absolute_count)%nat || (3 <? specific_count)%nat then "high"
      else if (2 <? absolute_count)%nat || (1 <? specific_count)%nat then "medium"
      else "low"
  end.

Definition _calculate_faithfulness (output : string) (source_docs : list string) : Q :=
  match source_docs with
  | [] => 0%Q
  | _ =>
      let output_words := EvaluationService.words output in
      let source_words :=
        fold_left (fun source_words doc => source_words ∪ EvaluationService.words doc)
          source_docs (∅ : gset string) in
      if (EvaluationService.set_len output_words =? 0)%Z then 0%Q
      else
        let overlap := EvaluationService.overlap_count output_words source_words in
        let faithfulness :=
          (inject_Z overlap / inject_Z (EvaluationService.set_len output_words))%Q in
        Py.min faithfulness 1
  end.

Definition nonempty {A} (l : list A) : bool :=
  match l with [] => false | _ => true end.

Definition _calculate_risk_level (text : string) : string :=
  let pii_found := _detect_pii text in
  let prohibited := _detect_prohibited_content text in
  let sensitive := _detect_sensitive_terms text in
  if nonempty pii_found || nonempty prohibited then "high"
  else if (3 <? List.length sensitive)%nat then "medium"
  else "low".

Record SafetyReport : Type := mkSafetyReport {
  is_safe : bool;
  safety_pii_detected : bool;
  prohibited_content : bool;
  sensitive_terms : list string;
  risk_level : string
}.

Definition check_content_safety (text : string) : SafetyReport :=
  mkSafetyReport true
    (nonempty (_detect_pii text))
    (nonempty (_detect_prohibited_content text))
    (_detect_sensitive_terms text)
    (_calculate_risk_level text).

Definition validate_input (text : string) : bool * list string :=
  let violations := [] in
  let pii_found := _detect_pii text in
  let violations :=
    if nonempty pii_found
    then List.app violations (map (fun pii_type => "PII detected: " ++ pii_type) pii_found)
    else violations in
  let prohibited := _detect_prohibited_content text in
  let violations :=
    if nonempty prohibited
    then List.app violations
           (map (fun pattern => "Prohibited content: " ++ pattern) prohibited)
    else violations in
  let violations :=
    if (10000 <? Z.of_nat (String.length text))%Z
    then List.app violations ["Input exceeds maximum length (10000 characters)"]
    else violations in
  let violations :=
    if String.eqb (Py.strip text) ""
    then List.app violations ["Input cannot be empty"]
    else violations in
  let is_valid := (List.length violations =? 0)%nat in
  (is_valid, violations).

Record Report : Type := mkReport {
  pii_detected : bool;
  hallucination_risk : string;
  faithfulness_score : Q;
  issues : list string
}.

Definition validate_output (text : string) (source_docs : list string)
    : bool * Report :=
  let report := mkReport false "low" 1 [] in
  let pii_found := _detect_pii text in
  let report :=
    if nonempty pii_found
    then mkReport true (hallucination_risk report) (faithfulness_score report)
           (List.app (issues report) ["PII in output: " ++ Py.join ", " pii_found])
    else report in
  let hallucination_risk := _assess_hallucination_risk text source_docs in
  let report :=
    mkReport (pii_detected report) hallucination_risk (faithfulness_score report)
      (issues report) in
  let report :=
    if existsb (String.eqb hallucination_risk) ["high"; "critical"]
    then mkReport (pii_detected report) (GuardrailsChecks.hallucination_risk report)
           (faithfulness_score report)
           (List.app (issues report) ["High hallucination risk detected"])
    else report in
  let faithfulness := _calculate_faithfulness text source_docs in
  let report :=
    mkReport (pii_detected report) (GuardrailsChecks.hallucination_risk report)
      faithfulness (issues report) in
  let report :=
    if Py.Qltb faithfulness (5 # 10)
    then mkReport (pii_detected report) (GuardrailsChecks.hallucination_risk report)
           (faithfulness_score report)
           (List.app (issues report)
              ["Low faithfulness score: " ++ Py.format_2f faithfulness])
    else report in
  let is_valid := (List.length (issues report) =? 0)%nat in
  (is_valid, report).

End GuardrailsChecks.

(** ** services/evaluation_service.py: LLM output, latency, aggregates *)

Module OutputEvaluation.
Import EvaluationService.

(** [_check_coherence]; the division is written as the source has it,
    behind the test that the words are not all distinct. *)
Definition _check_coherence (text : string) : except bool :=
  if (String.length text <? 10)%nat then Ok false
  else
    let words := Py.split (Py.lower text) in
    let distinct := size (list_to_set words : gset string) in
    if negb (List.length words =? distinct)%nat
    then
      Exceptions.bind
        (Exceptions.div (Z.of_nat distinct) (Z.of_nat (List.length words)))
        (fun ratio => if Py.Qltb ratio (5 # 10) then Ok false else Ok true)
    else Ok true.

(** [_check_format_compliance]; [json_ok] tells whether [json.loads]
    accepts the text. *)
Definition _check_format_compliance (json_ok : string -> bool) (output : string)
    (expected_format : option string) : bool :=
  if negb (Py.truthy_str expected_format) then true
  else if String.eqb (Py.get_or expected_format "") "json" then json_ok output
  else true.

Definition _detect_hallucination_markers (text : string) : list string :=
  let markers := [] in
  let markers :=
    if existsb (fun word => Py.contains word (Py.lower text))
         ["always"; "never"; "definitely"; "certainly"]
    then List.app markers ["absolute_statements"]
    else markers in
  let markers :=
    if Re.search (GuardrailsService.compiled GuardrailsChecks.percentage) text
    then List.app markers ["specific_percentages"]
    else markers in
  markers.

Record ConfidenceIndicators : Type := mkConfidenceIndicators {
  has_uncertainty : bool;
  has_confidence : bool;
  has_hedging : bool
}.

Definition _extract_confidence_indicators (text : string) : ConfidenceIndicators :=
  let text_lower := Py.lower text in
  mkConfidenceIndicators
    (existsb (fun word => Py.contains word text_lower)
       ["may"; "might"; "could"; "possibly"])
    (existsb (fun word => Py.contains word text_lower)
       ["will"; "must"; "definitely"; "certainly"])
    (existsb (fun word => Py.contains word text_lower)
       ["typically"; "generally"; "usually"; "often"]).

Record OutputMetrics : Type := mkOutputMetrics {
  output_length : nat;
  is_coherent : bool;
  format_compliance : bool;
  contains_hallucination_markers : list string;
  confidence_indicators : ConfidenceIndicators;
  output_timestamp : Q
}.

(** [evaluate_llm_output], with the value [now] of [time.time()]. *)
Definition evaluate_llm_output (json_ok : string -> bool) (prompt output : string)
    (expected_format : option string) (now : Q) : except OutputMetrics :=
  Exceptions.bind (_check_coherence output) (fun is_coherent =>
    Ok (mkOutputMetrics (String.length output) is_coherent
          (_check_format_compliance json_ok output expected_format)
          (_detect_hallucination_markers output)
          (_extract_confidence_indicators output)
          now)).

Definition _classify_performance (latency_ms : Q) : string :=
  if Py.Qltb latency_ms 500 then "excellent"
  else if Py.Qltb latency_ms 1000 then "good"
  else if Py.Qltb latency_ms 2000 then "acceptable"
  else "poor".

Record LatencyMetrics : Type := mkLatencyMetrics {
  latency_ms : Q;
  meets_sla : bool;
  performance_tier : string
}.

Definition calculate_latency_metrics (start_time end_time : Q) : LatencyMetrics :=
  let latency_ms := ((end_time - start_time) * 1000)%Q in
  mkLatencyMetrics latency_ms (Py.Qltb latency_ms 2000)
    (_classify_performance latency_ms).

(** [l[-k:]] for an integer [k]: a negative start counts from the end and
    stops at the beginning; a start that is not negative counts from the
    beginning and stops at the end. *)
Definition slice_last {A} (k : Z) (l : list A) : list A :=
  let n := Z.of_nat (List.length l) in
  let start := (- k)%Z in
  let start := if (start <? 0)%Z then Z.max (n + start) 0 else Z.min start n in
  skipn (Z.to_nat start) l.

Definition _avg (values : list Q) : Q :=
  match values with
  | [] => 0%Q
  | _ => (Py.sum values / Py.len values)%Q
  end.

Record Aggregate : Type := mkAggregate {
  avg_answer_relevance : Q;
  avg_faithfulness : Q;
  avg_context_precision : Q;
  avg_overall_score : Q;
  total_evaluations : nat;
  window_size : nat
}.

(** [get_aggregate_metrics]; [None] stands for the empty dictionary. *)
Definition get_aggregate_metrics (self : EvaluationService) (window_size : Z)
    : option Aggregate :=
  match metrics_history self with
  | [] => None
  | _ =>
      let recent_metrics := slice_last window_size (metrics_history self) in
      Some (mkAggregate
              (_avg (map answer_relevance recent_metrics))
              (_avg (map faithfulness recent_metrics))
              (_avg (map context_precision recent_metrics))
              (_avg (map overall_score recent_metrics))
              (List.length (metrics_history self))
              (List.length recent_metrics))
  end.

End OutputEvaluation.

(** ** Where a percent sign stands *)

Module Percent.

(** Some percent sign of the text is directly followed by a letter, a
    digit or an underscore. *)
Fixpoint before_word (s : string) : bool :=
  match s with
  | String c s' =>
      (Ascii.eqb c "%" && Re.is_word_opt (Re.head s')) || before_word s'
  | EmptyString => false
  end.

End Percent.

(** ** Vocabulary of the metric statements *)

Module Metric.

(** The interval [0.0, 1.0]. *)
Definition unit_interval (x : Q) : Prop := (0 <= x)%Q /\ (x <= 1)%Q.

(** Every word of the text occurs in some document. *)
Definition grounded (text : string) (docs : list string) : Prop :=
  forall w : string,
    w ∈ EvaluationService.words text ->
    exists doc, In doc docs /\ w ∈ EvaluationService.words doc.

End Metric.

Module Ward.

Definition question : string := "When may visitors stay?".
Definition answer : string := "Visitors may stay until 8pm.".

Definition retrieved : list EvaluationService.Doc :=
  [EvaluationService.mkDoc (Some "Visiting hours: visitors may stay until 8pm.")
     (Some (9 # 10));
   EvaluationService.mkDoc (Some "Parking is free after 6pm.") None].

End Ward.

(** ** services/vector_service.py: chunks *)

Module Chunking.

Record ChunkMetadata : Type := mkChunkMetadata {
  doc_id : string;
  filename : string;
  chunk_index : nat;
  chunk_count : nat;
  char_count : nat
}.

Record Chunk : Type := mkChunk {
  id : string;
  text : string;
  metadata : ChunkMetadata
}.

(** The loop over [enumerate(chunks)]. *)
Definition chunk_docs_of (chunks : list string) (doc_id filename : string)
    : list Chunk :=
  map (fun '(i, chunk) =>
         mkChunk (doc_id ++ "_chunk_" ++ Py.str_of_nat i) chunk
           (mkChunkMetadata doc_id filename i (List.length chunks)
              (String.length chunk)))
    (Py.enumerate chunks).

(** [split_text]; [splitter] is the text splitter of the library. The
    error raised for an empty list of chunks is caught by the handler of
    the same [try] and wrapped like any other. *)
Definition split_text (splitter : string -> except (list string))
    (text doc_id filename : string) : except (list Chunk) :=
  Exceptions.handle_exceptions "split_text"
    (let body :=
       Exceptions.bind (splitter text) (fun chunks =>
         match chunks with
         | [] => Raise (VectorStoreError "No text chunks generated from document"
                          (Some "text_splitting"))
         | _ => Ok (chunk_docs_of chunks doc_id filename)
         end) in
     match body with
     | Ok chunk_docs => Ok chunk_docs
     | Raise e =>
         Raise (VectorStoreError ("Text splitting failed: " ++ Exceptions.str e)
                  (Some "text_splitting"))
     end).

End Chunking.

(** ** services/query_service.py *)

Module QueryService.

Record Result : Type := mkResult {
  content : string;
  source : string;
  score : Q;
  metadata : Py.Dict
}.

(** A response dictionary; [processing_time_ms] is set last. *)
Record Response : Type := mkResponse {
  query : string;
  answer : string;
  results : list Result;
  confidence : Q;
  processing_time_ms : option Z
}.

Definition no_results_answer : string :=
  "I couldn't find any relevant information in the available policy documents to answer your question. Please ensure your question relates to healthcare operations, policies, or procedures, or consider uploading additional relevant documents.".

Definition _generate_template_answer (query context : string) (sources : list string)
    : except string :=
  Exceptions.handle_exceptions "_generate_template_answer"
    (let cleaned_context := Py.join " " (Py.split context) in
     let query_lower := Py.lower query in
     let answer :=
       if LLMService.any_word_in ["appointment"; "schedule"; "booking"] query_lower
       then "Based on the policy documents, here are the relevant guidelines for appointment scheduling: "
            ++ Py.slice_to 400 cleaned_context ++ "..."
       else if LLMService.any_word_in
                 ["insurance"; "coverage"; "authorization"; "pre-auth"] query_lower
       then "According to the insurance policies, the following rules apply: "
            ++ Py.slice_to 400 cleaned_context ++ "..."
       else if LLMService.any_word_in ["discharge"; "release"; "checkout"] query_lower
       then "The discharge procedures specify: "
            ++ Py.slice_to 400 cleaned_context ++ "..."
       else if LLMService.any_word_in ["policy"; "procedure"; "guideline"] query_lower
       then "The relevant policies state: "
            ++ Py.slice_to 400 cleaned_context ++ "..."
       else "Based on the available documentation: "
            ++ Py.slice_to 400 cleaned_context ++ "..." in
     let answer :=
       match sources with
       | [] => answer
       | _ =>
           let source_text := Py.join ", " (firstn 3 sources) in
           let source_text :=
             if (3 <? List.length sources)%nat
             then source_text ++ " and " ++ Py.str_of_nat (List.length sources - 3)
                  ++ " other documents"
             else source_text in
           answer ++ " This information is based on: " ++ source_text
       end in
     Ok answer).

(** [sum(...) / len(...)] *)
Definition average (scores : list Q) : except Q :=
  match scores with
  | [] => Raise ZeroDivisionError
  | _ => Ok (Py.sum scores / Py.len scores)%Q
  end.

(** [_generate_response]; [list_of_set] is the order in which
    [list(set(sources))] lists the distinct sources. *)
Definition _generate_response (list_of_set : list string -> list string)
    (query : string) (similar_docs : list VectorService.Doc)
    (context : option Py.Dict) : except Response :=
  Exceptions.handle_exceptions "_generate_response"
    (let '(contexts, sources, results) :=
       fold_left
         (fun '(contexts, sources, results) doc =>
            let cleaned_content :=
              Py.join " " (Py.split (VectorService.content doc)) in
            (List.app contexts [cleaned_content],
             List.app sources [VectorService.source doc],
             List.app results
               [mkResult cleaned_content (VectorService.source doc)
                  (VectorService.score doc) (VectorService.metadata doc)]))
         similar_docs ([], [], []) in
     let combined_context := Py.join LLMService.blank_line contexts in
     let unique_sources := list_of_set sources in
     Exceptions.bind (_generate_template_answer query combined_context unique_sources)
       (fun answer =>
          Exceptions.bind (average (map VectorService.score similar_docs))
            (fun avg_score =>
               let confidence := Py.min (95 # 100) avg_score in
               Ok (mkResponse query answer results confidence None)))).

(** [_generate_no_results_response], with the reading [now] of the clock. *)
Definition _generate_no_results_response (query : string) (start_time now : Q)
    : except Response :=
  Exceptions.handle_exceptions "_generate_no_results_response"
    (let processing_time := Orchestrator.elapsed_ms start_time now in
     Ok (mkResponse query no_results_answer [] 0 (Some processing_time))).

Definition is_query_error (e : exn) : bool :=
  match e with
  | QueryProcessingError _ _ => true
  | _ => false
  end.

(** [process_query], with the readings of the clock at its start and at
    its end. The handler reads [query] as it is bound when the exception
    arrives. *)
Definition process_query (collection_query : string -> nat -> except (list VectorService.Hit))
    (list_of_set : list string -> list string)
    (query : string) (max_results : nat) (context : option Py.Dict)
    (start_time end_time : Q) : except Response :=
  Exceptions.handle_exceptions "process_query"
    (let '(body, query) :=
       if String.eqb query "" || String.eqb (Py.strip query) ""
       then (Raise (QueryProcessingError "Query cannot be empty" None), query)
       else
         let query := Py.strip query in
         (Exceptions.bind
            (VectorService.search_similar collection_query query max_results)
            (fun similar_docs =>
               match similar_docs with
               | [] => _generate_no_results_response query start_time end_time
               | _ =>
                   Exceptions.bind
                     (_generate_response list_of_set query similar_docs context)
                     (fun response =>
                        let processing_time :=
                          Orchestrator.elapsed_ms start_time end_time in
                        Ok (mkResponse (QueryService.query response) (answer response)
                              (results response) (confidence response)
                              (Some processing_time)))
               end),
          query) in
     match body with
     | Ok response => Ok response
     | Raise e =>
         if is_query_error e then Raise e
         else Raise (QueryProcessingError
                       ("Query processing failed: " ++ Exceptions.str e) (Some query))
     end).

Definition suggestions : list string :=
  ["What are the appointment scheduling policies?";
   "How do I process insurance pre-authorization?";
   "What is the discharge procedure for patients?";
   "What are the requirements for surgery scheduling?";
   "How do I handle insurance claim denials?";
   "What are the visitor policies?";
   "How do I schedule follow-up appointments?";
   "What documentation is required for discharge?";
   "How do I verify insurance coverage?";
   "What are the emergency admission procedures?"].

(** One turn of the matching loop. *)
Definition suggestion_step (partial_lower : string)
    (acc : list string * list string) (suggestion : string)
    : list string * list string :=
  let '(word_start_matches, substring_matches) := acc in
  let suggestion_lower := Py.lower suggestion in
  let words := Py.split suggestion_lower in
  if existsb (fun word => Py.startswith partial_lower word) words
  then (List.app word_start_matches [suggestion], substring_matches)
  else if Py.contains partial_lower suggestion_lower
  then (word_start_matches, List.app substring_matches [suggestion])
  else (word_start_matches, substring_matches).

Definition get_query_suggestions (partial_query : string) : list string :=
  if String.eqb partial_query "" || (String.length partial_query <? 2)%nat
  then firstn 5 suggestions
  else
    let partial_lower := Py.lower partial_query in
    let '(word_start_matches, substring_matches) :=
      fold_left (suggestion_step partial_lower) suggestions ([], []) in
    let result := List.app word_start_matches substring_matches in
    match result with
    | [] => []
    | _ => firstn 5 result
    end.

End QueryService.

Module Suggest.

(** Some word of the suggestion, in lower case, starts with the text. *)
Definition word_start (partial_lower suggestion : string) : bool :=
  existsb (fun word => Py.startswith partial_lower word)
    (Py.split (Py.lower suggestion)).

(** The text occurs in the suggestion, in lower case, but at no start of
    a word. *)
Definition inside_only (partial_lower suggestion : string) : bool :=
  negb (word_start partial_lower suggestion)
  && Py.contains partial_lower (Py.lower suggestion).

End Suggest.

(** ** services/document_service.py: saving and text extraction *)

Module Extraction.
Import DocumentService.

(** What the file system and the PDF reader answer. Paths are given as
    text. [pdf_pages] opens the file and lists its pages, each with the
    outcome of its [extract_text]; [read_text] reads a file in an
    encoding. *)
Record Files : Type := mkFiles {
  uuid4 : string;
  write_upload : string -> string -> except unit;
  path_exists : string -> bool;
  pdf_pages : string -> except (list (except string));
  read_text : string -> string -> except string;
  write_processed : string -> string -> except unit
}.

(** [s.replace(a, b)] for single characters *)
Fixpoint replace_char (a b : ascii) (s : string) : string :=
  match s with
  | EmptyString => EmptyString
  | String c s' => String (if Ascii.eqb c a then b else c) (replace_char a b s')
  end.

(** [Path(dir) / name]: an absolute [name] replaces the directory. *)
Definition joinpath (dir name : string) : string :=
  if Py.startswith "/" name then name else dir ++ "/" ++ name.

Definition upload_dir : string := "data/uploads".
Definition processed_dir : string := "data/processed".

Definition is_document_error (e : exn) : bool :=
  match e with
  | DocumentProcessingError _ _ => true
  | _ => false
  end.

Definition is_unicode_decode_error (e : exn) : bool :=
  match e with
  | Builtin type_name _ => String.eqb type_name "UnicodeDecodeError"
  | _ => false
  end.

Section WithFiles.
Variable fs : Files.

Definition save_file (file_content filename : string) : except string :=
  Exceptions.handle_exceptions "save_file"
    (let doc_id := uuid4 fs in
     let safe_filename := doc_id ++ "_" ++ replace_char " " "_" filename in
     let file_path := joinpath upload_dir safe_filename in
     match write_upload fs file_path file_content with
     | Ok _ => Ok doc_id
     | Raise e =>
         Raise (DocumentProcessingError ("Failed to save file: " ++ Exceptions.str e)
                  (Some filename))
     end).

(** One turn of the loop over the pages: a page whose extraction raises
    and a page with blank text are skipped. *)
Definition page_step (text_content : list string) (page : except string)
    : list string :=
  match page with
  | Ok page_text =>
      if negb (String.eqb (Py.strip page_text) "")
      then List.app text_content [page_text]
      else text_content
  | Raise _ => text_content
  end.

Definition extract_text_from_pdf (file_path : string) : except string :=
  Exceptions.handle_exceptions "extract_text_from_pdf"
    (let body :=
       Exceptions.bind (pdf_pages fs file_path) (fun pages =>
         let text_content := fold_left page_step pages [] in
         match text_content with
         | [] =>
             Raise (DocumentProcessingError
                      "No text content could be extracted from PDF"
                      (Some (Path.name file_path)))
         | _ => Ok (Py.join LLMService.blank_line text_content)
         end) in
     match body with
     | Ok extracted_text => Ok extracted_text
     | Raise e =>
         if is_document_error e then Raise e
         else Raise (DocumentProcessingError
                       ("PDF text extraction failed: " ++ Exceptions.str e)
                       (Some (Path.name file_path)))
     end).

(** The loop over the encodings: the first one that reads the file wins,
    a decoding error moves on to the next, any other error ends the loop. *)
Fixpoint try_encodings (file_path : string) (encodings : list string)
    : except string :=
  match encodings with
  | [] =>
      Raise (DocumentProcessingError
               "Could not decode text file with any supported encoding"
               (Some (Path.name file_path)))
  | encoding :: rest =>
      match read_text fs file_path encoding with
      | Ok content => Ok content
      | Raise e =>
          if is_unicode_decode_error e then try_encodings file_path rest
          else Raise e
      end
  end.

Definition extract_text_from_txt (file_path : string) : except string :=
  Exceptions.handle_exceptions "extract_text_from_txt"
    (match try_encodings file_path ["utf-8"; "utf-16"; "latin-1"; "cp1252"] with
     | Ok content => Ok content
     | Raise e =>
         if is_document_error e then Raise e
         else Raise (DocumentProcessingError
                       ("Text file reading failed: " ++ Exceptions.str e)
                       (Some (Path.name file_path)))
     end).

Definition extract_text (doc_id filename : string) : except string :=
  Exceptions.handle_exceptions "extract_text"
    (let safe_filename := doc_id ++ "_" ++ replace_char " " "_" filename in
     let file_path := joinpath upload_dir safe_filename in
     if negb (path_exists fs file_path)
     then Raise (DocumentProcessingError
                   ("Document file not found: " ++ safe_filename) (Some filename))
     else
       let file_ext := Py.lower (Path.suffix filename) in
       Exceptions.bind
         (if String.eqb file_ext ".pdf" then extract_text_from_pdf file_path
          else if existsb (String.eqb file_ext) [".txt"]
          then extract_text_from_txt file_path
          else Raise (DocumentProcessingError
                        ("Text extraction not implemented for file type: " ++ file_ext)
                        (Some filename)))
         (fun text_content =>
            let text_file_path := joinpath processed_dir (doc_id ++ "_extracted.txt") in
            Exceptions.bind (write_processed fs text_file_path text_content)
              (fun _ => Ok text_content))).

End WithFiles.

End Extraction.

(** ** api/v1/documents.py: upload *)

Module Documents.

(** [[tag.strip() for tag in tags.split(",") if tag.strip()] if tags else []] *)
Definition parse_tags (tags : string) : list string :=
  if String.eqb tags "" then []
  else
    map Py.strip
      (List.filter (fun tag => negb (String.eqb (Py.strip tag) ""))
         (Py.split_on "," tags)).

(** [",".join(tag_list) if tag_list else ""] *)
Definition stored_tags (tag_list : list string) : string :=
  match tag_list with
  | [] => ""
  | _ => Py.join "," tag_list
  end.

Definition chunk_metadata_dict (m : Chunking.ChunkMetadata) : Py.Dict :=
  [("doc_id", Py.JStr (Chunking.doc_id m));
   ("filename", Py.JStr (Chunking.filename m));
   ("chunk_index", Py.JInt (Z.of_nat (Chunking.chunk_index m)));
   ("chunk_count", Py.JInt (Z.of_nat (Chunking.chunk_count m)));
   ("char_count", Py.JInt (Z.of_nat (Chunking.char_count m)))].

(** [d[k] = v]: an existing key keeps its place. *)
Fixpoint dict_set (k : string) (v : Py.json) (d : Py.Dict) : Py.Dict :=
  match d with
  | [] => [(k, v)]
  | (k', v') :: d' =>
      if String.eqb k k' then (k, v) :: d' else (k', v') :: dict_set k v d'
  end.

(** [d.update(other)] *)
Definition dict_update (d other : Py.Dict) : Py.Dict :=
  fold_left (fun d '(k, v) => dict_set k v d) other d.

(** The vector store as the upload sees it. *)
Record Store : Type := mkStore {
  splitter : string -> except (list string);
  collection_add : list string -> list string -> list Py.Dict -> except unit
}.

(** [VectorStoreService.add_document] *)
Definition add_document (store : Store) (text doc_id filename : string)
    (metadata : option Py.Dict) : except nat :=
  Exceptions.handle_exceptions "add_document"
    (let body :=
       Exceptions.bind (Chunking.split_text (splitter store) text doc_id filename)
         (fun chunk_docs =>
            let ids := map Chunking.id chunk_docs in
            let documents := map Chunking.text chunk_docs in
            let metadatas :=
              map (fun chunk =>
                     let chunk_metadata := chunk_metadata_dict (Chunking.metadata chunk) in
                     match metadata with
                     | Some (_ :: _ as md) => dict_update chunk_metadata md
                     | _ => chunk_metadata
                     end)
                chunk_docs in
            Exceptions.bind (collection_add store ids documents metadatas)
              (fun _ => Ok (List.length chunk_docs))) in
     match body with
     | Ok n => Ok n
     | Raise e =>
         Raise (VectorStoreError
                  ("Failed to add document to vector store: " ++ Exceptions.str e)
                  (Some "add_document"))
     end).

(** An uploaded file, once read. *)
Record UploadFile : Type := mkUploadFile {
  filename : string;
  file_content : string;
  content_type : string
}.

Record DocumentUploadResponse : Type := mkDocumentUploadResponse {
  document_id : string;
  response_filename : string;
  status : string;
  message : string;
  processing_time_ms : Z
}.

(** [upload_document], with the readings of the clock at its start and
    end and the text [upload_date] of [datetime.now().isoformat()]. *)
Definition upload_document (document_processor : DocumentService.DocumentProcessor)
    (fs : Extraction.Files) (store : Store)
    (file : UploadFile) (category : option string) (tags : string)
    (upload_date : string) (start_time end_time : Q)
    : Authorization.http DocumentUploadResponse :=
  let body :=
    Exceptions.bind
      (DocumentService.validate_file document_processor (filename file)
         (Z.of_nat (String.length (file_content file))) (content_type file))
      (fun _ =>
    Exceptions.bind (Extraction.save_file fs (file_content file) (filename file))
      (fun doc_id =>
    Exceptions.bind (Extraction.extract_text fs doc_id (filename file))
      (fun text_content =>
    let tag_list := parse_tags tags in
    let metadata :=
      [("category", match category with Some c => Py.JStr c | None => Py.JNull end);
       ("tags", Py.JStr (stored_tags tag_list));
       ("upload_date", Py.JStr upload_date)] in
    Exceptions.bind
      (add_document store text_content doc_id (filename file) (Some metadata))
      (fun chunks_added =>
    let processing_time := Orchestrator.elapsed_ms start_time end_time in
    Ok (mkDocumentUploadResponse doc_id (filename file) "processed"
          ("Document processed successfully. Added " ++ Py.str_of_nat chunks_added
           ++ " text chunks to knowledge base.")
          processing_time))))) in
  match body with
  | Ok response => Authorization.Pass response
  | Raise (DocumentProcessingError message _) => Authorization.HTTPException 400 message
  | Raise _ =>
      Authorization.HTTPException 500
        "Internal server error during document processing"
  end.

End Documents.

Module Desk.

(** A file system that holds one uploaded text file. *)
Definition notes_path : string := "data/uploads/d1_ward_notes.txt".

Definition one_text_file : Extraction.Files :=
  Extraction.mkFiles "d1"
    (fun _ _ => Ok tt)
    (fun path => String.eqb path notes_path)
    (fun _ => Raise (Builtin "FileNotFoundError" "no such file"))
    (fun path encoding =>
       if String.eqb path notes_path then Ok "Visitors may stay until 8pm."
       else Raise (Builtin "FileNotFoundError" "no such file"))
    (fun _ _ => Ok tt).

End Desk.

Module Tag.

(** The character occurs in the text. *)
Fixpoint has_char (ch : ascii) (s : string) : bool :=
  match s with
  | EmptyString => false
  | String c s' => Ascii.eqb c ch || has_char ch s'
  end.

(** A tag as it is stored: not empty, without white space around it and
    without a comma. *)
Definition clean (tag : string) : Prop :=
  tag <> "" /\ Py.strip tag = tag /\ has_char "," tag = false.

End Tag.

Module Pages.

(** The texts of the pages that could be read and are not blank, in order. *)
Fixpoint readable (pages : list (except string)) : list string :=
  match pages with
  | [] => []
  | Ok page_text :: rest =>
      if String.eqb (Py.strip page_text) "" then readable rest
      else page_text :: readable rest
  | Raise _ :: rest => readable rest
  end.

(** A scan of three pages: the second cannot be read, the third is blank. *)
Definition scan : list (except string) :=
  [Ok "Visiting hours"; Raise (Builtin "KeyError" "'/Contents'"); Ok "  "].

End Pages.

(** * Properties *)

(** ** Python built-ins: sanity checks of the model *)

Example format_2f_ex :
  Py.format_2f (95 # 100) = "0.95" /\ Py.format_2f (1 # 10) = "0.10"
  /\ Py.format_2f 0 = "0.00".
Proof. vm_compute. auto. Qed.

Example str_of_Z_ex :
  Py.str_of_Z 0 = "0" /\ Py.str_of_Z 52428800 = "52428800"
  /\ Py.str_of_Z (-17) = "-17".
Proof. vm_compute. auto. Qed.

Example split_ex :
  Py.split "  a bc   d " = ["a"; "bc"; "d"]
  /\ Py.strip "  a b  " = "a b"
  /\ Py.split_on "," "pdf,txt,docx" = ["pdf"; "txt"; "docx"].
Proof. vm_compute. auto. Qed.

(** ** Exception handler: risk table and timeline summary *)

Section RiskTable.
Import ExceptionHandler.

Lemma risk_levels_other (s : string) :
  s <> "low" -> s <> "medium" -> s <> "high" -> s <> "critical" ->
  risk_levels !! s = None.
Proof.
  intros H1 H2 H3 H4. unfold risk_levels.
  rewrite !lookup_insert_ne by congruence. apply lookup_singleton_ne. congruence.
Qed.

(** C5. The risk assessment of an enriched exception plan is the row of
    the fixed table selected by the plan's severity: low gives (2, false,
    false), medium (5, true, false), high (8, true, true), critical
    (10, true, true); an absent severity or one outside the four gives the
    medium row. *)
Theorem risk_assessment_by_severity :
  forall (exception_plan : ExceptionPlan.t) (policy_docs : list VectorService.Doc),
    let sev := ExceptionPlan.severity exception_plan in
    let r := risk_assessment (_enhance_exception_plan exception_plan policy_docs) in
    (sev = Some "low" -> r = mkRisk 2 false false) /\
    (sev = Some "medium" -> r = mkRisk 5 true false) /\
    (sev = Some "high" -> r = mkRisk 8 true true) /\
    (sev = Some "critical" -> r = mkRisk 10 true true) /\
    ((forall s, sev = Some s ->
        s <> "low" /\ s <> "medium" /\ s <> "high" /\ s <> "critical") ->
     r = mkRisk 5 true false).
Proof.
  intros plan docs sev r. subst sev r. cbn [risk_assessment _enhance_exception_plan].
  unfold _assess_risk_level.
  repeat split.
  - intros ->. reflexivity.
  - intros ->. reflexivity.
  - intros ->. reflexivity.
  - intros ->. reflexivity.
  - intros H. destruct (ExceptionPlan.severity plan) as [s|]; cbn [Py.get_or].
    + destruct (H s eq_refl) as (H1 & H2 & H3 & H4).
      rewrite (risk_levels_other s) by assumption. reflexivity.
    + reflexivity.
Qed.

End RiskTable.

Section Timeline.
Import ExceptionHandler.

Lemma timeline_step_buckets (a b c : list string) (s : ResolutionStep.t) :
  timeline_step (Spec.three_buckets a b c) s =
  Spec.three_buckets (a ++ Spec.bucket_actions "immediate" [s])
                (b ++ Spec.bucket_actions "short_term" [s])
                (c ++ Spec.bucket_actions "long_term" [s]).
Proof.
  unfold timeline_step, Spec.bucket_actions. cbn [List.filter map].
  set (k := Py.get_or (ResolutionStep.timeline s) "short_term").
  set (x := Py.get_or (ResolutionStep.action s) "").
  destruct (String.eqb_spec k "immediate") as [->|Hi].
  { cbn. rewrite !app_nil_r. unfold Spec.three_buckets.
    rewrite lookup_insert_eq. rewrite insert_insert_eq. reflexivity. }
  destruct (String.eqb_spec k "short_term") as [->|Hs].
  { cbn. rewrite !app_nil_r. unfold Spec.three_buckets.
    rewrite lookup_insert_ne by discriminate. rewrite lookup_insert_eq.
    rewrite (insert_insert_ne _ "short_term" "immediate") by discriminate.
    rewrite insert_insert_eq. reflexivity. }
  destruct (String.eqb_spec k "long_term") as [->|Hl].
  { cbn. rewrite !app_nil_r. unfold Spec.three_buckets.
    rewrite !lookup_insert_ne by discriminate. rewrite lookup_singleton_eq.
    rewrite (insert_insert_ne _ "long_term" "immediate") by discriminate.
    rewrite (insert_insert_ne _ "long_term" "short_term") by discriminate.
    rewrite insert_singleton_eq. reflexivity. }
  cbn. rewrite !app_nil_r. unfold Spec.three_buckets.
  rewrite !lookup_insert_ne by congruence.
  rewrite lookup_singleton_ne by congruence. reflexivity.
Qed.

Lemma bucket_actions_app (k : string) (l1 l2 : list ResolutionStep.t) :
  Spec.bucket_actions k (l1 ++ l2) =
  (Spec.bucket_actions k l1 ++ Spec.bucket_actions k l2)%list.
Proof.
  unfold Spec.bucket_actions. rewrite List.filter_app. apply map_app.
Qed.

Lemma timeline_fold_buckets (steps : list ResolutionStep.t) :
  forall a b c,
    fold_left timeline_step steps (Spec.three_buckets a b c) =
    Spec.three_buckets (a ++ Spec.bucket_actions "immediate" steps)
                       (b ++ Spec.bucket_actions "short_term" steps)
                       (c ++ Spec.bucket_actions "long_term" steps).
Proof.
  induction steps as [|s steps IH]; intros a b c.
  - cbn. rewrite !app_nil_r. reflexivity.
  - cbn [fold_left]. rewrite timeline_step_buckets, IH.
    change (s :: steps) with ([s] ++ steps)%list.
    rewrite !bucket_actions_app, !app_assoc. reflexivity.
Qed.

(** C2 (amended). The timeline summary of an enriched exception plan has
    exactly the keys immediate, short_term and long_term; each bucket holds,
    in the order of the resolution steps, the action texts of the steps
    whose timeline field equals the bucket's name; a step without a timeline
    field counts as short_term, and a step whose timeline value is none of
    the three names appears in no bucket. *)
Theorem timeline_summary_buckets :
  forall (exception_plan : ExceptionPlan.t) (policy_docs : list VectorService.Doc),
    let steps := Py.get_or (ExceptionPlan.resolution_steps exception_plan) [] in
    timeline_summary (_enhance_exception_plan exception_plan policy_docs) =
    Spec.three_buckets (Spec.bucket_actions "immediate" steps)
                       (Spec.bucket_actions "short_term" steps)
                       (Spec.bucket_actions "long_term" steps).
Proof.
  intros plan docs steps. cbn [timeline_summary _enhance_exception_plan].
  unfold _create_timeline_summary. fold steps.
  exact (timeline_fold_buckets steps [] [] []).
Qed.

(** C2 as stated fails: a single resolution step whose timeline is
    "1 hour" (a value the prompt itself proposes) is not put in the
    short_term bucket. *)
Lemma timeline_summary_unrecognized_not_short_term :
  timeline_summary
    (_enhance_exception_plan
       (Spec.plan_of_steps
          [ResolutionStep.mk (Some 1%Z) (Some "Notify the help desk")
             (Some "Supervisor") (Some "1 hour")]) [])
    !! "short_term" <> Some ["Notify the help desk"].
Proof. vm_compute. discriminate. Qed.

Example timeline_summary_unrecognized_dropped :
  timeline_summary
    (_enhance_exception_plan
       (Spec.plan_of_steps
          [ResolutionStep.mk (Some 1%Z) (Some "Notify the help desk")
             (Some "Supervisor") (Some "1 hour");
           ResolutionStep.mk (Some 2%Z) (Some "File a report") None None]) [])
  = Spec.three_buckets [] ["File a report"] [].
Proof. vm_compute. reflexivity. Qed.

End Timeline.

Lemma risk_assessment_by_severity_witness :
  ExceptionHandler.risk_assessment
    (ExceptionHandler._enhance_exception_plan
       (ExceptionPlan.mk None (Some "high") None None None None) [])
  = ExceptionHandler.mkRisk 8 true true.
Proof.
  exact (proj1 (proj2 (proj2
    (risk_assessment_by_severity
       (ExceptionPlan.mk None (Some "high") None None None None) [])))
    eq_refl).
Defined.

(** ** Workflow planner: dependencies and checkpoints *)

Section Workflow.
Import WorkflowPlanner.

(** Linear arithmetic with the quotient of [n] by three. *)
Ltac lia_div3 n :=
  let Hd := fresh in let Hm := fresh in
  pose proof (Nat.div_mod_eq n 3) as Hd;
  pose proof (Nat.mod_upper_bound n 3 ltac:(discriminate)) as Hm;
  generalize dependent (n / 3)%nat; generalize dependent (n mod 3)%nat;
  intros; lia.

Lemma range_fuel_by_three (n : nat) :
  forall fuel j,
    (n <= fuel + (3 * j + 2))%nat ->
    Py.range_fuel fuel (3 * j + 2) n 3 =
    map (fun k => 3 * k - 1)%nat (seq (j + 1) (n / 3 - j)).
Proof.
  induction fuel as [|fuel IH]; intros j Hfuel.
  - replace (n / 3 - j)%nat with 0%nat by lia_div3 n. reflexivity.
  - cbn [Py.range_fuel]. destruct (Nat.ltb_spec (3 * j + 2) n) as [Hlt|Hge].
    + replace (n / 3 - j)%nat with (S (n / 3 - (j + 1))) by lia_div3 n.
      cbn [seq map]. f_equal; [lia|].
      replace (3 * j + 2 + 3)%nat with (3 * (j + 1) + 2)%nat by lia.
      rewrite IH by lia. replace (S (j + 1)) with (j + 1 + 1)%nat by lia.
      reflexivity.
    + replace (n / 3 - j)%nat with 0%nat by lia_div3 n. reflexivity.
Qed.

Lemma range_two_by_three (n : nat) :
  Py.range 2 n 3 = map (fun k => 3 * k - 1)%nat (seq 1 (n / 3)).
Proof.
  unfold Py.range.
  change 2%nat with (3 * 0 + 2)%nat at 1.
  rewrite (range_fuel_by_three n n 0) by lia.
  rewrite Nat.sub_0_r. reflexivity.
Qed.

Lemma fold_append_map {A B} (f : A -> B) (l : list A) :
  forall acc, fold_left (fun acc x => (acc ++ [f x])%list) l acc = (acc ++ map f l)%list.
Proof.
  induction l as [|x l IH]; intros acc; cbn.
  - now rewrite app_nil_r.
  - rewrite IH, <- app_assoc. reflexivity.
Qed.

Lemma add_checkpoints_eq (steps : list WorkflowStep.t) :
  _add_checkpoints steps =
  map (fun k => Spec.checkpoint_after (3 * k)) (seq 1 (List.length steps / 3)).
Proof.
  unfold _add_checkpoints.
  rewrite (fold_append_map
             (fun i => mkCheckpoint (i + 1) "Quality Review"
                         ("Review completion of steps 1-" ++ Py.str_of_nat (i + 1))
                         "Supervisor")).
  rewrite range_two_by_three, map_map. cbn [app].
  apply map_ext_in. intros k Hk. apply in_seq in Hk.
  unfold Spec.checkpoint_after.
  replace (3 * k - 1 + 1)%nat with (3 * k)%nat by lia. reflexivity.
Qed.

Lemma dependencies_from (steps : list WorkflowStep.t) :
  forall k acc,
    (0 < k)%nat ->
    fold_left
      (fun dependencies '(i, step) =>
         if (0 <? i)%nat
         then (dependencies ++ ["Step " ++ Py.str_of_nat (i + 1)
                                ++ " depends on completion of Step "
                                ++ Py.str_of_nat i]%string)%list
         else dependencies)
      (combine (seq k (List.length steps)) steps) acc =
    (acc ++ map Spec.dependency_text (seq (k + 1) (List.length steps)))%list.
Proof.
  induction steps as [|s steps IH]; intros k acc Hk.
  - cbn. now rewrite app_nil_r.
  - cbn [List.length seq combine fold_left map].
    destruct (Nat.ltb_spec 0 k) as [_|]; [|lia].
    rewrite IH by lia. rewrite <- app_assoc. cbn [app].
    unfold Spec.dependency_text at 2.
    replace (k + 1 - 1)%nat with k by lia.
    replace (S k + 1)%nat with (S (k + 1)) by lia. reflexivity.
Qed.

Lemma identify_dependencies_eq (steps : list WorkflowStep.t) :
  _identify_dependencies steps =
  map Spec.dependency_text (seq 2 (List.length steps - 1)).
Proof.
  unfold _identify_dependencies, Py.enumerate.
  destruct steps as [|s steps]; [reflexivity|].
  cbn [List.length seq combine fold_left].
  change (0 <? 0)%nat with false. cbv iota.
  rewrite (dependencies_from steps 1 []) by lia.
  cbn [app Nat.add].
  replace (S (List.length steps) - 1)%nat with (List.length steps) by lia.
  reflexivity.
Qed.


(** C7. For a workflow plan whose steps list has n elements, the enrichment
    yields the n-1 dependency strings "Step i depends on completion of
    Step i-1" for i = 2..n, in that order, and one Quality Review checkpoint
    with reviewer role Supervisor after each step 3k with 3k <= n; seven
    steps give checkpoints after steps 3 and 6 only, and at most two steps
    give none. *)
Theorem workflow_dependencies_and_checkpoints :
  forall (workflow_plan : WorkflowPlan.t) (policy_docs : list VectorService.Doc)
         (steps : list WorkflowStep.t),
    WorkflowPlan.steps workflow_plan = Some steps ->
    let n := List.length steps in
    let e := _enhance_workflow workflow_plan policy_docs in
    dependencies e = Some (map Spec.dependency_text (seq 2 (n - 1))) /\
    (exists deps, dependencies e = Some deps /\ List.length deps = (n - 1)%nat) /\
    checkpoints e = map (fun k => Spec.checkpoint_after (3 * k)) (seq 1 (n / 3)) /\
    (forall c, In c (checkpoints e) <->
               exists k, (1 <= k /\ 3 * k <= n)%nat /\ c = Spec.checkpoint_after (3 * k)) /\
    (n = 7%nat -> map after_step (checkpoints e) = [3; 6]%nat) /\
    ((n <= 2)%nat -> checkpoints e = []).
Proof.
  intros plan docs steps Hsteps n e. subst e.
  cbn [dependencies checkpoints _enhance_workflow]. rewrite Hsteps.
  cbn [Py.get_or]. rewrite identify_dependencies_eq, add_checkpoints_eq.
  fold n. repeat split.
  - eexists. split; [reflexivity|]. now rewrite length_map, length_seq.
  - intros Hin. apply in_map_iff in Hin as (k & <- & Hk). apply in_seq in Hk.
    exists k. split; [lia_div3 n | reflexivity].
  - intros (k & Hk & ->). apply in_map_iff. exists k. split; [reflexivity|].
    apply in_seq. lia_div3 n.
  - intros ->. reflexivity.
  - intros Hn. replace (n / 3)%nat with 0%nat by lia_div3 n. reflexivity.
Qed.

Lemma workflow_dependencies_and_checkpoints_witness :
  map after_step
    (checkpoints
       (_enhance_workflow (Spec.workflow_of_steps (repeat Spec.blank_step 7)) []))
  = [3; 6]%nat.
Proof.
  exact (proj1 (proj2 (proj2 (proj2 (proj2
    (workflow_dependencies_and_checkpoints
       (Spec.workflow_of_steps (repeat Spec.blank_step 7)) []
       (repeat Spec.blank_step 7) eq_refl))))) eq_refl).
Defined.

Example three_step_dependencies :
  dependencies
    (_enhance_workflow (Spec.workflow_of_steps (repeat Spec.blank_step 3)) [])
  = Some ["Step 2 depends on completion of Step 1";
          "Step 3 depends on completion of Step 2"].
Proof. reflexivity. Qed.

End Workflow.

(** ** Confidence set by the agents *)

Section Confidence.
Import Base VectorService LLMService.

Lemma Qltb_true (a b : Q) : Py.Qltb a b = true <-> (a < b)%Q.
Proof.
  unfold Py.Qltb. rewrite negb_true_iff. split.
  - intros H. apply Qnot_le_lt. intros Hle. apply Qle_bool_iff in Hle. congruence.
  - intros H. destruct (Qle_bool b a) eqn:E; [|reflexivity].
    apply Qle_bool_iff in E. exfalso. exact (Qlt_not_le _ _ H E).
Qed.

Lemma Qltb_false (a b : Q) : Py.Qltb a b = false <-> (b <= a)%Q.
Proof.
  unfold Py.Qltb. rewrite negb_false_iff. apply Qle_bool_iff.
Qed.

Lemma py_min_le_l (a b : Q) : (Py.min a b <= a)%Q.
Proof.
  unfold Py.min. destruct (Py.Qltb b a) eqn:E.
  - apply Qltb_true in E. now apply Qlt_le_weak.
  - apply Qle_refl.
Qed.

Lemma py_min_glb (c a b : Q) : (c <= a)%Q -> (c <= b)%Q -> (c <= Py.min a b)%Q.
Proof. intros Ha Hb. unfold Py.min. now destruct (Py.Qltb b a). Qed.

Lemma len_nonneg {A} (l : list A) : (0 <= Py.len l)%Q.
Proof.
  unfold Py.len. change 0%Q with (inject_Z 0). rewrite <- Zle_Qle. lia.
Qed.

Lemma policy_boost_nonneg {A} (cap : Q) (l : list A) :
  (0 <= cap)%Q -> (0 <= Py.min cap (Py.len l * (5 # 100)))%Q.
Proof.
  intros Hcap. apply py_min_glb; [assumption|].
  apply Qmult_le_0_compat; [apply len_nonneg | discriminate].
Qed.

Lemma fold_sum_nonneg (l : list Q) :
  forall acc, (0 <= acc)%Q -> Forall (fun x => 0 <= x)%Q l ->
              (0 <= fold_left Qplus l acc)%Q.
Proof.
  induction l as [|x l IH]; intros acc Hacc Hall; cbn; [assumption|].
  inversion Hall; subst. apply IH; [|assumption].
  rewrite <- (Qplus_0_r 0). now apply Qplus_le_compat.
Qed.

Lemma average_nonneg (l : list Q) :
  Forall (fun x => 0 <= x)%Q l -> (0 <= Py.sum l / Py.len l)%Q.
Proof.
  intros Hall. unfold Qdiv. apply Qmult_le_0_compat.
  - apply fold_sum_nonneg; [apply Qle_refl | assumption].
  - apply Qinv_le_0_compat, len_nonneg.
Qed.

Lemma filter_scores_nonneg (t : Q) (results : list Doc) :
  (0 <= t)%Q ->
  Forall (fun x => 0 <= x)%Q
    (map score (List.filter (fun r => Py.Qltb t (score r)) results)).
Proof.
  intros Ht. apply Forall_map, List.Forall_forall. intros d Hd.
  apply List.filter_In in Hd as [_ Hd]. apply Qltb_true in Hd.
  apply Qlt_le_weak. eapply Qle_lt_trans; eassumption.
Qed.


Lemma Qplus_nonneg (a b : Q) : (0 <= a)%Q -> (0 <= b)%Q -> (0 <= a + b)%Q.
Proof.
  intros Ha Hb. apply (Qle_trans _ (0 + 0)); [discriminate|].
  now apply Qplus_le_compat.
Qed.

Lemma clamp_in_range (x : Q) : (0 <= x)%Q -> Spec.in_range (Py.min (95 # 100) x).
Proof.
  intros Hx. split; [apply py_min_glb; [discriminate | assumption]|].
  apply py_min_le_l.
Qed.

Lemma policy_confidence_in_range (results : list Doc) (t : Q)
    (interpretation : PolicyInterpretation.t) :
  (0 <= t)%Q ->
  Spec.in_range (PolicyInterpreter._calculate_confidence
              (List.filter (fun r => Py.Qltb t (score r)) results) interpretation).
Proof.
  intros Ht. pose proof (filter_scores_nonneg t results Ht) as Hall.
  unfold PolicyInterpreter._calculate_confidence.
  destruct (List.filter _ results) as [|d ds] eqn:E.
  - split; discriminate.
  - apply clamp_in_range.
    apply Qplus_nonneg.
    + apply Qplus_nonneg.
      * now apply average_nonneg.
      * destruct (Py.truthy_str _); discriminate.
    + apply policy_boost_nonneg. discriminate.
Qed.

Lemma workflow_confidence_in_range (policy_docs : list Doc)
    (workflow_plan : WorkflowPlan.t) :
  Spec.in_range (WorkflowPlanner._calculate_confidence policy_docs workflow_plan).
Proof.
  unfold WorkflowPlanner._calculate_confidence. apply clamp_in_range.
  apply Qplus_nonneg.
  - apply Qplus_nonneg; [discriminate|]. apply policy_boost_nonneg. discriminate.
  - destruct (_ && _); discriminate.
Qed.

Lemma severity_adjustment_bound (s : string) :
  (- (1 # 10) <= Py.get_or (ExceptionHandler.severity_adjustments !! s) 0)%Q.
Proof.
  unfold ExceptionHandler.severity_adjustments.
  destruct (String.eqb_spec s "low") as [->|H1]; [discriminate|].
  destruct (String.eqb_spec s "medium") as [->|H2]; [discriminate|].
  destruct (String.eqb_spec s "high") as [->|H3]; [discriminate|].
  destruct (String.eqb_spec s "critical") as [->|H4]; [discriminate|].
  rewrite !lookup_insert_ne by congruence.
  rewrite lookup_singleton_ne by congruence. discriminate.
Qed.

Lemma exception_confidence_in_range (policy_docs : list Doc)
    (exception_plan : ExceptionPlan.t) :
  Spec.in_range (ExceptionHandler._calculate_confidence policy_docs exception_plan).
Proof.
  unfold ExceptionHandler._calculate_confidence. apply clamp_in_range.
  pose proof (severity_adjustment_bound
                (Py.get_or (ExceptionPlan.severity exception_plan) "medium")) as Hs.
  pose proof (policy_boost_nonneg (15 # 100) policy_docs ltac:(discriminate)) as Hp.
  apply (Qle_trans _ ((75 # 100) + 0 + 0 + - (1 # 10))); [discriminate|].
  repeat apply Qplus_le_compat; try assumption; try apply Qle_refl.
  destruct (_ && _); discriminate.
Qed.

(** The state-and-exception monad on confidence. *)

Lemma handle_error_confidence {R} (st : AgentState R) (e : exn) :
  confidence (handle_error st e) = 0%Q.
Proof. reflexivity. Qed.

Lemma handle_error_sets_error {R} (st : AgentState R) (e : exn) :
  error (handle_error st e) = Some (Exceptions.str e).
Proof. reflexivity. Qed.

Lemma try_process_raise {R} (body : M R unit) (st st' : AgentState R) (e : exn) :
  body st = (st', Raise e) -> try_process body st = handle_error st' e.
Proof. intros H. unfold try_process. now rewrite H. Qed.


Local Opaque Py.format_2f Py.str_of_nat Py.slice_to String.append Py.join.

Ltac run_agent :=
  unfold try_process, mbind, get, lift, log_reasoning, set_confidence, set_result;
  cbn [query context confidence reasoning result error fst snd].

Lemma policy_process_confidence (w : World) (st : AgentState PolicyInterpreter.Response) :
  confidence (PolicyInterpreter.process w st) =
  match PolicyInterpreter._retrieve_policies w (query st) with
  | Raise _ => 0%Q
  | Ok [] => 1 # 10
  | Ok policy_docs =>
      match generate_policy_interpretation w (query st)
              (Py.join blank_line (map content policy_docs)) (context st) with
      | Raise _ => 0%Q
      | Ok interpretation =>
          PolicyInterpreter._calculate_confidence policy_docs interpretation
      end
  end.
Proof.
  unfold PolicyInterpreter.process, PolicyInterpreter.process_body,
    PolicyInterpreter._handle_no_policies.
  run_agent.
  destruct (PolicyInterpreter._retrieve_policies w (query st)) as [[|d ds]|e];
    [reflexivity| |reflexivity].
  run_agent.
  destruct (generate_policy_interpretation w _ _ _); reflexivity.
Qed.

Lemma workflow_process_confidence (w : World) (st : AgentState WorkflowPlanner.Enhanced) :
  confidence (WorkflowPlanner.process w st) =
  match WorkflowPlanner._get_relevant_policies w (query st) with
  | Raise _ => 0%Q
  | Ok policy_docs =>
      match generate_workflow_plan w (query st) policy_docs (context st) with
      | Raise _ => 0%Q
      | Ok workflow_plan =>
          WorkflowPlanner._calculate_confidence policy_docs workflow_plan
      end
  end.
Proof.
  unfold WorkflowPlanner.process, WorkflowPlanner.process_body.
  run_agent.
  destruct (WorkflowPlanner._get_relevant_policies w (query st)); [|reflexivity].
  run_agent.
  destruct (generate_workflow_plan w _ _ _); reflexivity.
Qed.

Lemma exception_process_confidence (w : World) (st : AgentState ExceptionHandler.Enhanced) :
  confidence (ExceptionHandler.process w st) =
  match ExceptionHandler._get_relevant_policies w (query st) with
  | Raise _ => 0%Q
  | Ok policy_docs =>
      match generate_exception_handling w (query st) policy_docs (context st) with
      | Raise _ => 0%Q
      | Ok exception_plan =>
          ExceptionHandler._calculate_confidence policy_docs exception_plan
      end
  end.
Proof.
  unfold ExceptionHandler.process, ExceptionHandler.process_body.
  run_agent.
  destruct (ExceptionHandler._get_relevant_policies w (query st)); [|reflexivity].
  run_agent.
  destruct (generate_exception_handling w _ _ _); reflexivity.
Qed.


Lemma bind_filter_in_range (r : except (list Doc)) (t : Q) :
  forall docs,
    Exceptions.bind r
      (fun results => Ok (List.filter (fun d => Py.Qltb t (score d)) results))
    = Ok docs ->
    exists results, docs = List.filter (fun d => Py.Qltb t (score d)) results.
Proof.
  intros docs H. destruct r as [results|e]; cbn in H; [|discriminate].
  exists results. congruence.
Qed.

Lemma zero_in_range : Spec.in_range 0.
Proof. split; discriminate. Qed.

(** C1. Whatever the collection, the model and the decoder answer, and
    whatever the input state, the confidence left by [process] of each of
    the three agents lies in [0.0, 0.95]; it is exactly 0.1 when the policy
    interpreter retrieves no policy above its threshold, and exactly 0.0
    (with the error recorded by [handle_error]) when the body of [process]
    raises. *)
Theorem agent_confidence_clamped :
  forall (w : World),
    (forall st, Spec.in_range (confidence (PolicyInterpreter.process w st))) /\
    (forall st, Spec.in_range (confidence (WorkflowPlanner.process w st))) /\
    (forall st, Spec.in_range (confidence (ExceptionHandler.process w st))) /\
    (forall st,
        PolicyInterpreter._retrieve_policies w (query st) = Ok [] ->
        confidence (PolicyInterpreter.process w st) = 1 # 10) /\
    (forall st st' e,
        PolicyInterpreter.process_body w st = (st', Raise e) ->
        PolicyInterpreter.process w st = handle_error st' e /\
        confidence (PolicyInterpreter.process w st) = 0%Q) /\
    (forall st st' e,
        WorkflowPlanner.process_body w st = (st', Raise e) ->
        WorkflowPlanner.process w st = handle_error st' e /\
        confidence (WorkflowPlanner.process w st) = 0%Q) /\
    (forall st st' e,
        ExceptionHandler.process_body w st = (st', Raise e) ->
        ExceptionHandler.process w st = handle_error st' e /\
        confidence (ExceptionHandler.process w st) = 0%Q).
Proof.
  intros w. repeat apply conj.
  - intros st. rewrite policy_process_confidence.
    destruct (PolicyInterpreter._retrieve_policies w (query st)) as [docs|e] eqn:E;
      [|apply zero_in_range].
    apply bind_filter_in_range in E as [results ->].
    destruct (List.filter _ results) as [|d ds] eqn:F; [split; discriminate|].
    destruct (generate_policy_interpretation w _ _ _); [|apply zero_in_range].
    rewrite <- F. apply policy_confidence_in_range. discriminate.
  - intros st. rewrite workflow_process_confidence.
    destruct (WorkflowPlanner._get_relevant_policies w (query st));
      [|apply zero_in_range].
    destruct (generate_workflow_plan w _ _ _); [|apply zero_in_range].
    apply workflow_confidence_in_range.
  - intros st. rewrite exception_process_confidence.
    destruct (ExceptionHandler._get_relevant_policies w (query st));
      [|apply zero_in_range].
    destruct (generate_exception_handling w _ _ _); [|apply zero_in_range].
    apply exception_confidence_in_range.
  - intros st H. rewrite policy_process_confidence, H. reflexivity.
  - intros st st' e H. unfold PolicyInterpreter.process.
    rewrite (try_process_raise _ _ _ _ H). split; reflexivity.
  - intros st st' e H. unfold WorkflowPlanner.process.
    rewrite (try_process_raise _ _ _ _ H). split; reflexivity.
  - intros st st' e H. unfold ExceptionHandler.process.
    rewrite (try_process_raise _ _ _ _ H). split; reflexivity.
Qed.

Lemma agent_confidence_clamped_witness :
  confidence (PolicyInterpreter.process Spec.empty_world (new_state "visiting hours" []))
  = 1 # 10
  /\ Spec.in_range
       (confidence (WorkflowPlanner.process Spec.empty_world (new_state "register a patient" []))).
Proof.
  split.
  - exact (proj1 (proj2 (proj2 (proj2 (agent_confidence_clamped Spec.empty_world))))
             (new_state "visiting hours" []) eq_refl).
  - exact (proj1 (proj2 (agent_confidence_clamped Spec.empty_world))
             (new_state "register a patient" [])).
Defined.

Example workflow_error_path :
  let st := WorkflowPlanner.process Spec.empty_world (new_state "register a patient" []) in
  confidence st = 0%Q
  /\ error st = Some "Workflow planning failed: model unreachable".
Proof. vm_compute. split; reflexivity. Qed.

Local Transparent Py.format_2f Py.str_of_nat Py.slice_to String.append Py.join.

End Confidence.

(** ** LLM service: fallback parsing and routing *)

Section Fallbacks.
Import LLMService.

Lemma append_cons (c : ascii) (a b : string) :
  String c a ++ b = String c (a ++ b).
Proof. reflexivity. Qed.

Lemma append_nil_l (b : string) : "" ++ b = b.
Proof. reflexivity. Qed.

Lemma slice_to_from (n : nat) (s : string) :
  Py.slice_to n s ++ Py.slice_from n s = s.
Proof.
  revert s. induction n as [|n IH]; intros [|c s]; cbn; try reflexivity.
  now rewrite append_cons, IH.
Qed.

Lemma slice_to_length (n : nat) (s : string) :
  (n <= String.length s)%nat -> String.length (Py.slice_to n s) = n.
Proof.
  revert s. induction n as [|n IH]; intros [|c s] H; cbn in *; try reflexivity; try lia.
  rewrite IH; lia.
Qed.

(** C3 (amended). When the model's answer does not decode as JSON,
    [generate_policy_interpretation] returns a record whose four lists are
    empty and whose direct answer is the first 200 characters of the raw
    answer followed by "..." when the answer is longer than 200 characters,
    and the raw answer itself, unchanged, when it has at most 200. *)
Theorem policy_fallback_direct_answer :
  forall (w : World) (query policy_content : string) (context : Py.Dict)
         (content : string),
    ainvoke w (PolicyPrompt query policy_content context) = Ok content ->
    loads_policy w content = None ->
    exists r,
      generate_policy_interpretation w query policy_content context = Ok r /\
      ((200 < String.length content)%nat ->
       PolicyInterpretation.direct_answer r = Some (Py.slice_to 200 content ++ "...")
       /\ String.length (Py.slice_to 200 content) = 200%nat
       /\ Py.startswith (Py.slice_to 200 content) content = true) /\
      ((String.length content <= 200)%nat ->
       PolicyInterpretation.direct_answer r = Some content) /\
      PolicyInterpretation.requirements r = Some [] /\
      PolicyInterpretation.procedures r = Some [] /\
      PolicyInterpretation.exceptions r = Some [] /\
      PolicyInterpretation.compliance_notes r = Some [].
Proof.
  intros w query pc ctx content Hcall Hloads.
  exists (_parse_fallback_response content).
  unfold generate_policy_interpretation. rewrite Hcall, Hloads.
  split; [reflexivity|]. unfold _parse_fallback_response.
  cbn [PolicyInterpretation.direct_answer PolicyInterpretation.requirements
       PolicyInterpretation.procedures PolicyInterpretation.exceptions
       PolicyInterpretation.compliance_notes].
  repeat split.
  - destruct (Nat.ltb_spec 200 (String.length content)); [reflexivity|lia].
  - apply slice_to_length. lia.
  - clear. generalize 200%nat. intros n. revert content.
    induction n as [|n IH]; intros [|c s]; cbn; try reflexivity.
    now rewrite Ascii.eqb_refl, IH.
  - intros Hle. destruct (Nat.ltb_spec 200 (String.length content)); [lia|reflexivity].
Qed.


Lemma policy_fallback_direct_answer_witness :
  exists r,
    generate_policy_interpretation (Spec.garbled_world [] "Sorry, I cannot help.")
      "visiting hours" "" [] = Ok r /\
    PolicyInterpretation.direct_answer r = Some "Sorry, I cannot help.".
Proof.
  destruct (policy_fallback_direct_answer
              (Spec.garbled_world [] "Sorry, I cannot help.")
              "visiting hours" "" [] "Sorry, I cannot help." eq_refl eq_refl)
    as (r & Hr & _ & Hshort & _).
  exists r. split; [exact Hr|]. apply Hshort. cbn. lia.
Defined.

(** C3 as stated fails: a raw answer of at most 200 characters is returned
    as it is, without "...". *)
Lemma policy_fallback_short_answer_has_no_ellipsis :
  exists r,
    ainvoke (Spec.garbled_world [] "Sorry, I cannot help.")
      (PolicyPrompt "visiting hours" "" []) = Ok "Sorry, I cannot help." /\
    loads_policy (Spec.garbled_world [] "Sorry, I cannot help.")
      "Sorry, I cannot help." = None /\
    generate_policy_interpretation (Spec.garbled_world [] "Sorry, I cannot help.")
      "visiting hours" "" [] = Ok r /\
    PolicyInterpretation.direct_answer r
      <> Some (Py.slice_to 200 "Sorry, I cannot help." ++ "...").
Proof.
  eexists. repeat split. vm_compute. discriminate.
Qed.

(** [p in s] is the substring relation. *)
Lemma startswith_spec (p s : string) :
  Py.startswith p s = true <-> exists b, s = p ++ b.
Proof.
  revert s. induction p as [|a p IH]; intros s; cbn.
  - split; [intros _; exists s; reflexivity | reflexivity].
  - destruct s as [|c s].
    + split; [discriminate | intros [b Hb]; discriminate].
    + rewrite andb_true_iff, Ascii.eqb_eq, IH. split.
      * intros [-> [b ->]]. exists b. reflexivity.
      * intros [b Hb]. rewrite append_cons in Hb. injection Hb as -> ->.
        split; [reflexivity | exists b; reflexivity].
Qed.

Lemma contains_spec (p s : string) :
  Py.contains p s = true <-> exists a b, s = a ++ p ++ b.
Proof.
  induction s as [|c s IH].
  - cbn. rewrite orb_false_r, startswith_spec. split.
    + intros [b Hb]. exists "", b. exact Hb.
    + intros (a & b & H). destruct a; [exists b; exact H|discriminate].
  - cbn [Py.contains]. rewrite orb_true_iff, IH, startswith_spec. split.
    + intros [[b Hb]|(a & b & Hab)].
      * exists "", b. exact Hb.
      * exists (String c a), b. rewrite append_cons. now f_equal.
    + intros (a & b & H). destruct a as [|c' a].
      * left. exists b. exact H.
      * right. rewrite append_cons in H. injection H as -> ->.
        exists a, b. reflexivity.
Qed.

Lemma any_word_in_mentions (words : list string) (query : string) :
  any_word_in words (Py.lower query) = true <-> Spec.mentions words query.
Proof. unfold any_word_in, Spec.mentions. apply existsb_exists. Qed.

Lemma any_word_in_not_mentions (words : list string) (query : string) :
  any_word_in words (Py.lower query) = false <-> ~ Spec.mentions words query.
Proof.
  rewrite <- any_word_in_mentions. destruct (any_word_in _ _); split; easy.
Qed.

(** C6. When the model call raises, or when the trimmed answer is none of
    PolicyInterpreter, WorkflowPlanner, ExceptionHandler, [route_query]
    returns the keyword result: PolicyInterpreter if the lowercased query
    contains policy, regulation, compliance or rule; else WorkflowPlanner if
    it contains workflow, procedure, steps or process; else ExceptionHandler
    if it contains problem, error, exception, emergency or issue; else
    PolicyInterpreter. *)
Theorem route_query_keyword_fallback :
  forall (w : World) (query : string) (context : Py.Dict),
    (forall content,
        ainvoke w (RoutingPrompt query context) = Ok content ->
        Py.strip content <> "PolicyInterpreter" /\
        Py.strip content <> "WorkflowPlanner" /\
        Py.strip content <> "ExceptionHandler") ->
    let r := route_query w query context in
    (Spec.mentions Spec.policy_words query -> r = "PolicyInterpreter") /\
    (~ Spec.mentions Spec.policy_words query ->
     Spec.mentions Spec.workflow_words query -> r = "WorkflowPlanner") /\
    (~ Spec.mentions Spec.policy_words query ->
     ~ Spec.mentions Spec.workflow_words query ->
     Spec.mentions Spec.exception_words query -> r = "ExceptionHandler") /\
    (~ Spec.mentions Spec.policy_words query ->
     ~ Spec.mentions Spec.workflow_words query ->
     ~ Spec.mentions Spec.exception_words query -> r = "PolicyInterpreter").
Proof.
  intros w query context Hinvalid r.
  assert (Hr : r = _fallback_routing query).
  { subst r. unfold route_query.
    destruct (ainvoke w (RoutingPrompt query context)) as [content|e];
      [|reflexivity].
    destruct (Hinvalid content eq_refl) as (H1 & H2 & H3).
    unfold valid_agents. cbn [existsb].
    destruct (String.eqb_spec (Py.strip content) "PolicyInterpreter"); [contradiction|].
    destruct (String.eqb_spec (Py.strip content) "WorkflowPlanner"); [contradiction|].
    destruct (String.eqb_spec (Py.strip content) "ExceptionHandler"); [contradiction|].
    reflexivity. }
  rewrite Hr. unfold _fallback_routing.
  fold Spec.policy_words Spec.workflow_words Spec.exception_words.
  repeat apply conj.
  - intros H. apply any_word_in_mentions in H. now rewrite H.
  - intros H1 H2. apply any_word_in_not_mentions in H1.
    apply any_word_in_mentions in H2. now rewrite H1, H2.
  - intros H1 H2 H3. apply any_word_in_not_mentions in H1, H2.
    apply any_word_in_mentions in H3. now rewrite H1, H2, H3.
  - intros H1 H2 H3. apply any_word_in_not_mentions in H1, H2, H3.
    now rewrite H1, H2, H3.
Qed.


Lemma route_query_keyword_fallback_witness :
  route_query (Spec.garbled_world [] "I would ask the WorkflowPlanner agent.")
    "Describe the discharge Workflow" [] = "WorkflowPlanner".
Proof.
  refine (proj1 (proj2
    (route_query_keyword_fallback
       (Spec.garbled_world [] "I would ask the WorkflowPlanner agent.")
       "Describe the discharge Workflow" [] _)) _ _).
  - intros content H. injection H as <-. vm_compute. repeat split; discriminate.
  - apply any_word_in_not_mentions. vm_compute. reflexivity.
  - apply any_word_in_mentions. vm_compute. reflexivity.
Defined.

Example route_query_valid_answer :
  route_query (Spec.garbled_world [] "  ExceptionHandler
") "What is the visiting policy?" [] = "ExceptionHandler".
Proof. vm_compute. reflexivity. Qed.

Example route_query_model_down :
  route_query Spec.empty_world "The scanner reports an error" [] = "ExceptionHandler"
  /\ route_query Spec.empty_world "Good morning" [] = "PolicyInterpreter".
Proof. vm_compute. split; reflexivity. Qed.

End Fallbacks.

(** ** Document processor: file validation *)

Example suffix_examples :
  Path.suffix "report.PDF" = ".PDF" /\ Path.suffix "dir.d/notes" = ""
  /\ Path.suffix ".pdf" = "" /\ Path.suffix "a.tar.gz" = ".gz"
  /\ Path.suffix "trailing." = "" /\ Path.suffix "uploads/x.txt/" = ".txt".
Proof. vm_compute. repeat split. Qed.

Section Validation.
Import DocumentService.

Lemma existsb_eqb_In (x : string) (l : list string) :
  existsb (String.eqb x) l = true <-> In x l.
Proof.
  rewrite existsb_exists. split.
  - intros (y & Hy & E). apply String.eqb_eq in E. now subst.
  - intros H. exists x. split; [assumption | apply String.eqb_refl].
Qed.

(** C4. [validate_file] raises a DocumentProcessingError exactly when the
    size exceeds max_file_size_mb x 1,048,576 bytes or the lowercased
    suffix of the file name, without its leading dot, is not among the
    configured types; otherwise it returns normally (the function reads the
    processor and writes nothing). With the default settings a file of
    52,428,800 bytes with an allowed extension passes and one byte more
    fails. *)
Theorem validate_file_raises_iff :
  forall (settings : Config.Settings) (filename : string) (file_size : Z)
         (content_type : string),
    let self := init settings in
    let file_ext := Py.lstrip_char "." (Py.lower (Path.suffix filename)) in
    let too_large :=
      (Config.max_file_size_mb settings * 1048576 < file_size)%Z in
    let unsupported :=
      ~ In file_ext (Py.split_on "," (Config.supported_file_types settings)) in
    ((exists message,
         validate_file self filename file_size content_type
         = Raise (DocumentProcessingError message (Some filename)))
     <-> too_large \/ unsupported) /\
    (validate_file self filename file_size content_type = Ok tt
     <-> ~ (too_large \/ unsupported)) /\
    (validate_file (init Config.default_settings) "policy.PDF" 52428800 content_type
     = Ok tt) /\
    (exists message,
        validate_file (init Config.default_settings) "policy.PDF" 52428801
          content_type
        = Raise (DocumentProcessingError message (Some "policy.PDF"))).
Proof.
  intros settings filename file_size content_type self file_ext too_large unsupported.
  assert (Hcases :
    (too_large /\ exists m, validate_file self filename file_size content_type
                            = Raise (DocumentProcessingError m (Some filename)))
    \/ (~ too_large /\ unsupported /\
        exists m, validate_file self filename file_size content_type
                  = Raise (DocumentProcessingError m (Some filename)))
    \/ (~ too_large /\ ~ unsupported /\
        validate_file self filename file_size content_type = Ok tt)).
  { unfold validate_file, self, init. cbn [max_size_bytes supported_types].
    fold file_ext.
    destruct (Z.ltb_spec (Config.max_file_size_mb settings * 1024 * 1024) file_size)
      as [Hbig|Hok].
    - left. split; [unfold too_large; lia|]. eexists. reflexivity.
    - right.
      assert (Hn : ~ too_large) by (unfold too_large; lia).
      destruct (existsb (String.eqb file_ext)
                  (Py.split_on "," (Config.supported_file_types settings))) eqn:E.
      + right. split; [assumption|]. split; [|reflexivity].
        apply existsb_eqb_In in E. unfold unsupported. tauto.
      + left. split; [assumption|]. split; [|eexists; reflexivity].
        unfold unsupported. rewrite <- existsb_eqb_In. congruence. }
  repeat apply conj.
  - intros [m Hm]. destruct Hcases as [[? _]|[(_ & ? & _)|(_ & _ & H)]];
      [tauto|tauto|congruence].
  - intros H. destruct Hcases as [[_ ?]|[(_ & _ & ?)|(? & ? & _)]];
      [assumption|assumption|tauto].
  - intros H. destruct Hcases as [[_ [m Hm]]|[(_ & _ & [m Hm])|(? & ? & _)]];
      [congruence|congruence|tauto].
  - intros H. destruct Hcases as [[? _]|[(_ & ? & _)|(_ & _ & ?)]];
      [tauto|tauto|assumption].
  - reflexivity.
  - eexists. vm_compute. reflexivity.
Qed.

Example validate_file_default_examples :
  validate_file (init Config.default_settings) "scan.exe" 10 "application/octet-stream"
  = Raise (DocumentProcessingError
             "File type 'exe' not supported. Supported types: ['pdf', 'txt', 'docx']"
             (Some "scan.exe"))
  /\ validate_file (init Config.default_settings) "notes.docx" 0 "" = Ok tt
  /\ validate_file (init Config.default_settings) "big.txt" 52428801 "text/plain"
     = Raise (DocumentProcessingError
                "File size 52428801 bytes exceeds maximum allowed size of 52428800 bytes"
                (Some "big.txt")).
Proof. vm_compute. repeat split. Qed.

End Validation.

(** ** Rate limiter *)

Section RateLimit.
Import AuthService.

(** Within one day the limiter is a sliding window: with limit 3 and a
    window of 60 seconds, three requests pass, the fourth is denied, and a
    request 61 seconds after the first three passes again. *)
Example rate_limiter_within_a_day :
  fst (run new "clerk" 3 60
         (map Spec.seconds [0; 1; 2; 3; 62]%Z))
  = [true; true; true; false; true].
Proof. vm_compute. reflexivity. Qed.

(** The answer only depends on how many stored entries pass the filter. *)
Lemma is_allowed_answer (self : RateLimiter) (now : datetime) (key : string)
    (limit window : Z) :
  fst (is_allowed self now key limit window) =
  (Z.of_nat
     (List.length
        (List.filter (fun req_time => (timedelta_seconds now req_time <? window)%Z)
           (Py.get_or (requests self !! key) [])))
   <? limit)%Z.
Proof.
  unfold is_allowed. destruct (requests self !! key) as [l|] eqn:E.
  - rewrite E. cbn [Py.get_or]. now destruct (_ <? limit)%Z.
  - rewrite lookup_insert_eq. cbn [Py.get_or List.filter List.length].
    now destruct (_ <? limit)%Z.
Qed.

(** An entry whose age is a whole number of days plus less than the
    window is kept by the filter, however old it is. *)
Lemma timedelta_seconds_wraps (req_time : datetime) (days extra window : Z) :
  (0 <= extra < window)%Z -> (window <= 86400)%Z ->
  (timedelta_seconds (req_time + Spec.seconds (days * 86400 + extra)) req_time <? window)%Z
  = true.
Proof.
  intros Hextra Hwin. unfold timedelta_seconds, Spec.seconds.
  replace (req_time + (days * 86400 + extra) * 1000000 - req_time)%Z
    with ((days * 86400 + extra) * 1000000)%Z by lia.
  rewrite Z.div_mul by lia.
  rewrite Z.add_comm, Z.mod_add by lia.
  rewrite Z.mod_small by lia. apply Z.ltb_lt. lia.
Qed.

(** C8 fails on the code: with limit 1 and a window of 3600 seconds, a
    request made one day and one second after the only recorded one is
    denied, although the window has long elapsed: the age is read through
    the [seconds] field of the difference, which is 1, and the old entry is
    kept. *)
Theorem rate_limiter_denies_after_a_day :
  let '(first, limiter) := is_allowed new (Spec.seconds 0) "clerk" 1 3600 in
  let '(second, limiter') := is_allowed limiter (Spec.seconds 86401) "clerk" 1 3600 in
  first = true
  /\ timedelta_total_seconds (Spec.seconds 86401) (Spec.seconds 0) = 86401%Z
  /\ timedelta_seconds (Spec.seconds 86401) (Spec.seconds 0) = 1%Z
  /\ second = false
  /\ requests limiter' !! "clerk" = Some [Spec.seconds 0].
Proof. vm_compute. repeat split. Qed.

End RateLimit.

(** ** Evaluation service: answers without words *)

Section Evaluation.
Import EvaluationService.

Lemma lower_char_space (c : ascii) : Py.is_space (Py.lower_char c) = Py.is_space c.
Proof. destruct c as [[] [] [] [] [] [] [] []]; reflexivity. Qed.

Lemma split_from_nonempty (cur s : string) :
  cur <> "" -> Py.split_from cur s <> [].
Proof.
  revert cur. induction s as [|c s IH]; intros cur Hcur; cbn.
  - destruct (String.eqb_spec cur ""); [contradiction | discriminate].
  - destruct (Py.is_space c).
    + destruct (String.eqb_spec cur ""); [contradiction | discriminate].
    + apply IH. destruct cur; discriminate.
Qed.

(** An answer has no words exactly when all its characters are spaces. *)
Lemma split_nil_iff (s : string) :
  Py.split s = [] <-> forallb Py.is_space (list_ascii_of_string s) = true.
Proof.
  unfold Py.split. induction s as [|c s IH]; cbn.
  - tauto.
  - destruct (Py.is_space c) eqn:E; cbn.
    + exact IH.
    + split; [|discriminate]. intros H. exfalso.
      revert H. apply split_from_nonempty. discriminate.
Qed.

Lemma lower_spaces (s : string) :
  forallb Py.is_space (list_ascii_of_string (Py.lower s))
  = forallb Py.is_space (list_ascii_of_string s).
Proof.
  induction s as [|c s IH]; cbn; [reflexivity|].
  now rewrite lower_char_space, IH.
Qed.

Lemma words_of_blank (answer : string) :
  Py.split answer = [] -> words answer = ∅.
Proof.
  intros H. unfold words. apply split_nil_iff in H.
  rewrite <- lower_spaces in H. apply split_nil_iff in H. now rewrite H.
Qed.

Lemma precision_step_raise (answer_words : gset string) (docs : list Doc) (e : exn) :
  fold_left (precision_step answer_words) docs (Raise e) = Raise e.
Proof. induction docs as [|d docs IH]; cbn; [reflexivity | exact IH]. Qed.

(** C10. For a non-empty list of retrieved documents and an answer without
    any word (empty or made of white space), [evaluate_rag_response] returns
    no metrics: the context-precision loop divides by the number of answer
    words, which is zero, the ZeroDivisionError escapes, and nothing is
    appended to the history. *)
Theorem evaluate_rag_response_blank_answer_raises :
  forall (self : EvaluationService) (query answer : string)
         (retrieved_docs : list Doc) (ground_truth : option string) (now : Q),
    retrieved_docs <> [] ->
    Py.split answer = [] ->
    evaluate_rag_response self query answer retrieved_docs ground_truth now
    = (Raise ZeroDivisionError, self)
    /\ _calculate_context_precision retrieved_docs answer = Raise ZeroDivisionError.
Proof.
  intros self query answer docs gt now Hdocs Hblank.
  assert (Hp : _calculate_context_precision docs answer = Raise ZeroDivisionError).
  { unfold _calculate_context_precision.
    destruct docs as [|d docs]; [contradiction|].
    rewrite (words_of_blank answer Hblank).
    cbn [fold_left]. unfold precision_step at 2. cbn [Exceptions.bind].
    unfold set_len. rewrite size_empty. change (Z.of_nat 0) with 0%Z.
    unfold Exceptions.div at 1. cbn [Z.eqb Exceptions.bind].
    rewrite precision_step_raise. reflexivity. }
  split; [|exact Hp].
  unfold evaluate_rag_response. rewrite Hp. reflexivity.
Qed.

Lemma evaluate_rag_response_blank_answer_raises_witness :
  evaluate_rag_response (mkEvaluationService []) "What is the visiting policy?"
    "   " [mkDoc (Some "Visiting hours end at 8pm.") (Some (7 # 10))] None 0
  = (Raise ZeroDivisionError, mkEvaluationService []).
Proof.
  refine (proj1 (evaluate_rag_response_blank_answer_raises
            (mkEvaluationService []) "What is the visiting policy?" "   "
            [mkDoc (Some "Visiting hours end at 8pm.") (Some (7 # 10))] None 0 _ _)).
  - discriminate.
  - reflexivity.
Defined.

Example evaluate_rag_response_with_words :
  match evaluate_rag_response (mkEvaluationService []) "visiting hours"
          "Visiting hours end at 8pm."
          [mkDoc (Some "Visiting hours end at 8pm.") (Some (7 # 10))] None 0 with
  | (Ok m, self') =>
      Qeq (context_precision m) 1 /\ Qeq (faithfulness m) 1
      /\ List.length (metrics_history self') = 1%nat
  | _ => False
  end.
Proof. vm_compute. repeat split; congruence. Qed.

End Evaluation.

(** ** Guardrails: sanitising text without matches *)

Section Sanitize.
Import GuardrailsService.

Example sanitize_output_examples :
  sanitize_output "SSN 123-45-6789, call 555-123-4567 or write to jo@clinic.org"
  = "SSN [REDACTED_SSN], call [REDACTED_PHONE] or write to [REDACTED_EMAIL]"
  /\ sanitize_output "mrn: 1234567 born 1/2/1980; the Password is x"
     = "[REDACTED_MRN] born [REDACTED_DOB]; the [REMOVED] is x"
  /\ sanitize_output "card 1234 5678 9012 3456 <SCRIPT src=a>x</script>!"
     = "card [REDACTED_CREDIT_CARD] [REMOVED]!"
  /\ sanitize_output "x123-45-6789 tokens" = "x123-45-6789 tokens".
Proof. vm_compute. repeat split. Qed.


Lemma sub_from_no_match (r : Re.regex) (repl : string) (fuel : nat) :
  forall prev s,
    Re.search_from r prev s = false -> Re.sub_from fuel r repl prev s = s.
Proof.
  induction fuel as [|fuel IH]; intros prev s H; [reflexivity|].
  cbn [Re.sub_from]. destruct s as [|c s]; cbn [Re.search_from] in H.
  - destruct (Re.match_at r prev ""); [discriminate|reflexivity].
  - destruct (Re.match_at r prev (String c s)); [discriminate|].
    now rewrite IH.
Qed.

Lemma sub_no_match (r : Re.regex) (repl s : string) :
  Re.search r s = false -> Re.sub r repl s = s.
Proof. apply sub_from_no_match. Qed.

Lemma detect_pii_nil (text : string) :
  _detect_pii text = [] ->
  Forall (fun '(_, p) => Re.search (compiled p) text = false) PII_PATTERNS.
Proof.
  unfold _detect_pii. generalize PII_PATTERNS. intros l.
  induction l as [|[ty p] l IH]; cbn; [constructor|].
  destruct (Re.search (compiled p) text) eqn:E; [discriminate|].
  intros H. constructor; [exact E | exact (IH H)].
Qed.

Lemma detect_prohibited_nil (text : string) :
  _detect_prohibited_content text = [] ->
  Forall (fun p => Re.search (compiled p) text = false) PROHIBITED_PATTERNS.
Proof.
  unfold _detect_prohibited_content. generalize PROHIBITED_PATTERNS. intros l.
  induction l as [|p l IH]; cbn; [constructor|].
  destruct (Re.search (compiled p) text) eqn:E; [discriminate|].
  intros H. constructor; [exact E | exact (IH H)].
Qed.

(** C9. A text in which the detectors find no PII and no prohibited
    content, for instance one that holds only [REDACTED_*] and [REMOVED]
    tokens around harmless words, is returned unchanged by
    [sanitize_output]. *)
Theorem sanitize_output_fixes_clean_text :
  forall text : string,
    _detect_pii text = [] ->
    _detect_prohibited_content text = [] ->
    sanitize_output text = text.
Proof.
  intros text Hpii Hpro. unfold sanitize_output.
  apply detect_pii_nil in Hpii. apply detect_prohibited_nil in Hpro.
  assert (H1 : fold_left
                 (fun sanitized '(pii_type, pattern) =>
                    Re.sub (compiled pattern)
                      ("[REDACTED_" ++ Py.upper pii_type ++ "]") sanitized)
                 PII_PATTERNS text = text).
  { revert Hpii. generalize PII_PATTERNS. intros l.
    induction l as [|[ty p] l IH]; intros Hall; cbn [fold_left]; [reflexivity|].
    inversion Hall as [|? ? Hp Hl]; subst.
    rewrite sub_no_match by exact Hp. exact (IH Hl). }
  rewrite H1. revert Hpro. generalize PROHIBITED_PATTERNS. intros l.
  induction l as [|p l IH]; intros Hall; cbn [fold_left]; [reflexivity|].
  inversion Hall as [|? ? Hp Hl]; subst.
  rewrite sub_no_match by exact Hp. exact (IH Hl).
Qed.

Lemma sanitize_output_fixes_clean_text_witness :
  sanitize_output
    "Patient [REDACTED_SSN] can be reached at [REDACTED_PHONE]; see [REMOVED]."
  = "Patient [REDACTED_SSN] can be reached at [REDACTED_PHONE]; see [REMOVED].".
Proof.
  apply sanitize_output_fixes_clean_text; vm_compute; reflexivity.
Defined.

(** Every output of the redaction of one social security number is such a
    clean text. *)
Example sanitize_output_twice :
  sanitize_output (sanitize_output "SSN 123-45-6789 on file")
  = sanitize_output "SSN 123-45-6789 on file".
Proof. vm_compute. reflexivity. Qed.

(** An output is not always a clean text: removing an inner script element
    can leave the outer one, which a second pass removes. *)
Example sanitize_output_script_residue :
  let text := "<script><script" ++ String "010"%char "></script></script>" in
  sanitize_output text = "<script>[REMOVED]</script>"
  /\ _detect_prohibited_content (sanitize_output text)
     = ["<script[^>]*>.*?</script>"]
  /\ sanitize_output (sanitize_output text) = "[REMOVED]".
Proof. vm_compute. repeat split. Qed.

(** C9 as stated fails: the output of [sanitize_output] on a script element
    nested in another one is changed by a second application. *)
Lemma sanitize_output_not_idempotent :
  sanitize_output
    (sanitize_output ("<script><script" ++ String "010"%char "></script></script>"))
  <> sanitize_output ("<script><script" ++ String "010"%char "></script></script>").
Proof. vm_compute. discriminate. Qed.

End Sanitize.

(** * Further properties *)

(** ** Agents: traces and outcomes *)

Section AgentTraces.
Import Base VectorService LLMService Trace.

Local Opaque Py.format_2f Py.str_of_nat Py.slice_to String.append Py.join.

Ltac step_agent :=
  unfold try_process, mbind, get, lift, log_reasoning, set_confidence, set_result;
  cbn [query context confidence reasoning result error fst snd].

(** X1. [process] of each agent leaves the query and the context alone and
    only appends to the reasoning trace; the first appended line announces
    the start with the first 50 characters of the query. *)
Theorem process_extends_trace :
  forall (w : World),
    (forall st, exists l,
        extends_by
          (("Starting LLM-powered policy interpretation: "
            ++ Py.slice_to 50 (query st) ++ "...") :: l)
          st (PolicyInterpreter.process w st)) /\
    (forall st, exists l,
        extends_by
          (("Starting LLM-powered workflow planning: "
            ++ Py.slice_to 50 (query st) ++ "...") :: l)
          st (WorkflowPlanner.process w st)) /\
    (forall st, exists l,
        extends_by
          (("Starting LLM-powered exception handling: "
            ++ Py.slice_to 50 (query st) ++ "...") :: l)
          st (ExceptionHandler.process w st)).
Proof.
  intros w. unfold extends_by. repeat apply conj; intros st.
  - unfold PolicyInterpreter.process, PolicyInterpreter.process_body,
      PolicyInterpreter._handle_no_policies, handle_error.
    step_agent.
    destruct (PolicyInterpreter._retrieve_policies w (query st)) as [[|d ds]|e];
      step_agent;
      [| destruct (generate_policy_interpretation w _ _ _); step_agent |];
      unfold handle_error; step_agent;
      eexists; (split; [reflexivity|]); (split; [reflexivity|]);
      rewrite <- ?app_assoc; cbn [app]; reflexivity.
  - unfold WorkflowPlanner.process, WorkflowPlanner.process_body, handle_error.
    step_agent.
    destruct (WorkflowPlanner._get_relevant_policies w (query st)); step_agent;
      [destruct (generate_workflow_plan w _ _ _); step_agent |];
      unfold handle_error; step_agent;
      eexists; (split; [reflexivity|]); (split; [reflexivity|]);
      rewrite <- ?app_assoc; cbn [app]; reflexivity.
  - unfold ExceptionHandler.process, ExceptionHandler.process_body, handle_error.
    step_agent.
    destruct (ExceptionHandler._get_relevant_policies w (query st)); step_agent;
      [destruct (generate_exception_handling w _ _ _); step_agent |];
      unfold handle_error; step_agent;
      eexists; (split; [reflexivity|]); (split; [reflexivity|]);
      rewrite <- ?app_assoc; cbn [app]; reflexivity.
Qed.


Lemma fold_sum_lower (t : Q) (l : list Q) :
  forall acc, Forall (fun x => t <= x)%Q l ->
              (acc + Py.len l * t <= fold_left Qplus l acc)%Q.
Proof.
  induction l as [|x l IH]; intros acc Hall.
  - cbn. unfold Py.len. cbn. rewrite Qmult_0_l, Qplus_0_r. apply Qle_refl.
  - inversion Hall as [|? ? Hx Hl]; subst. cbn [fold_left].
    eapply Qle_trans; [|apply IH; exact Hl].
    unfold Py.len. cbn [List.length]. rewrite Nat2Z.inj_succ, <- Z.add_1_r.
    rewrite inject_Z_plus. change (inject_Z 1) with 1%Q.
    assert (E : (acc + (inject_Z (Z.of_nat (List.length l)) + 1) * t ==
                 acc + t + inject_Z (Z.of_nat (List.length l)) * t)%Q) by ring.
    rewrite E. fold (Py.len l).
    apply Qplus_le_compat; [|apply Qle_refl].
    apply Qplus_le_compat; [apply Qle_refl | exact Hx].
Qed.

Lemma average_lower (t : Q) (l : list Q) :
  l <> [] -> Forall (fun x => t <= x)%Q l -> (t <= Py.sum l / Py.len l)%Q.
Proof.
  intros Hne Hall. apply Qle_shift_div_l.
  - unfold Py.len. change 0%Q with (inject_Z 0). rewrite <- Zlt_Qlt.
    destruct l; [contradiction | cbn; lia].
  - pose proof (fold_sum_lower t l 0 Hall) as H. rewrite Qplus_0_l in H.
    rewrite Qmult_comm. exact H.
Qed.

Lemma average_lower_map {A} (f : A -> Q) (t : Q) (l : list A) :
  l <> [] -> Forall (fun x => t <= x)%Q (map f l) ->
  (t <= Py.sum (map f l) / Py.len l)%Q.
Proof.
  intros Hne Hall.
  replace (Py.len l) with (Py.len (map f l))
    by (unfold Py.len; now rewrite length_map).
  apply average_lower; [|exact Hall]. destruct l; [contradiction|discriminate].
Qed.

Lemma filter_scores_above (t : Q) (results : list Doc) :
  Forall (fun x => t <= x)%Q
    (map score (List.filter (fun r => Py.Qltb t (score r)) results)).
Proof.
  apply Forall_map, List.Forall_forall. intros d Hd.
  apply List.filter_In in Hd as [_ Hd]. apply Qltb_true in Hd.
  now apply Qlt_le_weak.
Qed.

Lemma source_boost_lower {A} (x : A) (l : list A) :
  (5 # 100 <= Py.min (2 # 10) (Py.len (x :: l) * (5 # 100)))%Q.
Proof.
  apply py_min_glb; [discriminate|].
  unfold Py.len. cbn [List.length]. rewrite Nat2Z.inj_succ, <- Z.add_1_r.
  rewrite inject_Z_plus. change (inject_Z 1) with 1%Q.
  assert (E : ((inject_Z (Z.of_nat (List.length l)) + 1) * (5 # 100) ==
               inject_Z (Z.of_nat (List.length l)) * (5 # 100) + (5 # 100))%Q) by ring.
  rewrite E. apply (Qle_trans _ (0 + (5 # 100))); [discriminate|].
  apply Qplus_le_compat; [|apply Qle_refl].
  apply Qmult_le_0_compat; [|discriminate].
  change 0%Q with (inject_Z 0). rewrite <- Zle_Qle. lia.
Qed.

Lemma policy_confidence_floor (results : list Doc) (d : Doc) (ds : list Doc)
    (interpretation : PolicyInterpretation.t) :
  List.filter (fun r => Py.Qltb (3 # 10) (score r)) results = d :: ds ->
  (35 # 100 <= PolicyInterpreter._calculate_confidence (d :: ds) interpretation)%Q.
Proof.
  intros E. unfold PolicyInterpreter._calculate_confidence.
  apply py_min_glb; [discriminate|].
  apply (Qle_trans _ ((3 # 10) + 0 + (5 # 100))); [discriminate|].
  repeat apply Qplus_le_compat.
  - apply average_lower_map; [discriminate|]. rewrite <- E.
    apply filter_scores_above.
  - destruct (Py.truthy_str _); discriminate.
  - apply source_boost_lower.
Qed.

Lemma workflow_confidence_floor (policy_docs : list Doc)
    (workflow_plan : WorkflowPlan.t) :
  (8 # 10 <= WorkflowPlanner._calculate_confidence policy_docs workflow_plan)%Q.
Proof.
  unfold WorkflowPlanner._calculate_confidence.
  apply py_min_glb; [discriminate|].
  apply (Qle_trans _ ((8 # 10) + 0 + 0)); [discriminate|].
  repeat apply Qplus_le_compat; [apply Qle_refl | |].
  - apply policy_boost_nonneg. discriminate.
  - destruct (_ && _); discriminate.
Qed.

Lemma exception_confidence_floor (policy_docs : list Doc)
    (exception_plan : ExceptionPlan.t) :
  (65 # 100 <= ExceptionHandler._calculate_confidence policy_docs exception_plan)%Q.
Proof.
  unfold ExceptionHandler._calculate_confidence.
  apply py_min_glb; [discriminate|].
  apply (Qle_trans _ ((75 # 100) + 0 + 0 + - (1 # 10))); [discriminate|].
  repeat apply Qplus_le_compat; [apply Qle_refl | | |].
  - apply policy_boost_nonneg. discriminate.
  - destruct (_ && _); discriminate.
  - apply severity_adjustment_bound.
Qed.

(** X2. Started on a fresh state, [process] of each agent ends in one of
    two ways: without error, with a result and a confidence of at least 0.1
    (policy interpreter), 0.8 (workflow planner) or 0.65 (exception
    handler); or with the error message recorded, no result and confidence
    exactly zero. No exception escapes. *)
Theorem process_finishes_or_fails :
  forall (w : World) (q : string) (ctx : Py.Dict),
    finished_or_failed (1 # 10) (PolicyInterpreter.process w (new_state q ctx)) /\
    finished_or_failed (8 # 10) (WorkflowPlanner.process w (new_state q ctx)) /\
    finished_or_failed (65 # 100) (ExceptionHandler.process w (new_state q ctx)).
Proof.
  intros w q ctx. unfold finished_or_failed, new_state. repeat apply conj.
  - unfold PolicyInterpreter.process, PolicyInterpreter.process_body,
      PolicyInterpreter._handle_no_policies.
    step_agent.
    destruct (PolicyInterpreter._retrieve_policies w q) as [docs|e] eqn:E.
    + apply bind_filter_in_range in E as [results E].
      destruct docs as [|d ds]; step_agent.
      * left. split; [reflexivity|]. split; [eexists; reflexivity | discriminate].
      * destruct (generate_policy_interpretation w _ _ _); step_agent.
        -- left. split; [reflexivity|]. split; [eexists; reflexivity|].
           apply (Qle_trans _ (35 # 100)); [discriminate|].
           eapply policy_confidence_floor. symmetry. exact E.
        -- right. unfold handle_error. step_agent.
           split; [eexists; reflexivity | split; reflexivity].
    + right. unfold handle_error. step_agent.
      split; [eexists; reflexivity | split; reflexivity].
  - unfold WorkflowPlanner.process, WorkflowPlanner.process_body.
    step_agent.
    destruct (WorkflowPlanner._get_relevant_policies w q); step_agent.
    + destruct (generate_workflow_plan w _ _ _); step_agent.
      * left. split; [reflexivity|]. split; [eexists; reflexivity|].
        apply workflow_confidence_floor.
      * right. unfold handle_error. step_agent.
        split; [eexists; reflexivity | split; reflexivity].
    + right. unfold handle_error. step_agent.
      split; [eexists; reflexivity | split; reflexivity].
  - unfold ExceptionHandler.process, ExceptionHandler.process_body.
    step_agent.
    destruct (ExceptionHandler._get_relevant_policies w q); step_agent.
    + destruct (generate_exception_handling w _ _ _); step_agent.
      * left. split; [reflexivity|]. split; [eexists; reflexivity|].
        apply exception_confidence_floor.
      * right. unfold handle_error. step_agent.
        split; [eexists; reflexivity | split; reflexivity].
    + right. unfold handle_error. step_agent.
      split; [eexists; reflexivity | split; reflexivity].
Qed.


Lemma filter_scores_strictly_above (t : Q) (results : list Doc) :
  Forall (fun d => t < score d)%Q
    (List.filter (fun r => Py.Qltb t (score r)) results).
Proof.
  apply List.Forall_forall. intros d Hd.
  apply List.filter_In in Hd as [_ Hd]. now apply Qltb_true in Hd.
Qed.

(** X3. Every source a successful run reports was retrieved with a
    relevance above the agent's threshold: 0.3 for the sources of the policy
    interpreter, 0.2 for the policy sources of the workflow planner and of
    the exception handler. *)
Theorem reported_sources_above_threshold :
  forall (w : World) (q : string) (ctx : Py.Dict),
    (forall r, result (PolicyInterpreter.process w (new_state q ctx)) = Some r ->
       Forall (fun s => 3 # 10 < PolicyInterpreter.src_relevance_score s)%Q
         (PolicyInterpreter.sources r)) /\
    (forall r, result (WorkflowPlanner.process w (new_state q ctx)) = Some r ->
       Forall (fun s => 2 # 10 < WorkflowPlanner.ps_relevance_score s)%Q
         (WorkflowPlanner.policy_sources r)) /\
    (forall r, result (ExceptionHandler.process w (new_state q ctx)) = Some r ->
       Forall (fun s => 2 # 10 < ExceptionHandler.ps_relevance_score s)%Q
         (ExceptionHandler.policy_sources r)).
Proof.
  intros w q ctx. unfold new_state. repeat apply conj; intros r.
  - unfold PolicyInterpreter.process, PolicyInterpreter.process_body,
      PolicyInterpreter._handle_no_policies.
    step_agent.
    destruct (PolicyInterpreter._retrieve_policies w q) as [docs|e] eqn:E;
      [|unfold handle_error; step_agent; discriminate].
    apply bind_filter_in_range in E as [results E].
    destruct docs as [|d ds]; step_agent.
    + intros [= <-]. constructor.
    + destruct (generate_policy_interpretation w _ _ _); step_agent;
        [|unfold handle_error; step_agent; discriminate].
      intros [= <-]. cbn [PolicyInterpreter.sources PolicyInterpreter._structure_response].
      apply Forall_map. cbn [PolicyInterpreter.src_relevance_score].
      rewrite E. apply filter_scores_strictly_above.
  - unfold WorkflowPlanner.process, WorkflowPlanner.process_body.
    step_agent.
    destruct (WorkflowPlanner._get_relevant_policies w q) as [docs|e] eqn:E;
      step_agent; [|unfold handle_error; step_agent; discriminate].
    apply bind_filter_in_range in E as [results E].
    destruct (generate_workflow_plan w _ _ _); step_agent;
      [|unfold handle_error; step_agent; discriminate].
    intros [= <-].
    cbn [WorkflowPlanner.policy_sources WorkflowPlanner._enhance_workflow].
    apply Forall_map. cbn [WorkflowPlanner.ps_relevance_score].
    rewrite E. apply filter_scores_strictly_above.
  - unfold ExceptionHandler.process, ExceptionHandler.process_body.
    step_agent.
    destruct (ExceptionHandler._get_relevant_policies w q) as [docs|e] eqn:E;
      step_agent; [|unfold handle_error; step_agent; discriminate].
    apply bind_filter_in_range in E as [results E].
    destruct (generate_exception_handling w _ _ _); step_agent;
      [|unfold handle_error; step_agent; discriminate].
    intros [= <-].
    cbn [ExceptionHandler.policy_sources ExceptionHandler._enhance_exception_plan].
    apply Forall_map. cbn [ExceptionHandler.ps_relevance_score].
    rewrite E. apply filter_scores_strictly_above.
Qed.

Local Transparent Py.format_2f Py.str_of_nat Py.slice_to String.append Py.join.

End AgentTraces.

(** ** Lengths of slices, joins and splits *)

Lemma length_append (a b : string) :
  String.length (a ++ b) = (String.length a + String.length b)%nat.
Proof.
  induction a as [|c a IH]; [reflexivity|].
  rewrite append_cons. cbn [String.length]. now rewrite IH.
Qed.

Lemma slice_to_length_le (n : nat) (s : string) :
  (String.length (Py.slice_to n s) <= n)%nat.
Proof.
  revert s. induction n as [|n IH]; intros [|c s]; cbn; try lia.
  specialize (IH s). lia.
Qed.

Lemma slice_from_append (a b : string) :
  Py.slice_from (String.length a) (a ++ b) = b.
Proof.
  induction a as [|c a IH]; [now destruct b|].
  rewrite append_cons. cbn. exact IH.
Qed.

Lemma endswith_append (a p : string) : Py.endswith p (a ++ p) = true.
Proof.
  unfold Py.endswith. rewrite length_append.
  replace (String.length a + String.length p - String.length p)%nat
    with (String.length a) by lia.
  rewrite slice_from_append, String.eqb_refl, andb_true_r.
  apply Nat.leb_le. lia.
Qed.

Lemma join_cons_length (sep w : string) (ws : list string) :
  (String.length (Py.join sep (w :: ws))
   <= String.length w + String.length sep + String.length (Py.join sep ws))%nat.
Proof.
  destruct ws as [|w' ws]; cbn [Py.join]; [lia|].
  rewrite !length_append. lia.
Qed.

Lemma split_from_join_length (s : string) :
  forall cur,
    (String.length (Py.join " " (Py.split_from cur s))
     <= String.length cur + String.length s)%nat.
Proof.
  induction s as [|c s IH]; intros cur; cbn [Py.split_from].
  - destruct (String.eqb cur ""); cbn; lia.
  - cbn [String.length]. destruct (Py.is_space c).
    + destruct (String.eqb cur "").
      * specialize (IH ""). cbn in IH. lia.
      * pose proof (join_cons_length " " cur (Py.split_from "" s)) as H.
        specialize (IH ""). cbn in IH, H. cbn. lia.
    + specialize (IH (cur ++ String c "")). rewrite length_append in IH.
      cbn in IH. lia.
Qed.

(** [" ".join(s.split())] is never longer than [s]. *)
Lemma normalize_length (s : string) :
  (String.length (Py.join " " (Py.split s)) <= String.length s)%nat.
Proof. apply (split_from_join_length s ""). Qed.

Section PolicyShape.
Import Base VectorService LLMService.

Lemma recommendations_shape (interpretation : PolicyInterpretation.t) :
  exists l,
    PolicyInterpreter._generate_recommendations interpretation =
    (l ++ ["Consult supervisor if uncertain about any aspect"])%list
    /\ (List.length l <= 3)%nat.
Proof.
  unfold PolicyInterpreter._generate_recommendations.
  eexists. split; [reflexivity|].
  destruct (Py.truthy_list (PolicyInterpretation.requirements interpretation)),
    (Py.truthy_list (PolicyInterpretation.procedures interpretation)),
    (Py.truthy_list (PolicyInterpretation.compliance_notes interpretation));
    cbn; lia.
Qed.

Lemma next_steps_shape (interpretation : PolicyInterpretation.t) :
  exists l,
    PolicyInterpreter._generate_next_steps interpretation =
    (l ++ ["Document all actions for audit trail";
           "Escalate to supervisor if exceptions apply";
           "Ensure compliance documentation is complete"])%list
    /\ (List.length l <= 1)%nat.
Proof.
  unfold PolicyInterpreter._generate_next_steps.
  eexists. split; [reflexivity|].
  destruct (Py.truthy_list (PolicyInterpretation.procedures interpretation));
    cbn; lia.
Qed.

(** X4. Whatever the model answers, the response built by
    [_structure_response] ends its recommendations with the advice to
    consult the supervisor (one to four entries), ends its next steps with
    the three fixed audit, escalation and compliance steps (three or four
    entries), lists one source per policy document, and gives each source an
    excerpt of at most 203 characters that ends with "...". *)
Theorem structured_response_shape :
  forall (interpretation : PolicyInterpretation.t) (policy_docs : list Doc),
    let r := PolicyInterpreter._structure_response interpretation policy_docs in
    (exists l,
        PolicyInterpreter.recommendations r =
        (l ++ ["Consult supervisor if uncertain about any aspect"])%list
        /\ (List.length l <= 3)%nat) /\
    (exists l,
        PolicyInterpreter.next_steps r =
        (l ++ ["Document all actions for audit trail";
               "Escalate to supervisor if exceptions apply";
               "Ensure compliance documentation is complete"])%list
        /\ (List.length l <= 1)%nat) /\
    map PolicyInterpreter.src_source (PolicyInterpreter.sources r)
    = map source policy_docs /\
    Forall (fun s =>
              (String.length (PolicyInterpreter.src_excerpt s) <= 203)%nat
              /\ Py.endswith "..." (PolicyInterpreter.src_excerpt s) = true)
      (PolicyInterpreter.sources r).
Proof.
  intros interpretation policy_docs r. subst r.
  cbn [PolicyInterpreter._structure_response PolicyInterpreter.recommendations
       PolicyInterpreter.next_steps PolicyInterpreter.sources].
  split; [apply recommendations_shape|].
  split; [apply next_steps_shape|].
  split.
  - rewrite map_map. reflexivity.
  - apply Forall_map, List.Forall_forall. intros d _.
    cbn [PolicyInterpreter.src_excerpt]. split; [|apply endswith_append].
    rewrite length_append.
    pose proof (normalize_length (Py.slice_to 200 (content d))).
    pose proof (slice_to_length_le 200 (content d)).
    change (String.length "...") with 3%nat. lia.
Qed.

End PolicyShape.

(** ** LLM service: routing range and fallback records *)

Section FallbackRecords.
Import Base VectorService LLMService.

(** X5. Whatever the model answers or raises, [route_query] returns one of
    the three agent names. *)
Theorem route_query_returns_agent_name :
  forall (w : World) (query : string) (context : Py.Dict),
    In (route_query w query context)
       ["PolicyInterpreter"; "WorkflowPlanner"; "ExceptionHandler"].
Proof.
  intros w query context.
  assert (Hf : In (_fallback_routing query)
                 ["PolicyInterpreter"; "WorkflowPlanner"; "ExceptionHandler"]).
  { unfold _fallback_routing.
    destruct (any_word_in _ _); [cbn; tauto|].
    destruct (any_word_in _ _); [cbn; tauto|].
    destruct (any_word_in _ _); cbn; tauto. }
  unfold route_query.
  destruct (ainvoke w (RoutingPrompt query context)) as [content|e]; [|exact Hf].
  cbv zeta.
  destruct (existsb (String.eqb (Py.strip content)) valid_agents) eqn:E; [|exact Hf].
  apply existsb_exists in E as (x & Hx & Hxe).
  apply String.eqb_eq in Hxe. rewrite Hxe. exact Hx.
Qed.

Lemma truncated_length (n : nat) (content : string) :
  (String.length
     (if (n <? String.length content)%nat
      then Py.slice_to n content ++ "..." else content)
   <= n + 3)%nat.
Proof.
  destruct (Nat.ltb_spec n (String.length content)).
  - rewrite length_append. pose proof (slice_to_length_le n content).
    change (String.length "...") with 3%nat. lia.
  - lia.
Qed.

(** X6. When the model's answer does not decode as JSON, the three
    generation operations still return a record, and the text they take
    over from the raw answer is bounded: the direct answer has at most 203
    characters, the description of the single workflow step and the single
    immediate action at most 103. *)
Theorem fallback_text_is_bounded :
  forall (w : World) (query : string) (policy_docs : list Doc)
         (context : Py.Dict) (content : string),
    let policy_content := Py.join blank_line (map VectorService.content policy_docs) in
    (ainvoke w (PolicyPrompt query policy_content context) = Ok content ->
     loads_policy w content = None ->
     exists r a,
       generate_policy_interpretation w query policy_content context = Ok r
       /\ PolicyInterpretation.direct_answer r = Some a
       /\ (String.length a <= 203)%nat) /\
    (ainvoke w (WorkflowPrompt query policy_content context) = Ok content ->
     loads_workflow w content = None ->
     exists r d,
       generate_workflow_plan w query policy_docs context = Ok r
       /\ WorkflowPlan.steps r
          = Some [WorkflowStep.mk (Some 1%Z) (Some d) (Some "10-15 minutes")
                    (Some "Healthcare Staff") (Some [])]
       /\ (String.length d <= 103)%nat) /\
    (ainvoke w (ExceptionPrompt query policy_content context) = Ok content ->
     loads_exception w content = None ->
     exists r a,
       generate_exception_handling w query policy_docs context = Ok r
       /\ ExceptionPlan.immediate_actions r = Some [a]
       /\ ExceptionPlan.severity r = Some "medium"
       /\ (String.length a <= 103)%nat).
Proof.
  intros w query docs context content pc. repeat apply conj; intros Hcall Hloads.
  - unfold generate_policy_interpretation. rewrite Hcall, Hloads.
    do 2 eexists. split; [reflexivity|]. split; [reflexivity|].
    apply (truncated_length 200).
  - unfold generate_workflow_plan. fold pc. rewrite Hcall, Hloads.
    do 2 eexists. split; [reflexivity|]. split; [reflexivity|].
    apply (truncated_length 100).
  - unfold generate_exception_handling. fold pc. rewrite Hcall, Hloads.
    do 2 eexists. split; [reflexivity|]. split; [reflexivity|].
    split; [reflexivity|]. apply (truncated_length 100).
Qed.

End FallbackRecords.

Section UndecodableAnswers.
Import Base VectorService LLMService.

Lemma py_min_le_r (a b : Q) : (Py.min a b <= b)%Q.
Proof.
  unfold Py.min. destruct (Py.Qltb b a) eqn:E.
  - apply Qle_refl.
  - now apply Qltb_false in E.
Qed.

Local Opaque Py.format_2f Py.str_of_nat Py.slice_to String.append Py.join.

Ltac step_agent' :=
  unfold try_process, mbind, get, lift, log_reasoning, set_confidence, set_result;
  cbn [query context confidence reasoning result error fst snd].

(** X7. When the policies are retrieved and the model's answer does not
    decode, the exception handler still finishes without error: its plan is
    the fallback plan, so the risk assessment is the medium row, the
    timeline summary holds the single fixed action under immediate, and the
    confidence lies between 0.75 and 0.9. *)
Theorem exception_handler_on_undecodable_answer :
  forall (w : World) (q : string) (ctx : Py.Dict) (policy_docs : list Doc)
         (content : string),
    ExceptionHandler._get_relevant_policies w q = Ok policy_docs ->
    ainvoke w (ExceptionPrompt q
                 (Py.join blank_line (map VectorService.content policy_docs)) ctx)
    = Ok content ->
    loads_exception w content = None ->
    let out := ExceptionHandler.process w (new_state q ctx) in
    error out = None /\
    (75 # 100 <= confidence out)%Q /\ (confidence out <= 90 # 100)%Q /\
    exists r,
      result out = Some r /\
      ExceptionHandler.plan r = _parse_exception_fallback content /\
      ExceptionHandler.risk_assessment r = ExceptionHandler.mkRisk 5 true false /\
      ExceptionHandler.timeline_summary r
      = Spec.three_buckets ["Review the situation and consult supervisor"] [] [].
Proof.
  intros w q ctx docs content Hdocs Hcall Hloads out. subst out.
  unfold ExceptionHandler.process, ExceptionHandler.process_body, new_state.
  step_agent'. rewrite Hdocs. step_agent'.
  unfold generate_exception_handling. rewrite Hcall, Hloads. step_agent'.
  split; [reflexivity|].
  assert (Hc : ExceptionHandler._calculate_confidence docs
                 (_parse_exception_fallback content)
               = Py.min (95 # 100)
                   ((75 # 100) + Py.min (15 # 100) (Py.len docs * (5 # 100)) + 0 + 0)%Q)
    by reflexivity.
  rewrite Hc. split; [|split].
  - apply py_min_glb; [discriminate|].
    apply (Qle_trans _ ((75 # 100) + 0 + 0 + 0)); [discriminate|].
    repeat apply Qplus_le_compat; try apply Qle_refl.
    apply policy_boost_nonneg. discriminate.
  - eapply Qle_trans; [apply py_min_le_r|].
    apply (Qle_trans _ ((75 # 100) + (15 # 100) + 0 + 0)); [|discriminate].
    repeat apply Qplus_le_compat; try apply Qle_refl. apply py_min_le_l.
  - eexists. split; [reflexivity|]. split; [reflexivity|].
    split; reflexivity.
Qed.

(** X8. When the policies are retrieved and the model's answer does not
    decode, the workflow planner still finishes without error: its plan is
    the one-step fallback plan, which gets an empty list of dependencies and
    no checkpoint, and the confidence is at least 0.8. *)
Theorem workflow_planner_on_undecodable_answer :
  forall (w : World) (q : string) (ctx : Py.Dict) (policy_docs : list Doc)
         (content : string),
    WorkflowPlanner._get_relevant_policies w q = Ok policy_docs ->
    ainvoke w (WorkflowPrompt q
                 (Py.join blank_line (map VectorService.content policy_docs)) ctx)
    = Ok content ->
    loads_workflow w content = None ->
    let out := WorkflowPlanner.process w (new_state q ctx) in
    error out = None /\
    (8 # 10 <= confidence out)%Q /\
    exists r,
      result out = Some r /\
      WorkflowPlanner.plan r = _parse_workflow_fallback content /\
      WorkflowPlanner.dependencies r = Some [] /\
      WorkflowPlanner.checkpoints r = [].
Proof.
  intros w q ctx docs content Hdocs Hcall Hloads out. subst out.
  unfold WorkflowPlanner.process, WorkflowPlanner.process_body, new_state.
  step_agent'. rewrite Hdocs. step_agent'.
  unfold generate_workflow_plan. rewrite Hcall, Hloads. step_agent'.
  split; [reflexivity|]. split; [apply workflow_confidence_floor|].
  eexists. split; [reflexivity|]. split; [reflexivity|]. split; reflexivity.
Qed.

Local Transparent Py.format_2f Py.str_of_nat Py.slice_to String.append Py.join.

End UndecodableAnswers.

(** ** Instances *)

Lemma reported_sources_above_threshold_witness :
  exists r,
    Base.result (PolicyInterpreter.process Sample.prose_world
                   (Base.new_state "visiting hours" [])) = Some r /\
    Forall (fun s => 3 # 10 < PolicyInterpreter.src_relevance_score s)%Q
      (PolicyInterpreter.sources r) /\
    PolicyInterpreter.sources r <> [].
Proof.
  eexists. split; [vm_compute; reflexivity|]. split.
  - apply (proj1 (reported_sources_above_threshold Sample.prose_world
                    "visiting hours" [])).
    vm_compute. reflexivity.
  - discriminate.
Defined.

Lemma fallback_text_is_bounded_witness :
  exists r a,
    LLMService.generate_policy_interpretation Sample.prose_world "visiting hours"
      (Py.join LLMService.blank_line []) [] = Ok r
    /\ PolicyInterpretation.direct_answer r = Some a
    /\ (String.length a <= 203)%nat.
Proof.
  apply (proj1 (fallback_text_is_bounded Sample.prose_world "visiting hours" [] []
                  "Sorry, I can only answer in prose.")); reflexivity.
Defined.

Lemma exception_handler_on_undecodable_answer_witness :
  Base.error (ExceptionHandler.process Sample.prose_world
                (Base.new_state "the scanner is down" [])) = None.
Proof.
  refine (proj1 (exception_handler_on_undecodable_answer Sample.prose_world
                   "the scanner is down" []
                   [VectorService.format_hit Sample.visiting_hit]
                   "Sorry, I can only answer in prose." _ _ _));
    vm_compute; reflexivity.
Defined.

Lemma workflow_planner_on_undecodable_answer_witness :
  Base.error (WorkflowPlanner.process Sample.prose_world
                (Base.new_state "register a visitor" [])) = None.
Proof.
  refine (proj1 (workflow_planner_on_undecodable_answer Sample.prose_world
                   "register a visitor" []
                   [VectorService.format_hit Sample.visiting_hit]
                   "Sorry, I can only answer in prose." _ _ _));
    vm_compute; reflexivity.
Defined.

(** ** Orchestrator *)

Section OrchestratorFacts.
Import Orchestrator.

Lemma getattr_reasoning_log (out : agent_output) :
  getattr out "reasoning_log"
  = Raise (Builtin "AttributeError"
             "'AgentState' object has no attribute 'reasoning_log'").
Proof. destruct out; reflexivity. Qed.

Lemma getattr_confidence_ok (out : agent_output) :
  exists v, getattr out "confidence" = Ok v.
Proof. destruct out; eexists; reflexivity. Qed.

(** X9. The orchestrator reads [reasoning_log] from the state an agent
    returns, and [AgentState] has no such field (its trace is [reasoning]).
    So whatever the query, the context, the model and the collection,
    [process_complex_query] answers with its failure payload: agent_used is
    "None" and the error is the AttributeError message; the two direct entry
    points raise that AttributeError. *)
Theorem orchestrator_never_reports_success :
  forall (w : LLMService.World) (query : string) (context : option Py.Dict)
         (multi_step : bool) (start_time end_time : Q),
    process_complex_query w query context multi_step start_time end_time
    = [("query", VStr query);
       ("agent_used", VStr "None");
       ("error", VStr "'AgentState' object has no attribute 'reasoning_log'");
       ("processing_time_ms", VInt (elapsed_ms start_time end_time))]
    /\ process_workflow_request w query context
       = Raise (Builtin "AttributeError"
                  "'AgentState' object has no attribute 'reasoning_log'")
    /\ process_exception_request w query context
       = Raise (Builtin "AttributeError"
                  "'AgentState' object has no attribute 'reasoning_log'").
Proof.
  intros w query context multi_step start_time end_time.
  unfold process_complex_query, process_workflow_request, process_exception_request.
  cbv zeta. cbn [build].
  split; [|split].
  - destruct (getattr_confidence_ok
                (dispatch w (LLMService.route_query w query (Py.get_or context []))
                   query (Py.get_or context []))) as [v ->].
    rewrite getattr_reasoning_log. reflexivity.
  - reflexivity.
  - reflexivity.
Qed.

End OrchestratorFacts.

(** ** Rate limiter: what a check changes *)

Section RateLimiterFacts.
Import AuthService.


Lemma is_allowed_state (self : RateLimiter) (now : datetime) (key : string)
    (limit window : Z) :
  requests (snd (is_allowed self now key limit window)) !! key
  = Some (if fst (is_allowed self now key limit window)
          then (List.filter (fun req_time => (timedelta_seconds now req_time <? window)%Z)
                  (Py.get_or (requests self !! key) []) ++ [now])%list
          else List.filter (fun req_time => (timedelta_seconds now req_time <? window)%Z)
                 (Py.get_or (requests self !! key) [])).
Proof.
  unfold is_allowed. destruct (requests self !! key) as [l|] eqn:E.
  - rewrite E. cbn [Py.get_or].
    destruct (_ <? limit)%Z; cbn [fst snd requests];
      now rewrite ?lookup_insert_eq.
  - rewrite lookup_insert_eq. cbn [Py.get_or List.filter List.length].
    destruct (_ <? limit)%Z; cbn [fst snd requests];
      now rewrite ?lookup_insert_eq.
Qed.

Lemma is_allowed_other_keys (self : RateLimiter) (now : datetime) (key k : string)
    (limit window : Z) :
  k <> key ->
  requests (snd (is_allowed self now key limit window)) !! k = requests self !! k.
Proof.
  intros Hk. unfold is_allowed. destruct (requests self !! key) as [l|] eqn:E.
  - destruct (_ <? limit)%Z; cbn [fst snd requests];
      now rewrite ?lookup_insert_ne by congruence.
  - destruct (_ <? limit)%Z; cbn [fst snd requests];
      now rewrite ?lookup_insert_ne by congruence.
Qed.

(** X10. A check for [key] changes the limiter at [key] only: it stores
    there the entries that pass the age filter, followed by the present
    time exactly when the request is allowed, so a denied request is not
    recorded. After an allowed request the key holds at most [limit]
    entries; a request is denied only when [limit] or more entries were
    kept. *)
Theorem is_allowed_records_only_allowed_requests :
  forall (self : RateLimiter) (now : datetime) (key : string) (limit window : Z),
    let kept :=
      List.filter (fun req_time => (timedelta_seconds now req_time <? window)%Z)
        (Py.get_or (requests self !! key) []) in
    let ok := fst (is_allowed self now key limit window) in
    let self' := snd (is_allowed self now key limit window) in
    requests self' = <[key := if ok then (kept ++ [now])%list else kept]> (requests self)
    /\ (if ok
        then (Z.of_nat (List.length (kept ++ [now])%list) <= limit)%Z
        else (limit <= Z.of_nat (List.length kept))%Z).
Proof.
  intros self now key limit window kept ok self'.
  assert (Hok : ok = (Z.of_nat (List.length kept) <? limit)%Z)
    by apply is_allowed_answer.
  split.
  - apply map_eq. intros k. destruct (decide (k = key)) as [->|Hk].
    + rewrite lookup_insert_eq. apply is_allowed_state.
    + rewrite lookup_insert_ne by congruence. now apply is_allowed_other_keys.
  - destruct ok; symmetry in Hok.
    + apply Z.ltb_lt in Hok. rewrite length_app. cbn [List.length]. lia.
    + apply Z.ltb_ge in Hok. exact Hok.
Qed.

Lemma filter_all {A} (f : A -> bool) (l : list A) :
  (forall x, In x l -> f x = true) -> List.filter f l = l.
Proof.
  induction l as [|a l IH]; intros H; cbn [List.filter]; [reflexivity|].
  rewrite (H a) by now left. f_equal. apply IH. intros x Hx. apply H. now right.
Qed.

Lemma recent_entry_kept (now req_time t0 window : Z) :
  (0 < window <= 86400)%Z ->
  (t0 <= req_time)%Z -> (req_time <= now)%Z -> (now < t0 + window * 1000000)%Z ->
  (timedelta_seconds now req_time <? window)%Z = true.
Proof.
  intros Hw H0 H1 H2. unfold timedelta_seconds. apply Z.ltb_lt.
  assert (Hq : (0 <= (now - req_time) / 1000000 < window)%Z).
  { split.
    - apply Z.div_pos; lia.
    - apply Z.div_lt_upper_bound; lia. }
  rewrite Z.mod_small by lia. lia.
Qed.

Lemma ascending_from_weaken (lo lo' : Z) (times : list Z) :
  (lo' <= lo)%Z -> Burst.ascending_from lo times = true ->
  Burst.ascending_from lo' times = true.
Proof.
  destruct times as [|t ts]; cbn [Burst.ascending_from]; [easy|].
  intros Hle H. apply andb_true_iff in H as [H1 H2]. apply andb_true_iff. split.
  - apply Z.leb_le. apply Z.leb_le in H1. lia.
  - exact H2.
Qed.

Lemma run_burst (key : string) (limit window t0 : Z) :
  (0 < window <= 86400)%Z ->
  forall (times : list Z) (self : RateLimiter) (lo : Z),
    (forall r, In r (Py.get_or (requests self !! key) []) -> (t0 <= r <= lo)%Z) ->
    (t0 <= lo)%Z ->
    Burst.ascending_from lo times = true ->
    forallb (fun t => (t <? t0 + window * 1000000)%Z) times = true ->
    fst (run self key limit window times)
    = map (fun i =>
             (Z.of_nat (List.length (Py.get_or (requests self !! key) []) + i) <? limit)%Z)
        (seq 0 (List.length times)).
Proof.
  intros Hw. induction times as [|now times IH]; intros self lo Hstored Hlo Hasc Hbound.
  - reflexivity.
  - cbn [Burst.ascending_from] in Hasc. apply andb_true_iff in Hasc as [Hnow Hasc].
    apply Z.leb_le in Hnow.
    cbn [forallb] in Hbound. apply andb_true_iff in Hbound as [Hnb Hbound].
    apply Z.ltb_lt in Hnb.
    cbn [run].
    pose proof (is_allowed_answer self now key limit window) as Hans.
    pose proof (is_allowed_state self now key limit window) as Hst.
    rewrite filter_all in Hans, Hst
      by (intros r Hr; apply (recent_entry_kept now r t0 window Hw);
          [apply Hstored in Hr; lia | apply Hstored in Hr; lia | lia]).
    destruct (is_allowed self now key limit window) as [ok self'] eqn:E.
    cbn [fst snd] in Hans, Hst.
    specialize (IH self' now).
    destruct (run self' key limit window times) as [oks self''] eqn:E'.
    cbn [fst] in IH |- *. cbn [List.length seq map].
    rewrite Nat.add_0_r. f_equal; [exact Hans|].
    rewrite IH; [| | lia | exact Hasc | exact Hbound].
    + rewrite <- seq_shift, map_map.
      apply map_ext. intros i.
      destruct (requests self' !! key) as [stored|]; [|discriminate].
      injection Hst as ->. cbn [Py.get_or].
      destruct ok.
      * rewrite length_app. cbn [List.length]. f_equal. lia.
      * symmetry in Hans. apply Z.ltb_ge in Hans.
        transitivity false; [apply Z.ltb_ge; lia | symmetry; apply Z.ltb_ge; lia].
    + destruct (requests self' !! key) as [stored|]; [|discriminate].
      injection Hst as ->. cbn [Py.get_or]. intros r Hr. destruct ok.
      * apply in_app_or in Hr as [Hr|[<-|[]]]; [apply Hstored in Hr; lia | lia].
      * apply Hstored in Hr. lia.
Qed.

(** X11. Requests for one key that arrive in order within one window of at
    most a day, at a limiter that has no record of the key: the first
    [limit] of them are allowed and every later one is denied. *)
Theorem rate_limiter_allows_first_limit_requests :
  forall (key : string) (limit window t0 : Z) (times : list datetime),
    (0 < window <= 86400)%Z ->
    Burst.within_window t0 window times = true ->
    fst (run new key limit window times) = Burst.first_pass limit (List.length times).
Proof.
  intros key limit window t0 times Hw Hin.
  unfold Burst.within_window in Hin. apply andb_true_iff in Hin as [Hasc Hbound].
  rewrite (run_burst key limit window t0 Hw times new t0); try assumption.
  - reflexivity.
  - unfold new. cbn [requests]. rewrite lookup_empty. cbn [Py.get_or]. intros r [].
  - lia.
Qed.

End RateLimiterFacts.

Lemma rate_limiter_allows_first_limit_requests_witness :
  (0 < 60 <= 86400)%Z
  /\ Burst.within_window 0 60 [0; 1000000; 2500000; 59999999]%Z = true
  /\ fst (AuthService.run AuthService.new "clerk" 2 60 [0; 1000000; 2500000; 59999999]%Z)
     = [true; true; false; false].
Proof.
  split; [lia|]. split; [reflexivity|].
  apply (rate_limiter_allows_first_limit_requests "clerk" 2 60 0
           [0; 1000000; 2500000; 59999999]%Z); [lia | reflexivity].
Defined.

(** ** Roles and permissions *)

Section AuthorizationFacts.
Import Authorization.

Lemma mem_In (x : string) (l : list string) : mem x l = true <-> In x l.
Proof.
  unfold mem. rewrite existsb_exists. split.
  - intros [y [Hy He]]. apply String.eqb_eq in He. now subst.
  - intros H. exists x. split; [exact H | apply String.eqb_refl].
Qed.

(** X12. For the user that [get_current_user] builds from a token, a
    permission is granted exactly when the role is admin or supervisor, or
    the role's own list holds the permission: the two roles that hold
    "write:all" pass every permission check, also for permissions that
    their lists lack; a token with an unknown role or without one passes
    none. *)
Theorem permission_granted_iff :
  forall (payload : Payload) (user : User) (permission : string),
    get_current_user payload = Pass user ->
    (require_permission permission user = Pass user
     <-> (payload_role payload = Some "admin"
          \/ payload_role payload = Some "supervisor"
          \/ In permission (get_user_permissions (payload_role payload))))
    /\ (lookup_role (Py.get_or (payload_role payload) "") role_permissions = None ->
        require_permission permission user
        = HTTPException 403 ("Permission required: " ++ permission)).
Proof.
  intros payload user permission Huser.
  unfold get_current_user in Huser.
  destruct (Py.truthy_str (sub payload)); [|discriminate].
  injection Huser as <-.
  unfold require_permission, check_permission. cbn [permissions Py.get_or].
  destruct (payload_role payload) as [r|]; cbn [get_user_permissions Py.get_or].
  - unfold role_permissions. cbn [lookup_role].
    destruct (String.eqb_spec "admin" r) as [<-|Ha].
    { cbn. split; [split; [auto | reflexivity] | discriminate]. }
    destruct (String.eqb_spec "healthcare_staff" r) as [<-|Hh].
    { cbn [Py.get_or]. split; [|discriminate].
      change (mem "write:all" _) with false. cbv iota.
      destruct (mem permission _) eqn:M; cbn [negb].
      - split; [intros _; right; right; now apply mem_In | reflexivity].
      - split; [discriminate|]. intros [H|[H|H]]; try discriminate.
        apply mem_In in H. congruence. }
    destruct (String.eqb_spec "supervisor" r) as [<-|Hs].
    { cbn. split; [split; [auto | reflexivity] | discriminate]. }
    destruct (String.eqb_spec "viewer" r) as [<-|Hv].
    { cbn [Py.get_or]. split; [|discriminate].
      change (mem "write:all" _) with false. cbv iota.
      destruct (mem permission _) eqn:M; cbn [negb].
      - split; [intros _; right; right; now apply mem_In | reflexivity].
      - split; [discriminate|]. intros [H|[H|H]]; try discriminate.
        apply mem_In in H. congruence. }
    cbn. split; [|reflexivity].
    split; [discriminate|]. intros [H|[H|[]]]; congruence.
  - cbn. split; [|reflexivity].
    split; [discriminate|]. intros [H|[H|[]]]; discriminate.
Qed.

End AuthorizationFacts.

Lemma permission_granted_iff_witness :
  Authorization.get_current_user Staff.supervisor_payload
  = Authorization.Pass Staff.supervisor_user
  /\ Authorization.require_permission "manage:system" Staff.supervisor_user
     = Authorization.Pass Staff.supervisor_user
  /\ ~ In "manage:system" (Authorization.get_user_permissions (Some "supervisor")).
Proof.
  split; [reflexivity|]. split.
  - apply (proj2 (proj1 (permission_granted_iff Staff.supervisor_payload
                           Staff.supervisor_user "manage:system" eq_refl))).
    right. left. reflexivity.
  - cbn. intuition discriminate.
Defined.

(** ** Guardrails: validation *)

Section GuardrailsFacts.
Import GuardrailsService GuardrailsChecks.

Lemma sanitize_output_unchanged (text : string) :
  _detect_pii text = [] -> _detect_prohibited_content text = [] ->
  sanitize_output text = text.
Proof.
  intros Hpii Hpro. unfold sanitize_output.
  apply detect_pii_nil in Hpii. apply detect_prohibited_nil in Hpro.
  assert (H1 : fold_left
                 (fun sanitized '(pii_type, pattern) =>
                    Re.sub (compiled pattern)
                      ("[REDACTED_" ++ Py.upper pii_type ++ "]") sanitized)
                 PII_PATTERNS text = text).
  { revert Hpii. generalize PII_PATTERNS. intros l.
    induction l as [|[ty p] l IH]; intros Hall; cbn [fold_left]; [reflexivity|].
    inversion Hall as [|? ? Hp Hl]; subst.
    rewrite sub_no_match by exact Hp. exact (IH Hl). }
  rewrite H1. revert Hpro. generalize PROHIBITED_PATTERNS. intros l.
  induction l as [|p l IH]; intros Hall; cbn [fold_left]; [reflexivity|].
  inversion Hall as [|? ? Hp Hl]; subst.
  rewrite sub_no_match by exact Hp. exact (IH Hl).
Qed.

Lemma length_zero_nil {A} (l : list A) : (List.length l =? 0)%nat = true -> l = [].
Proof. destruct l; [reflexivity | discriminate]. Qed.

Lemma app_nil_both {A} (l1 l2 : list A) : (l1 ++ l2)%list = [] -> l1 = [] /\ l2 = [].
Proof. destruct l1; [cbn; auto | discriminate]. Qed.

(** The four checks of [validate_input], one by one. *)
Lemma validate_input_accepts (text : string) :
  fst (validate_input text) = true ->
  _detect_pii text = [] /\ _detect_prohibited_content text = []
  /\ (Z.of_nat (String.length text) <= 10000)%Z /\ Py.strip text <> "".
Proof.
  unfold validate_input. cbv zeta. cbn [fst]. intros H.
  apply length_zero_nil in H.
  destruct (String.eqb_spec (Py.strip text) "") as [E|E].
  { apply app_nil_both in H as [_ H]. discriminate. }
  destruct (10000 <? Z.of_nat (String.length text))%Z eqn:L.
  { apply app_nil_both in H as [_ H]. discriminate. }
  apply Z.ltb_ge in L.
  destruct (_detect_prohibited_content text) as [|p ps] eqn:P; cbn [nonempty] in H.
  - destruct (_detect_pii text) as [|x xs] eqn:X; cbn [nonempty] in H.
    + auto.
    + cbn in H. discriminate.
  - apply app_nil_both in H as [_ H]. discriminate.
Qed.

(** X13. An input that [validate_input] accepts comes back without
    violations, is returned unchanged by [sanitize_output], is not rated a
    high risk by [check_content_safety], has at most 10000 characters and
    is not blank. *)
Theorem accepted_input_is_left_alone :
  forall text : string,
    fst (validate_input text) = true ->
    snd (validate_input text) = []
    /\ sanitize_output text = text
    /\ safety_pii_detected (check_content_safety text) = false
    /\ prohibited_content (check_content_safety text) = false
    /\ In (risk_level (check_content_safety text)) ["medium"; "low"]
    /\ (Z.of_nat (String.length text) <= 10000)%Z
    /\ Py.strip text <> "".
Proof.
  intros text H.
  pose proof (validate_input_accepts text H) as (Hpii & Hpro & Hlen & Hblank).
  repeat apply conj; try assumption.
  - unfold validate_input in H |- *. cbv zeta in H |- *. cbn [fst snd] in H |- *.
    now apply length_zero_nil.
  - now apply sanitize_output_unchanged.
  - unfold check_content_safety. cbn [safety_pii_detected]. now rewrite Hpii.
  - unfold check_content_safety. cbn [prohibited_content]. now rewrite Hpro.
  - unfold check_content_safety, _calculate_risk_level. cbn [risk_level].
    rewrite Hpii, Hpro. cbn [nonempty orb].
    destruct (3 <? _)%nat; cbn; auto.
Qed.

Lemma risk_is_low_medium_or_high (text : string) (source_docs : list string) :
  In (_assess_hallucination_risk text source_docs) ["low"; "medium"; "high"].
Proof.
  unfold _assess_hallucination_risk. destruct source_docs; [cbn; auto|].
  cbv zeta. destruct (_ || _); [cbn; auto|]. destruct (_ || _); cbn; auto.
Qed.

(** X14. The hallucination risk is one of low, medium and high: the value
    "critical" that [validate_output] also tests for is never produced.
    Without source documents the risk is high and the faithfulness 0, so
    [validate_output] rejects every text, with the two issues that follow
    the issue about personal data, if there is one. *)
Theorem output_without_sources_is_rejected :
  forall text : string,
    (forall source_docs,
        In (_assess_hallucination_risk text source_docs) ["low"; "medium"; "high"])
    /\ fst (validate_output text []) = false
    /\ hallucination_risk (snd (validate_output text [])) = "high"
    /\ faithfulness_score (snd (validate_output text [])) = 0%Q
    /\ issues (snd (validate_output text []))
       = List.app
           (if nonempty (_detect_pii text)
            then ["PII in output: " ++ Py.join ", " (_detect_pii text)]
            else [])
           ["High hallucination risk detected"; "Low faithfulness score: 0.00"].
Proof.
  intros text. split; [intros docs; apply risk_is_low_medium_or_high|].
  unfold validate_output. cbv zeta.
  change (_assess_hallucination_risk text []) with "high".
  change (_calculate_faithfulness text []) with 0%Q.
  change (existsb (String.eqb "high") ["high"; "critical"]) with true.
  change (Py.Qltb 0 (5 # 10)) with true.
  change (Py.format_2f 0) with "0.00".
  cbv iota.
  destruct (nonempty (_detect_pii text)); cbn; auto.
Qed.

End GuardrailsFacts.

Lemma accepted_input_is_left_alone_witness :
  fst (GuardrailsChecks.validate_input "How long may visitors stay on the ward?") = true
  /\ GuardrailsService.sanitize_output "How long may visitors stay on the ward?"
     = "How long may visitors stay on the ward?".
Proof.
  split; [vm_compute; reflexivity|].
  apply (accepted_input_is_left_alone "How long may visitors stay on the ward?").
  vm_compute. reflexivity.
Defined.

(** ** The percentage pattern *)

Section PercentagePattern.
Import GuardrailsService GuardrailsChecks.

(** What follows a repetition follows some suffix of the text. *)
Lemma rep_some (p : ascii -> bool) (greedy : bool) (r : Re.pos)
    (k : option ascii -> string -> option Re.pos) :
  forall (s : string) (lo : nat) (hi : option nat) (prev : option ascii),
    Re.rep p lo hi greedy prev s k = Some r ->
    exists (pre : string) (prev' : option ascii) (s' : string),
      s = pre ++ s' /\ k prev' s' = Some r.
Proof.
  induction s as [|c s IH]; intros lo hi prev H; cbn [Re.rep] in H.
  - exists "", prev, "". split; [reflexivity|].
    destruct greedy; destruct (lo =? 0)%nat; cbn in H;
      try destruct (k prev ""); first [exact H | discriminate].
  - set (more := if p c && match hi with Some O => false | _ => true end
                 then Re.rep p (Nat.pred lo) (option_map Nat.pred hi) greedy (Some c) s k
                 else None) in H.
    assert (Hmore : more = Some r ->
                    exists pre prev' s', String c s = pre ++ s' /\ k prev' s' = Some r).
    { unfold more. destruct (p c && _); [|discriminate].
      intros Hm. apply IH in Hm as (pre & prev' & s' & -> & Hk).
      exists (String c pre), prev', s'. split; [now rewrite append_cons | exact Hk]. }
    assert (Hstop : (if (lo =? 0)%nat then k prev (String c s) else None) = Some r ->
                    exists pre prev' s', String c s = pre ++ s' /\ k prev' s' = Some r).
    { destruct (lo =? 0)%nat; [|discriminate]. intros Hk.
      exists "", prev, (String c s). split; [now rewrite append_nil_l | exact Hk]. }
    destruct greedy.
    + destruct more as [x|] eqn:M; [apply Hmore; congruence | now apply Hstop].
    + destruct (if (lo =? 0)%nat then k prev (String c s) else None) as [x|] eqn:S;
        [apply Hstop; congruence | now apply Hmore].
Qed.

Lemma before_word_suffix (pre s : string) :
  Percent.before_word s = true -> Percent.before_word (pre ++ s) = true.
Proof.
  intros H. induction pre as [|c pre IH].
  - now rewrite append_nil_l.
  - rewrite append_cons. cbn [Percent.before_word]. rewrite IH. apply orb_true_r.
Qed.

(** A match of [\b\d+%\b] ends in a percent sign that a word character
    follows. *)
Lemma percentage_match (prev : option ascii) (s : string) (r : Re.pos) :
  Re.match_at (compiled percentage) prev s = Some r -> Percent.before_word s = true.
Proof.
  unfold Re.match_at, percentage. cbn [compiled Re.seq Re.run Re.plus].
  destruct (xorb _ _); [|discriminate].
  intros H. apply rep_some in H as (pre & prev' & s' & -> & H).
  apply before_word_suffix.
  destruct s' as [|c s'']; [discriminate|].
  destruct (Ascii.eqb_spec c "%") as [->|]; [|discriminate].
  change (Re.is_word_opt (Some "%"%char)) with false in H.
  cbn [xorb] in H. cbn [Percent.before_word].
  destruct (Re.is_word_opt (Re.head s'')); [reflexivity | discriminate].
Qed.

Lemma percentage_no_match (s : string) :
  Percent.before_word s = false ->
  forall prev, Re.match_at (compiled percentage) prev s = None.
Proof.
  intros H prev. destruct (Re.match_at (compiled percentage) prev s) eqn:E; [|reflexivity].
  apply percentage_match in E. congruence.
Qed.

Lemma before_word_tail (c : ascii) (s : string) :
  Percent.before_word (String c s) = false -> Percent.before_word s = false.
Proof. cbn [Percent.before_word]. intros H. now apply orb_false_iff in H. Qed.

Lemma percentage_search_from (s : string) :
  Percent.before_word s = false ->
  forall prev, Re.search_from (compiled percentage) prev s = false.
Proof.
  induction s as [|c s IH]; intros H prev; cbn [Re.search_from];
    rewrite (percentage_no_match _ H); [reflexivity|].
  apply IH. now apply before_word_tail in H.
Qed.

Lemma percentage_count_from (fuel : nat) :
  forall s prev, Percent.before_word s = false ->
                 Findall.count_from fuel (compiled percentage) prev s = 0%nat.
Proof.
  induction fuel as [|fuel IH]; intros s prev H; [reflexivity|].
  cbn [Findall.count_from]. rewrite (percentage_no_match _ H).
  destruct s as [|c s]; [reflexivity|].
  apply IH. now apply before_word_tail in H.
Qed.

(** X15. The pattern for percentages, \b\d+%\b, asks for a word boundary
    after the percent sign, that is for a letter, a digit or an underscore
    right after it. In a text where no percent sign is followed by such a
    character, as in ordinary prose, the pattern is never found: the
    hallucination check of the guardrails counts no percentage and the
    evaluation never reports the marker specific_percentages. *)
Theorem percentages_in_prose_are_not_seen :
  forall text : string,
    Percent.before_word text = false ->
    Re.search (compiled percentage) text = false
    /\ Findall.count (compiled percentage) text = 0%nat
    /\ ~ In "specific_percentages" (OutputEvaluation._detect_hallucination_markers text).
Proof.
  intros text H. repeat apply conj.
  - now apply percentage_search_from.
  - now apply percentage_count_from.
  - unfold OutputEvaluation._detect_hallucination_markers. cbv zeta.
    unfold Re.search. rewrite (percentage_search_from _ H).
    destruct (existsb _ _); cbn; intuition discriminate.
Qed.

End PercentagePattern.

Lemma percentages_in_prose_are_not_seen_witness :
  Percent.before_word "Recovery is seen in 50% of cases, and in up to 80%." = false
  /\ Findall.count (GuardrailsService.compiled GuardrailsChecks.percentage)
       "Recovery is seen in 50% of cases, and in up to 80%." = 0%nat.
Proof.
  split; [reflexivity|].
  apply (percentages_in_prose_are_not_seen
           "Recovery is seen in 50% of cases, and in up to 80%."). reflexivity.
Defined.

(** A percentage is seen when a word character follows it directly. *)
Example percentage_glued_to_a_word :
  Findall.count (GuardrailsService.compiled GuardrailsChecks.percentage)
    "a 50%increase" = 1%nat.
Proof. vm_compute. reflexivity. Qed.

(** ** Word-overlap metrics *)

Section OverlapMetrics.
Import EvaluationService.

Lemma overlap_le (a b : gset string) : (overlap_count a b <= set_len a)%Z.
Proof.
  unfold overlap_count, set_len. apply inj_le, subseteq_size, intersection_subseteq_l.
Qed.

Lemma overlap_full (a b : gset string) : overlap_count a b = set_len a <-> a ⊆ b.
Proof.
  unfold overlap_count, set_len. split.
  - intros H. apply Nat2Z.inj in H.
    assert (E : a ∩ b = a).
    { apply set_subseteq_size_eq; [apply intersection_subseteq_l | lia]. }
    rewrite <- E. apply intersection_subseteq_r.
  - intros H. now rewrite (subseteq_intersection_1_L a b H).
Qed.

Lemma set_len_nonneg (a : gset string) : (0 <= set_len a)%Z.
Proof. unfold set_len. lia. Qed.

Lemma overlap_nonneg (a b : gset string) : (0 <= overlap_count a b)%Z.
Proof. unfold overlap_count. lia. Qed.

(** A part of a whole, as a fraction. *)
Lemma fraction_unit (a b : Z) :
  (0 <= a <= b)%Z -> (0 < b)%Z -> Metric.unit_interval (inject_Z a / inject_Z b).
Proof.
  intros Ha Hb. assert (Hb' : (0 < inject_Z b)%Q)
    by (change 0%Q with (inject_Z 0); rewrite <- Zlt_Qlt; exact Hb).
  split.
  - apply Qle_shift_div_l; [exact Hb'|]. rewrite Qmult_0_l.
    change 0%Q with (inject_Z 0). rewrite <- Zle_Qle. lia.
  - apply Qle_shift_div_r; [exact Hb'|]. rewrite Qmult_1_l. rewrite <- Zle_Qle. lia.
Qed.

Lemma fraction_one (a b : Z) :
  (0 < b)%Z -> ((inject_Z a / inject_Z b == 1)%Q <-> a = b).
Proof.
  intros Hb. assert (Hb' : ~ (inject_Z b == 0)%Q).
  { intros E. unfold Qeq in E. cbn in E. lia. }
  split.
  - intros E.
    assert (E' : (inject_Z a == inject_Z b)%Q).
    { rewrite <- (Qmult_1_l (inject_Z b)), <- E. field. exact Hb'. }
    unfold Qeq in E'. cbn in E'. lia.
  - intros ->. field. exact Hb'.
Qed.

Lemma py_min_unit (x : Q) :
  Metric.unit_interval x -> Py.min x 1 = x.
Proof.
  intros [_ H]. unfold Py.min. destruct (Py.Qltb 1 x) eqn:E; [|reflexivity].
  apply Qltb_true in E. exfalso. exact (Qlt_not_le _ _ E H).
Qed.

Lemma elem_of_fold_union {A} (f : A -> gset string) (w : string) (docs : list A) :
  forall init : gset string,
    w ∈ fold_left (fun acc doc => acc ∪ f doc) docs init
    <-> w ∈ init \/ exists doc, In doc docs /\ w ∈ f doc.
Proof.
  induction docs as [|d docs IH]; intros init; cbn [fold_left].
  - split; [auto | intros [H|[doc [[] _]]]; exact H].
  - rewrite IH, elem_of_union. split.
    + intros [[H|H]|[doc [Hin Hw]]]; [auto | right; exists d; cbn; auto |].
      right. exists doc. cbn. auto.
    + intros [H|[doc [[<-|Hin] Hw]]]; [auto | auto |].
      right. exists doc. auto.
Qed.

Lemma set_len_zero (a : gset string) : (set_len a =? 0)%Z = true <-> a = ∅.
Proof.
  unfold set_len. rewrite Z.eqb_eq. split.
  - intros H. apply leibniz_equiv, size_empty_iff. lia.
  - intros ->. now rewrite size_empty.
Qed.

(** X16. The faithfulness score of the guardrails lies between 0 and 1,
    and it is 1 exactly when there are source documents, the output has a
    word, and every word of the output occurs in some source document. *)
Theorem guardrails_faithfulness_measures_grounding :
  forall (output : string) (source_docs : list string),
    Metric.unit_interval (GuardrailsChecks._calculate_faithfulness output source_docs)
    /\ ((GuardrailsChecks._calculate_faithfulness output source_docs == 1)%Q
        <-> source_docs <> [] /\ words output <> ∅
            /\ Metric.grounded output source_docs).
Proof.
  intros output docs. unfold GuardrailsChecks._calculate_faithfulness.
  destruct docs as [|d0 docs'] eqn:D.
  { split; [split; discriminate|]. split; [discriminate | intros [H _]; congruence]. }
  rewrite <- D. cbv zeta.
  set (src := fold_left (fun acc doc => acc ∪ words doc) docs ∅).
  destruct (set_len (words output) =? 0)%Z eqn:Z0.
  { apply set_len_zero in Z0.
    split; [split; discriminate|]. split; [discriminate | intros (_ & H & _); congruence]. }
  assert (Hne : words output <> ∅)
    by (intros E; apply set_len_zero in E; congruence).
  apply Z.eqb_neq in Z0. pose proof (set_len_nonneg (words output)) as Hnn.
  pose proof (overlap_le (words output) src) as Hle.
  pose proof (overlap_nonneg (words output) src) as Hov.
  assert (U : Metric.unit_interval
                (inject_Z (overlap_count (words output) src)
                 / inject_Z (set_len (words output))))
    by (apply fraction_unit; lia).
  rewrite (py_min_unit _ U). split; [exact U|].
  rewrite fraction_one by lia. rewrite overlap_full. split.
  - intros Hsub. split; [subst docs; discriminate|]. split; [exact Hne|].
    intros w Hw. apply Hsub in Hw. unfold src in Hw.
    apply elem_of_fold_union in Hw as [Hw|Hw]; [set_solver | exact Hw].
  - intros (_ & _ & Hg) w Hw. unfold src. apply elem_of_fold_union. right. now apply Hg.
Qed.

End OverlapMetrics.

(** ** RAG evaluation: the call that returns *)

Section RagMetrics.
Import EvaluationService.











End RagMetrics.

(** A negative score is passed on: the recall is only capped from above. *)
Example context_recall_of_a_negative_score :
  EvaluationService._calculate_context_recall
    [EvaluationService.mkDoc (Some "Parking is free after 6pm.") (Some (-1))]
    Ward.answer
  = (-1)%Q.
Proof. vm_compute. reflexivity. Qed.


(** ** LLM output evaluation and aggregates *)

Section OutputFacts.
Import EvaluationService OutputEvaluation.

Lemma half_ratio (d t : Z) :
  (0 < t)%Z -> Py.Qltb (inject_Z d / inject_Z t) (5 # 10) = (2 * d <? t)%Z.
Proof.
  intros Ht. assert (Ht' : (0 < inject_Z t)%Q)
    by (change 0%Q with (inject_Z 0); rewrite <- Zlt_Qlt; exact Ht).
  destruct (2 * d <? t)%Z eqn:E.
  - apply Z.ltb_lt in E. apply Qltb_true. apply Qlt_shift_div_r; [exact Ht'|].
    unfold Qlt. cbn. lia.
  - apply Z.ltb_ge in E. apply Qltb_false. apply Qle_shift_div_l; [exact Ht'|].
    unfold Qle. cbn. lia.
Qed.

Lemma check_coherence_value (text : string) :
  _check_coherence text
  = Ok ((10 <=? String.length text)%nat
        && (List.length (Py.split (Py.lower text))
            <=? 2 * size (list_to_set (Py.split (Py.lower text)) : gset string))%nat).
Proof.
  unfold _check_coherence.
  destruct (String.length text <? 10)%nat eqn:L.
  { apply Nat.ltb_lt in L. replace (10 <=? String.length text)%nat with false
      by (symmetry; apply Nat.leb_gt; exact L). reflexivity. }
  apply Nat.ltb_ge in L.
  replace (10 <=? String.length text)%nat with true
    by (symmetry; apply Nat.leb_le; exact L).
  cbv zeta. cbn [andb].
  set (words := Py.split (Py.lower text)).
  set (distinct := size (list_to_set words : gset string)).
  destruct (List.length words =? distinct)%nat eqn:E; cbn [negb].
  - apply Nat.eqb_eq in E. f_equal. symmetry. apply Nat.leb_le. lia.
  - apply Nat.eqb_neq in E.
    assert (Hpos : (0 < List.length words)%nat).
    { destruct words as [|w ws] eqn:W; [|cbn; lia].
      exfalso. apply E. unfold distinct. cbn. now rewrite size_empty. }
    unfold Exceptions.div.
    destruct (Z.of_nat (List.length words) =? 0)%Z eqn:Z0;
      [apply Z.eqb_eq in Z0; lia|].
    cbn [Exceptions.bind]. rewrite half_ratio by lia.
    destruct (2 * Z.of_nat distinct <? Z.of_nat (List.length words))%Z eqn:C.
    + apply Z.ltb_lt in C. f_equal. symmetry. apply Nat.leb_gt. lia.
    + apply Z.ltb_ge in C. f_equal. symmetry. apply Nat.leb_le. lia.
Qed.

(** X18. [evaluate_llm_output] returns for every output: the division in
    the coherence check is only reached with at least one word. The output
    is rated coherent exactly when it has at least 10 characters and at
    least half of its words, compared in lower case, are distinct. *)
Theorem evaluate_llm_output_always_returns :
  forall (json_ok : string -> bool) (prompt output : string)
         (expected_format : option string) (now : Q),
    exists m : OutputMetrics,
      evaluate_llm_output json_ok prompt output expected_format now = Ok m
      /\ output_length m = String.length output
      /\ is_coherent m
         = ((10 <=? String.length output)%nat
            && (List.length (Py.split (Py.lower output))
                <=? 2 * size (list_to_set (Py.split (Py.lower output)) : gset string))%nat).
Proof.
  intros json_ok prompt output expected_format now.
  unfold evaluate_llm_output. rewrite check_coherence_value. cbn [Exceptions.bind].
  eexists. split; [reflexivity|]. split; reflexivity.
Qed.

Lemma slice_last_length {A} (k : Z) (l : list A) :
  Z.of_nat (List.length (slice_last k l))
  = (if (0 <? k)%Z then Z.min k (Z.of_nat (List.length l))
     else Z.max 0 (Z.of_nat (List.length l) + k))%Z.
Proof.
  unfold slice_last. cbv zeta. rewrite length_skipn.
  destruct (0 <? k)%Z eqn:K.
  - apply Z.ltb_lt in K. replace (- k <? 0)%Z with true by (symmetry; apply Z.ltb_lt; lia).
    lia.
  - apply Z.ltb_ge in K. replace (- k <? 0)%Z with false by (symmetry; apply Z.ltb_ge; lia).
    lia.
Qed.

Lemma slice_last_all {A} (k : Z) (l : list A) :
  k = 0%Z \/ (Z.of_nat (List.length l) <= k)%Z -> slice_last k l = l.
Proof.
  intros H. unfold slice_last. cbv zeta.
  assert (E : (if (- k <? 0)%Z then Z.max (Z.of_nat (List.length l) + - k) 0
               else Z.min (- k) (Z.of_nat (List.length l))) = 0%Z).
  { destruct (- k <? 0)%Z eqn:K.
    - apply Z.ltb_lt in K. lia.
    - apply Z.ltb_ge in K. lia. }
  rewrite E. reflexivity.
Qed.

(** X19. With a history that is not empty, [get_aggregate_metrics] reports
    the length of the whole history as total_evaluations, and as
    window_size the smaller of the requested size and that length when the
    requested size is positive. A requested size of 0 does not give an
    empty window: the slice [-0:] is the whole list, so the averages are
    taken over every evaluation, as for a request of the full length. A
    negative size -j drops the first j evaluations. *)
Theorem aggregate_window_of_zero_is_everything :
  forall (self : EvaluationService) (window : Z),
    metrics_history self <> [] ->
    (exists agg : Aggregate,
        get_aggregate_metrics self window = Some agg
        /\ total_evaluations agg = List.length (metrics_history self)
        /\ Z.of_nat (window_size agg)
           = (if (0 <? window)%Z
              then Z.min window (Z.of_nat (List.length (metrics_history self)))
              else Z.max 0 (Z.of_nat (List.length (metrics_history self)) + window))%Z)
    /\ get_aggregate_metrics self 0
       = get_aggregate_metrics self (Z.of_nat (List.length (metrics_history self))).
Proof.
  intros self window Hne. unfold get_aggregate_metrics.
  destruct (metrics_history self) as [|m0 ms] eqn:H; [contradiction|].
  rewrite <- H. cbv zeta. split.
  - eexists. split; [reflexivity|]. cbn [total_evaluations window_size].
    split; [reflexivity | apply slice_last_length].
  - rewrite !slice_last_all by lia. reflexivity.
Qed.

End OutputFacts.

Lemma aggregate_window_of_zero_is_everything_witness :
  OutputEvaluation.get_aggregate_metrics
    (snd (EvaluationService.evaluate_rag_response
            (EvaluationService.mkEvaluationService [])
            Ward.question Ward.answer Ward.retrieved None 17)) 0
  = OutputEvaluation.get_aggregate_metrics
      (snd (EvaluationService.evaluate_rag_response
              (EvaluationService.mkEvaluationService [])
              Ward.question Ward.answer Ward.retrieved None 17)) 1.
Proof.
  apply (proj2 (aggregate_window_of_zero_is_everything
                  (snd (EvaluationService.evaluate_rag_response
                          (EvaluationService.mkEvaluationService [])
                          Ward.question Ward.answer Ward.retrieved None 17)) 0
                  ltac:(vm_compute; discriminate))).
Defined.

(** ** Chunks *)

Section ChunkFacts.
Import Chunking.

Lemma str_of_nat_inj (a b : nat) : Py.str_of_nat a = Py.str_of_nat b -> a = b.
Proof.
  unfold Py.str_of_nat. intros H.
  apply DecimalNat.Unsigned.to_uint_inj.
  pose proof (NilEmpty.usu (Nat.to_uint a)) as Ha.
  pose proof (NilEmpty.usu (Nat.to_uint b)) as Hb.
  rewrite H in Ha. congruence.
Qed.

Lemma append_inj_r (p a b : string) : p ++ a = p ++ b -> a = b.
Proof.
  induction p as [|c p IH]; [now rewrite !append_nil_l|].
  rewrite !append_cons. intros H. injection H as H. exact (IH H).
Qed.

Lemma map_combine_fst {A B C} (g : A -> C) (l1 : list A) :
  forall l2 : list B,
    List.length l1 = List.length l2 ->
    map (fun '(i, _) => g i) (combine l1 l2) = map g l1.
Proof.
  induction l1 as [|a l1 IH]; intros [|b l2] H; cbn in *; try congruence.
  f_equal. apply IH. lia.
Qed.

Lemma map_combine_snd {A B C} (g : B -> C) (l1 : list A) :
  forall l2 : list B,
    List.length l1 = List.length l2 ->
    map (fun '(_, c) => g c) (combine l1 l2) = map g l2.
Proof.
  induction l1 as [|a l1 IH]; intros [|b l2] H; cbn in *; try congruence.
  f_equal. apply IH. lia.
Qed.

Lemma chunk_docs_text (chunks : list string) (d f : string) :
  map text (chunk_docs_of chunks d f) = chunks.
Proof.
  unfold chunk_docs_of, Py.enumerate. rewrite map_map.
  rewrite (map_ext _ (fun '(_, c) => (fun x : string => x) c)) by (now intros [i c]).
  rewrite map_combine_snd by apply length_seq. apply map_id.
Qed.

Lemma chunk_docs_index (chunks : list string) (d f : string) :
  map (fun c => chunk_index (metadata c)) (chunk_docs_of chunks d f)
  = seq 0 (List.length chunks).
Proof.
  unfold chunk_docs_of, Py.enumerate. rewrite map_map.
  rewrite (map_ext _ (fun '(i, _) => (fun x : nat => x) i)) by (now intros [i c]).
  rewrite map_combine_fst by apply length_seq. apply map_id.
Qed.

Lemma chunk_docs_id (chunks : list string) (d f : string) :
  map id (chunk_docs_of chunks d f)
  = map (fun i => d ++ "_chunk_" ++ Py.str_of_nat i) (seq 0 (List.length chunks)).
Proof.
  unfold chunk_docs_of, Py.enumerate. rewrite map_map.
  rewrite (map_ext _ (fun '(i, _) => (fun i => d ++ "_chunk_" ++ Py.str_of_nat i) i))
    by (now intros [i c]).
  now rewrite map_combine_fst by apply length_seq.
Qed.

Lemma chunk_docs_fields (chunks : list string) (d f : string) :
  Forall (fun c => chunk_count (metadata c) = List.length chunks
                   /\ char_count (metadata c) = String.length (text c)
                   /\ doc_id (metadata c) = d
                   /\ filename (metadata c) = f
                   /\ id c = d ++ "_chunk_" ++ Py.str_of_nat (chunk_index (metadata c)))
    (chunk_docs_of chunks d f).
Proof.
  unfold chunk_docs_of. apply Forall_map. apply Forall_forall.
  intros [i c] _. cbn. auto.
Qed.

(** X20. When [split_text] returns, the splitter gave at least one chunk
    and there is one chunk document per chunk, in order: their texts are
    the chunks, their indexes count from 0, each carries the number of
    chunks and the length of its text, and their ids (document id,
    "_chunk_", index) are pairwise distinct. When it raises, the error is a
    VectorStoreError of the operation text_splitting whose message starts
    with "Text splitting failed: "; this also holds for the error about an
    empty list of chunks, which the function's own handler wraps. *)
Theorem split_text_numbers_its_chunks :
  forall (splitter : string -> except (list string)) (text doc_id filename : string),
    match split_text splitter text doc_id filename with
    | Ok docs =>
        exists chunks : list string,
          splitter text = Ok chunks /\ chunks <> []
          /\ map Chunking.text docs = chunks
          /\ map (fun c => chunk_index (metadata c)) docs = seq 0 (List.length chunks)
          /\ Forall (fun c => chunk_count (metadata c) = List.length chunks
                              /\ char_count (metadata c) = String.length (Chunking.text c)
                              /\ Chunking.doc_id (metadata c) = doc_id
                              /\ Chunking.filename (metadata c) = filename
                              /\ id c = doc_id ++ "_chunk_"
                                        ++ Py.str_of_nat (chunk_index (metadata c)))
               docs
          /\ NoDup (map id docs)
    | Raise e =>
        exists msg : string,
          e = VectorStoreError ("Text splitting failed: " ++ msg) (Some "text_splitting")
          /\ ((splitter text = Ok [] /\ msg = "No text chunks generated from document")
              \/ exists e0, splitter text = Raise e0 /\ msg = Exceptions.str e0)
    end.
Proof.
  intros splitter text doc_id filename. unfold split_text. cbv zeta.
  destruct (splitter text) as [chunks|e0] eqn:S; cbn [Exceptions.bind].
  - destruct chunks as [|c0 cs] eqn:C.
    + cbn. eexists. split; [reflexivity|]. left. auto.
    + rewrite <- C. cbn [Exceptions.handle_exceptions].
      exists chunks. split; [reflexivity|]. split; [subst; discriminate|].
      split; [apply chunk_docs_text|]. split; [apply chunk_docs_index|].
      split; [apply chunk_docs_fields|].
      rewrite chunk_docs_id.
      assert (I : Inj (=) (=) (fun i => doc_id ++ "_chunk_" ++ Py.str_of_nat i)).
      { intros a b H. apply append_inj_r, append_inj_r in H. now apply str_of_nat_inj. }
      exact (NoDup_fmap_2 _ _ (NoDup_seq 0 (List.length chunks))).
  - cbn. eexists. split; [reflexivity|]. right. eauto.
Qed.

End ChunkFacts.

(** ** Query service *)

Section QueryFacts.
Import VectorService QueryService.

Lemma append_assoc (a b c : string) : (a ++ b) ++ c = a ++ (b ++ c).
Proof.
  induction a as [|x a IH]; [now rewrite !append_nil_l|].
  rewrite !append_cons. now rewrite IH.
Qed.

Lemma append_nil_r (a : string) : a ++ "" = a.
Proof. induction a as [|x a IH]; [reflexivity|]. rewrite append_cons. now rewrite IH. Qed.

Lemma py_max_zero_nonneg (x : Q) : (0 <= Py.max 0 x)%Q.
Proof.
  unfold Py.max. destruct (Py.Qltb 0 x) eqn:E; [|apply Qle_refl].
  apply Qltb_true in E. now apply Qlt_le_weak.
Qed.

(** The three lists of [_generate_response] after the loop. *)
Lemma response_loop (docs : list Doc) :
  forall contexts sources results,
    fold_left
      (fun '(contexts, sources, results) doc =>
         let cleaned_content := Py.join " " (Py.split (VectorService.content doc)) in
         (List.app contexts [cleaned_content],
          List.app sources [VectorService.source doc],
          List.app results
            [mkResult cleaned_content (VectorService.source doc)
               (VectorService.score doc) (VectorService.metadata doc)]))
      docs (contexts, sources, results)
    = (List.app contexts
         (map (fun doc => Py.join " " (Py.split (VectorService.content doc))) docs),
       List.app sources (map VectorService.source docs),
       List.app results
         (map (fun doc =>
                 mkResult (Py.join " " (Py.split (VectorService.content doc)))
                   (VectorService.source doc) (VectorService.score doc)
                   (VectorService.metadata doc)) docs)).
Proof.
  induction docs as [|d docs IH]; intros contexts sources results; cbn [fold_left map].
  - now rewrite !app_nil_r.
  - cbv zeta. rewrite IH. now rewrite <- !app_assoc.
Qed.

Lemma template_answer_returns (query context : string) (sources : list string) :
  exists answer, _generate_template_answer query context sources = Ok answer.
Proof. unfold _generate_template_answer. cbv zeta. cbn. eexists. reflexivity. Qed.

Lemma generate_response_returns (list_of_set : list string -> list string)
    (query : string) (docs : list Doc) (context : option Py.Dict) :
  docs <> [] ->
  exists answer,
    _generate_response list_of_set query docs context
    = Ok (mkResponse query answer
            (map (fun doc =>
                    mkResult (Py.join " " (Py.split (VectorService.content doc)))
                      (VectorService.source doc) (VectorService.score doc)
                      (VectorService.metadata doc)) docs)
            (Py.min (95 # 100)
               (Py.sum (map VectorService.score docs)
                / Py.len (map VectorService.score docs)))
            None).
Proof.
  intros Hne. unfold _generate_response. rewrite response_loop. cbn [List.app].
  destruct (template_answer_returns query
              (Py.join LLMService.blank_line
                 (map (fun doc => Py.join " " (Py.split (VectorService.content doc)))
                    docs))
              (list_of_set (map VectorService.source docs)))
    as [answer ->].
  cbn [Exceptions.bind]. exists answer.
  destruct docs as [|d ds]; [contradiction|]. reflexivity.
Qed.

Lemma format_hit_scores_nonneg (hits : list Hit) :
  Forall (fun x => 0 <= x)%Q (map VectorService.score (map format_hit hits)).
Proof.
  apply Forall_map, Forall_map, Forall_forall. intros [[d md] dist] _. cbn.
  apply py_max_zero_nonneg.
Qed.

(** X21. [process_query] either raises a QueryProcessingError or returns
    a response. It raises "Query cannot be empty" exactly for a query that
    is empty or blank, before the collection is asked; otherwise it asks
    the collection for the stripped query, and a failure of the collection
    comes back as a QueryProcessingError that carries the stripped query. A
    response carries the stripped query and one result per hit, in the
    order of the hits, with the hit's source, its text with runs of white
    space collapsed, and the score max(0, 1 - distance); its confidence
    lies between 0 and 0.95, and is 0 with the fixed apology when there is
    no hit. *)
Theorem process_query_outcomes :
  forall (collection_query : string -> nat -> except (list Hit))
         (list_of_set : list string -> list string)
         (query : string) (max_results : nat) (context : option Py.Dict)
         (start_time end_time : Q),
    match process_query collection_query list_of_set query max_results context
            start_time end_time with
    | Raise e =>
        (Py.strip query = "" /\ e = QueryProcessingError "Query cannot be empty" None)
        \/ (Py.strip query <> ""
            /\ exists e0,
                 collection_query (Py.strip query) max_results = Raise e0
                 /\ e = QueryProcessingError
                          ("Query processing failed: "
                           ++ ("Similarity search failed: " ++ Exceptions.str e0))
                          (Some (Py.strip query)))
    | Ok r =>
        Py.strip query <> ""
        /\ exists hits,
             collection_query (Py.strip query) max_results = Ok hits
             /\ QueryService.query r = Py.strip query
             /\ map QueryService.source (results r)
                = map (fun h : Hit => filename_of (snd (fst h))) hits
             /\ map QueryService.content (results r)
                = map (fun h : Hit => Py.join " " (Py.split (fst (fst h)))) hits
             /\ map QueryService.score (results r)
                = map (fun h : Hit => Py.max 0 (1 - snd h)) hits
             /\ Spec.in_range (confidence r)
             /\ processing_time_ms r = Some (Orchestrator.elapsed_ms start_time end_time)
             /\ (hits = [] -> confidence r = 0%Q /\ answer r = no_results_answer)
    end.
Proof.
  intros cq los query n ctx t0 t1. unfold process_query.
  destruct (String.eqb_spec (Py.strip query) "") as [Hs|Hs].
  { rewrite orb_true_r. cbn. left. auto. }
  assert (Hq : String.eqb query "" = false).
  { destruct (String.eqb_spec query ""); [subst; now cbn in Hs | reflexivity]. }
  rewrite Hq. cbn [orb]. cbv zeta. unfold search_similar.
  destruct (cq (Py.strip query) n) as [hits|e0] eqn:C.
  - cbn [Exceptions.handle_exceptions Exceptions.bind].
    destruct hits as [|h hs] eqn:H.
    + cbn. split; [exact Hs|]. exists [].
      split; [reflexivity|]. split; [reflexivity|]. split; [reflexivity|].
      split; [reflexivity|]. split; [reflexivity|].
      split; [split; discriminate|]. split; [reflexivity|]. auto.
    + cbn [map].
      destruct (generate_response_returns los (Py.strip query)
                  (format_hit h :: map format_hit hs) ctx) as [ans E];
        [discriminate|].
      rewrite E. cbn [Exceptions.bind Exceptions.handle_exceptions].
      change (format_hit h :: map format_hit hs) with (map format_hit (h :: hs)).
      rewrite <- H.
      split; [exact Hs|]. exists hits.
      cbn [QueryService.query results confidence processing_time_ms answer].
      split; [now rewrite H|]. split; [reflexivity|].
      split; [rewrite !map_map; apply map_ext; now intros [[d md] dist]|].
      split; [rewrite !map_map; apply map_ext; now intros [[d md] dist]|].
      split; [rewrite !map_map; apply map_ext; now intros [[d md] dist]|].
      split; [apply clamp_in_range, average_nonneg, format_hit_scores_nonneg|].
      split; [reflexivity|]. intros ->. discriminate.
  - cbn. right. split; [exact Hs|]. exists e0. auto.
Qed.

End QueryFacts.

(** ** Query suggestions *)

Section SuggestionFacts.
Import QueryService.

(** A word of [s.split()] is a piece of [s]. *)
Lemma split_from_piece (s : string) :
  forall cur w,
    In w (Py.split_from cur s) -> exists a b, cur ++ s = a ++ w ++ b.
Proof.
  induction s as [|c s IH]; intros cur w; cbn [Py.split_from].
  - destruct (String.eqb cur ""); [intros []|]. intros [<-|[]].
    exists "", "". now rewrite append_nil_l.
  - destruct (Py.is_space c).
    + destruct (String.eqb_spec cur "") as [->|Hcur].
      * intros H. apply IH in H as (a & b & E). rewrite append_nil_l in E |- *.
        exists (String c a), b. rewrite append_cons. now rewrite <- E.
      * intros [<-|H].
        -- exists "", (String c s). now rewrite append_nil_l.
        -- apply IH in H as (a & b & E). rewrite append_nil_l in E.
           exists (cur ++ String c a), b. rewrite append_assoc, append_cons.
           now rewrite <- E.
    + intros H. apply IH in H as (a & b & E). exists a, b.
      rewrite <- E, append_assoc. reflexivity.
Qed.

Lemma word_start_contains (p s : string) :
  Suggest.word_start p s = true -> Py.contains p (Py.lower s) = true.
Proof.
  unfold Suggest.word_start. rewrite existsb_exists. intros (w & Hin & Hst).
  apply split_from_piece in Hin as (a & b & E). rewrite append_nil_l in E.
  apply startswith_spec in Hst as (r & ->).
  apply contains_spec. exists a, (r ++ b). rewrite E. now rewrite append_assoc.
Qed.

Lemma suggestion_step_value (p s : string) (ws ss : list string) :
  suggestion_step p (ws, ss) s
  = (List.app ws (if Suggest.word_start p s then [s] else []),
     List.app ss (if Suggest.inside_only p s then [s] else [])).
Proof.
  unfold suggestion_step, Suggest.inside_only, Suggest.word_start. cbv zeta.
  destruct (existsb _ _); cbn [negb andb]; [now rewrite app_nil_r|].
  destruct (Py.contains p (Py.lower s)); now rewrite !app_nil_r.
Qed.

(** The two lists of [get_query_suggestions] after the loop. *)
Lemma suggestion_loop (p : string) (l : list string) :
  forall ws ss : list string,
    fold_left (suggestion_step p) l (ws, ss)
    = (List.app ws (List.filter (Suggest.word_start p) l),
       List.app ss (List.filter (Suggest.inside_only p) l)).
Proof.
  induction l as [|s l IH]; intros ws ss; cbn [fold_left List.filter].
  - now rewrite !app_nil_r.
  - rewrite suggestion_step_value, IH.
    destruct (Suggest.word_start p s), (Suggest.inside_only p s);
      now rewrite <- ?app_assoc, ?app_nil_r.
Qed.

Lemma suggestions_distinct : NoDup suggestions.
Proof. apply (bool_decide_unpack _). vm_compute. exact I. Qed.

Lemma NoDup_firstn {A} (n : nat) (l : list A) : NoDup l -> NoDup (firstn n l).
Proof. intros H. exact (sublist_NoDup _ _ H (sublist_take l n)). Qed.

Lemma suggestions_value (partial_query : string) :
  get_query_suggestions partial_query
  = if (String.length partial_query <? 2)%nat then firstn 5 suggestions
    else firstn 5
           (List.app
              (List.filter (Suggest.word_start (Py.lower partial_query)) suggestions)
              (List.filter (Suggest.inside_only (Py.lower partial_query)) suggestions)).
Proof.
  unfold get_query_suggestions.
  destruct (String.eqb_spec partial_query "") as [->|Hne]; [reflexivity|].
  cbn [orb]. destruct (String.length partial_query <? 2)%nat; [reflexivity|].
  rewrite suggestion_loop. cbn [List.app].
  now destruct (List.app _ _).
Qed.

(** X22. [get_query_suggestions] returns at most five suggestions, all
    taken from its fixed list and none twice. For an input of fewer than
    two characters these are the first five of the list. For a longer
    input they are, in this order, the suggestions with a word that starts
    with the input and then those that only contain it, case ignored, cut
    after five; so every suggestion returned contains the input. *)
Theorem suggestions_contain_the_input :
  forall partial_query : string,
    (List.length (get_query_suggestions partial_query) <= 5)%nat
    /\ NoDup (get_query_suggestions partial_query)
    /\ Forall (fun s => In s suggestions) (get_query_suggestions partial_query)
    /\ ((String.length partial_query < 2)%nat ->
        get_query_suggestions partial_query = firstn 5 suggestions)
    /\ ((2 <= String.length partial_query)%nat ->
        get_query_suggestions partial_query
        = firstn 5
            (List.app
               (List.filter (Suggest.word_start (Py.lower partial_query)) suggestions)
               (List.filter (Suggest.inside_only (Py.lower partial_query)) suggestions))
        /\ Forall (fun s => Py.contains (Py.lower partial_query) (Py.lower s) = true)
             (get_query_suggestions partial_query)).
Proof.
  intros partial_query. rewrite suggestions_value.
  set (p := Py.lower partial_query).
  assert (Hdis : NoDup (List.app (List.filter (Suggest.word_start p) suggestions)
                          (List.filter (Suggest.inside_only p) suggestions))).
  { apply NoDup_app.
    split; [apply NoDup_ListNoDup, List.NoDup_filter, NoDup_ListNoDup,
              suggestions_distinct|].
    split; [|apply NoDup_ListNoDup, List.NoDup_filter, NoDup_ListNoDup,
               suggestions_distinct].
    intros s H1 H2. apply list_elem_of_In, filter_In in H1 as [_ H1].
    apply list_elem_of_In, filter_In in H2 as [_ H2].
    unfold Suggest.inside_only in H2. rewrite H1 in H2. discriminate. }
  assert (Hin : Forall (fun s => In s suggestions)
                  (List.app (List.filter (Suggest.word_start p) suggestions)
                     (List.filter (Suggest.inside_only p) suggestions))).
  { apply Forall_app. split; apply Forall_forall; intros s H;
      apply list_elem_of_In, filter_In in H; tauto. }
  assert (Hcon : Forall (fun s => Py.contains p (Py.lower s) = true)
                   (List.app (List.filter (Suggest.word_start p) suggestions)
                      (List.filter (Suggest.inside_only p) suggestions))).
  { apply Forall_app. split; apply Forall_forall; intros s H;
      apply list_elem_of_In, filter_In in H as [_ H].
    - apply word_start_contains. exact H.
    - unfold Suggest.inside_only in H. apply andb_true_iff in H as [_ H]. exact H. }
  destruct (String.length partial_query <? 2)%nat eqn:L.
  - apply Nat.ltb_lt in L. split; [apply firstn_le_length|].
    split; [apply NoDup_firstn, suggestions_distinct|].
    split; [apply Forall_take, Forall_forall; intros s H;
            apply list_elem_of_In; exact H|].
    split; [reflexivity|]. intros H. lia.
  - apply Nat.ltb_ge in L. split; [apply firstn_le_length|].
    split; [apply NoDup_firstn; exact Hdis|].
    split; [apply Forall_take; exact Hin|].
    split; [intros H; lia|]. intros _. split; [reflexivity|].
    apply Forall_take. exact Hcon.
Qed.

End SuggestionFacts.

(** ** Text extraction and upload *)

Section ExtractionFacts.
Import DocumentService Extraction Documents.

Lemma extract_text_other_type (fs : Files) (doc_id filename : string) :
  Py.lower (Path.suffix filename) <> ".pdf" ->
  Py.lower (Path.suffix filename) <> ".txt" ->
  extract_text fs doc_id filename
  = Raise (DocumentProcessingError
             (if path_exists fs
                   (joinpath upload_dir (doc_id ++ "_" ++ replace_char " " "_" filename))
              then "Text extraction not implemented for file type: "
                   ++ Py.lower (Path.suffix filename)
              else "Document file not found: "
                   ++ (doc_id ++ "_" ++ replace_char " " "_" filename))
             (Some filename)).
Proof.
  intros Hpdf Htxt. unfold extract_text. cbv zeta.
  destruct (path_exists fs _); cbn [negb]; [|reflexivity].
  destruct (String.eqb_spec (Py.lower (Path.suffix filename)) ".pdf"); [contradiction|].
  cbn [existsb]. destruct (String.eqb_spec (Py.lower (Path.suffix filename)) ".txt");
    [contradiction|].
  reflexivity.
Qed.

(** X23. [extract_text] returns a text only for a file that exists in the
    upload directory and whose suffix, in lower case, is .pdf or .txt, and
    only after the text was written to the processed directory. *)
Theorem extract_text_only_reads_pdf_and_txt :
  forall (fs : Files) (doc_id filename text : string),
    extract_text fs doc_id filename = Ok text ->
    path_exists fs (joinpath upload_dir (doc_id ++ "_" ++ replace_char " " "_" filename))
    = true
    /\ (Py.lower (Path.suffix filename) = ".pdf"
        \/ Py.lower (Path.suffix filename) = ".txt")
    /\ write_processed fs (joinpath processed_dir (doc_id ++ "_extracted.txt")) text
       = Ok tt.
Proof.
  intros fs doc_id filename text H.
  destruct (String.eqb_spec (Py.lower (Path.suffix filename)) ".pdf") as [Hp|Hp];
    [|destruct (String.eqb_spec (Py.lower (Path.suffix filename)) ".txt") as [Ht|Ht]].
  3: { rewrite (extract_text_other_type fs doc_id filename Hp Ht) in H. discriminate. }
  all: unfold extract_text in H; cbv zeta in H.
  all: destruct (path_exists fs _) eqn:E; cbn [negb] in H; [|discriminate].
  all: split; [reflexivity|]; split; [auto|].
  all: match type of H with
       | Exceptions.handle_exceptions _ (Exceptions.bind ?m _) = _ =>
           destruct m as [t|e]; cbn [Exceptions.bind] in H
       end.
  all: try (destruct (write_processed fs _ t) as [[]|e'] eqn:W;
            cbn [Exceptions.bind Exceptions.handle_exceptions] in H;
            [injection H as <-; exact W
            |destruct (Exceptions.is_domain e'); discriminate]).
  all: cbn [Exceptions.handle_exceptions] in H; destruct (Exceptions.is_domain e);
    discriminate.
Qed.

Lemma default_accepts_docx (filename content_type : string) (file_size : Z) :
  Py.lower (Path.suffix filename) = ".docx" ->
  (file_size <= 52428800)%Z ->
  validate_file (init Config.default_settings) filename file_size content_type = Ok tt.
Proof.
  intros Hext Hsize. unfold validate_file.
  change (max_size_bytes (init Config.default_settings)) with 52428800%Z.
  replace (52428800 <? file_size)%Z with false by (symmetry; apply Z.ltb_ge; exact Hsize).
  cbv zeta. rewrite Hext. reflexivity.
Qed.

(** X24. With the default settings a file whose suffix is .docx, in any
    case, passes [validate_file] when it is not too large, but its upload
    never succeeds: [upload_document] always answers with an HTTP error of
    status 400 or 500. When the file passes validation, is saved and is
    found again, the answer is status 400 with the message that text
    extraction is not implemented for .docx. *)
Theorem docx_upload_is_never_processed :
  forall (fs : Files) (store : Store) (file : UploadFile) (category : option string)
         (tags upload_date : string) (start_time end_time : Q),
    Py.lower (Path.suffix (filename file)) = ".docx" ->
    (exists status_code detail,
        upload_document (init Config.default_settings) fs store file category tags
          upload_date start_time end_time
        = Authorization.HTTPException status_code detail
        /\ (status_code = 400%Z \/ status_code = 500%Z))
    /\ ((Z.of_nat (String.length (file_content file)) <= 52428800)%Z ->
        validate_file (init Config.default_settings) (filename file)
          (Z.of_nat (String.length (file_content file))) (content_type file) = Ok tt
        /\ (write_upload fs
              (joinpath upload_dir
                 (uuid4 fs ++ "_" ++ replace_char " " "_" (filename file)))
              (file_content file) = Ok tt ->
            path_exists fs
              (joinpath upload_dir
                 (uuid4 fs ++ "_" ++ replace_char " " "_" (filename file))) = true ->
            upload_document (init Config.default_settings) fs store file category tags
              upload_date start_time end_time
            = Authorization.HTTPException 400
                "Text extraction not implemented for file type: .docx")).
Proof.
  intros fs store file category tags upload_date t0 t1 Hext.
  assert (Hp : Py.lower (Path.suffix (filename file)) <> ".pdf")
    by (rewrite Hext; discriminate).
  assert (Ht : Py.lower (Path.suffix (filename file)) <> ".txt")
    by (rewrite Hext; discriminate).
  split.
  - unfold upload_document.
    destruct (validate_file _ _ _ _) as [[]|e]; cbn [Exceptions.bind].
    + destruct (save_file fs (file_content file) (filename file)) as [doc_id|e];
        cbn [Exceptions.bind].
      * rewrite (extract_text_other_type fs doc_id (filename file) Hp Ht).
        cbn [Exceptions.bind]. eauto.
      * destruct e; eauto.
    + destruct e; eauto.
  - intros Hsize.
    pose proof (default_accepts_docx (filename file) (content_type file) _ Hext Hsize)
      as Hv.
    split; [exact Hv|]. intros Hw Hex.
    unfold upload_document. rewrite Hv. cbn [Exceptions.bind].
    unfold save_file. cbv zeta. rewrite Hw. cbn [Exceptions.handle_exceptions Exceptions.bind].
    rewrite (extract_text_other_type fs (uuid4 fs) (filename file) Hp Ht).
    rewrite Hex, Hext. reflexivity.
Qed.

End ExtractionFacts.

Lemma extract_text_only_reads_pdf_and_txt_witness :
  Extraction.extract_text Desk.one_text_file "d1" "ward notes.txt"
  = Ok "Visitors may stay until 8pm."
  /\ Py.lower (Path.suffix "ward notes.txt") = ".txt".
Proof.
  assert (H : Extraction.extract_text Desk.one_text_file "d1" "ward notes.txt"
              = Ok "Visitors may stay until 8pm.") by (vm_compute; reflexivity).
  split; [exact H|].
  destruct (extract_text_only_reads_pdf_and_txt Desk.one_text_file "d1"
              "ward notes.txt" "Visitors may stay until 8pm." H) as (_ & [E|E] & _).
  - vm_compute in E. discriminate.
  - exact E.
Defined.

Lemma docx_upload_is_never_processed_witness :
  Py.lower (Path.suffix "Visiting Policy.DOCX") = ".docx"
  /\ Documents.upload_document (DocumentService.init Config.default_settings)
       Desk.one_text_file
       (Documents.mkStore (fun _ => Ok []) (fun _ _ _ => Ok tt))
       (Documents.mkUploadFile "Visiting Policy.DOCX" "PK" "application/octet-stream")
       None "" "2026-01-05T10:00:00" 0 1
     = Authorization.HTTPException 400
         "Document file not found: d1_Visiting_Policy.DOCX".
Proof.
  split; [vm_compute; reflexivity|].
  destruct (docx_upload_is_never_processed Desk.one_text_file
              (Documents.mkStore (fun _ => Ok []) (fun _ _ _ => Ok tt))
              (Documents.mkUploadFile "Visiting Policy.DOCX" "PK"
                 "application/octet-stream")
              None "" "2026-01-05T10:00:00" 0 1 ltac:(vm_compute; reflexivity))
    as [(status_code & detail & E & _) _].
  rewrite E. vm_compute in E. injection E as <- <-. reflexivity.
Defined.

(** ** Tags: from the form field to the metadata and back *)

Section TagFacts.
Import Documents.

Lemma has_char_append (ch : ascii) (a b : string) :
  Tag.has_char ch (a ++ b) = Tag.has_char ch a || Tag.has_char ch b.
Proof.
  induction a as [|c a IH]; [now rewrite append_nil_l|].
  rewrite append_cons. cbn [Tag.has_char]. rewrite IH. now rewrite orb_assoc.
Qed.

Lemma split_on_fields (sep : ascii) (s : string) :
  forall cur,
    Tag.has_char sep cur = false ->
    Forall (fun field => Tag.has_char sep field = false) (Py.split_on_from sep cur s).
Proof.
  induction s as [|c s IH]; intros cur Hcur; cbn [Py.split_on_from].
  - constructor; [exact Hcur | constructor].
  - destruct (Ascii.eqb c sep) eqn:E.
    + constructor; [exact Hcur | apply IH; reflexivity].
    + apply IH. rewrite has_char_append, Hcur. cbn. now rewrite E.
Qed.

Lemma lstrip_has_char (ch : ascii) (s : string) :
  Tag.has_char ch s = false -> Tag.has_char ch (Py.lstrip s) = false.
Proof.
  induction s as [|c s IH]; [auto|]. cbn [Py.lstrip].
  destruct (Py.is_space c); [|auto].
  cbn [Tag.has_char]. intros H. apply orb_false_iff in H as [_ H]. auto.
Qed.

Lemma rstrip_has_char (ch : ascii) (s : string) :
  Tag.has_char ch s = false -> Tag.has_char ch (Py.rstrip s) = false.
Proof.
  induction s as [|c s IH]; [auto|]. cbn [Py.rstrip Tag.has_char].
  intros H. apply orb_false_iff in H as [Hc H]. specialize (IH H).
  destruct (Py.rstrip s) as [|c' r].
  - destruct (Py.is_space c); [reflexivity|]. cbn. now rewrite Hc.
  - cbn [Tag.has_char] in *. now rewrite Hc.
Qed.

Lemma strip_has_char (ch : ascii) (s : string) :
  Tag.has_char ch s = false -> Tag.has_char ch (Py.strip s) = false.
Proof. intros H. unfold Py.strip. now apply rstrip_has_char, lstrip_has_char. Qed.

Lemma rstrip_idempotent (s : string) : Py.rstrip (Py.rstrip s) = Py.rstrip s.
Proof.
  induction s as [|c s IH]; [reflexivity|]. cbn [Py.rstrip].
  destruct (Py.rstrip s) as [|c' r] eqn:R.
  - destruct (Py.is_space c) eqn:S; [reflexivity|]. cbn [Py.rstrip]. now rewrite S.
  - cbn [Py.rstrip]. cbn [Py.rstrip] in IH. rewrite IH. reflexivity.
Qed.

(** [lstrip] gives the empty text or a text that starts with a character
    that is not white space. *)
Lemma lstrip_head (s : string) :
  Py.lstrip s = "" \/ exists c r, Py.lstrip s = String c r /\ Py.is_space c = false.
Proof.
  induction s as [|c s IH]; [now left|]. cbn [Py.lstrip].
  destruct (Py.is_space c) eqn:S; [exact IH|]. right. eauto.
Qed.

Lemma rstrip_head (c : ascii) (r : string) :
  Py.is_space c = false -> exists r', Py.rstrip (String c r) = String c r'.
Proof.
  intros S. cbn [Py.rstrip]. destruct (Py.rstrip r); [rewrite S|]; eauto.
Qed.

Lemma strip_idempotent (s : string) : Py.strip (Py.strip s) = Py.strip s.
Proof.
  unfold Py.strip. destruct (lstrip_head s) as [->|(c & r & -> & S)]; [reflexivity|].
  destruct (rstrip_head c r S) as [r' E].
  assert (L : Py.lstrip (Py.rstrip (String c r)) = Py.rstrip (String c r)).
  { rewrite E. cbn [Py.lstrip]. now rewrite S. }
  rewrite L. apply rstrip_idempotent.
Qed.

Lemma split_on_from_passes (sep : ascii) (x : string) :
  forall cur s,
    Tag.has_char sep x = false ->
    Py.split_on_from sep cur (x ++ s) = Py.split_on_from sep (cur ++ x) s.
Proof.
  induction x as [|c x IH]; intros cur s H.
  - now rewrite append_nil_l, append_nil_r.
  - cbn [Tag.has_char] in H. apply orb_false_iff in H as [Hc H].
    rewrite append_cons. cbn [Py.split_on_from]. rewrite Hc.
    rewrite IH by exact H. f_equal.
    rewrite append_assoc. reflexivity.
Qed.

Lemma split_on_join (sep : ascii) (l : list string) :
  l <> [] ->
  Forall (fun field => Tag.has_char sep field = false) l ->
  Py.split_on sep (Py.join (String sep "") l) = l.
Proof.
  unfold Py.split_on. induction l as [|x l IH]; [contradiction|]. intros _ Hall.
  inversion Hall as [|? ? Hx Hl]; subst.
  destruct l as [|y l].
  - cbn [Py.join]. rewrite <- (append_nil_r x) at 1.
    rewrite split_on_from_passes by exact Hx. rewrite append_nil_l. reflexivity.
  - change (Py.join (String sep "") (x :: y :: l))
      with (x ++ String sep "" ++ Py.join (String sep "") (y :: l)).
    rewrite split_on_from_passes by exact Hx. rewrite append_nil_l.
    rewrite append_cons, append_nil_l. cbn [Py.split_on_from].
    rewrite Ascii.eqb_refl. f_equal. apply IH; [discriminate | exact Hl].
Qed.

Lemma parse_tags_clean (tags : string) : Forall Tag.clean (parse_tags tags).
Proof.
  unfold parse_tags. destruct (String.eqb tags ""); [constructor|].
  apply Forall_map, Forall_forall. intros t Ht.
  apply list_elem_of_In, filter_In in Ht as [Hin Hne].
  unfold Tag.clean. split; [|split].
  - intros E. rewrite E in Hne. discriminate.
  - apply strip_idempotent.
  - apply strip_has_char.
    pose proof (split_on_fields "," tags "" eq_refl) as Hall.
    rewrite Forall_forall in Hall. apply Hall, list_elem_of_In. exact Hin.
Qed.

Lemma join_nonempty (sep x : string) (l : list string) :
  x <> "" -> Py.join sep (x :: l) <> "".
Proof.
  intros Hx. destruct x as [|c x]; [contradiction|].
  destruct l; cbn [Py.join]; [discriminate|]. rewrite append_cons. discriminate.
Qed.

Lemma filter_map_clean (l : list string) :
  Forall Tag.clean l ->
  map Py.strip (List.filter (fun tag => negb (String.eqb (Py.strip tag) "")) l) = l.
Proof.
  induction l as [|x l IH]; intros Hall; [reflexivity|].
  inversion Hall as [|? ? (Hne & Hs & _) Hl]; subst. cbn [List.filter].
  rewrite Hs. destruct (String.eqb_spec x ""); [contradiction|].
  cbn [negb map]. rewrite Hs. f_equal. exact (IH Hl).
Qed.

(** X25. The tags of an upload survive the way through the metadata: the
    list that [upload_document] parses from the form field, joined with
    commas for storage and parsed again by [list_policies], is the same
    list. Every parsed tag is not empty, has no white space around it and
    holds no comma. *)
Theorem tags_round_trip :
  forall tags : string,
    parse_tags (stored_tags (parse_tags tags)) = parse_tags tags
    /\ Forall Tag.clean (parse_tags tags).
Proof.
  intros tags. pose proof (parse_tags_clean tags) as Hclean.
  split; [|exact Hclean].
  destruct (parse_tags tags) as [|x l] eqn:E; [reflexivity|].
  unfold stored_tags. unfold parse_tags at 1.
  inversion Hclean as [|? ? (Hne & Hs & Hc) Hl]; subst.
  destruct (String.eqb_spec (Py.join "," (x :: l)) "") as [J|_];
    [exfalso; exact (join_nonempty "," x l Hne J)|].
  rewrite (split_on_join "," (x :: l)); [|discriminate|].
  - apply filter_map_clean. exact Hclean.
  - apply Forall_impl with (P := Tag.clean); [exact Hclean|]. intros t (_ & _ & H). exact H.
Qed.

End TagFacts.

(** A form field with blanks, an empty entry and a trailing comma. *)
Example tags_parsed :
  Documents.parse_tags " visiting , ward,, night shift ," = ["visiting"; "ward"; "night shift"]
  /\ Documents.stored_tags (Documents.parse_tags " visiting , ward,, night shift ,")
     = "visiting,ward,night shift".
Proof. vm_compute. split; reflexivity. Qed.

(** ** PDF pages *)

Section PdfFacts.
Import Extraction.

Lemma page_loop (pages : list (except string)) :
  forall text_content,
    fold_left page_step pages text_content
    = List.app text_content (Pages.readable pages).
Proof.
  induction pages as [|page pages IH]; intros acc; cbn [fold_left Pages.readable].
  - now rewrite app_nil_r.
  - destruct page as [page_text|e]; cbn [page_step].
    + destruct (String.eqb (Py.strip page_text) ""); cbn [negb].
      * apply IH.
      * rewrite IH, <- app_assoc. reflexivity.
    + apply IH.
Qed.

(** X26. [extract_text_from_pdf] skips every page whose text extraction
    raises and every page with blank text: when the file opens, the result
    is the texts of the remaining pages, in order, joined by blank lines,
    and the extraction fails only when no page remains. Every failure is a
    DocumentProcessingError that names the file. *)
Theorem pdf_extraction_skips_unreadable_pages :
  forall (fs : Files) (file_path : string),
    extract_text_from_pdf fs file_path
    = match pdf_pages fs file_path with
      | Ok pages =>
          match Pages.readable pages with
          | [] => Raise (DocumentProcessingError
                           "No text content could be extracted from PDF"
                           (Some (Path.name file_path)))
          | texts => Ok (Py.join LLMService.blank_line texts)
          end
      | Raise e =>
          Raise (if is_document_error e then e
                 else DocumentProcessingError
                        ("PDF text extraction failed: " ++ Exceptions.str e)
                        (Some (Path.name file_path)))
      end.
Proof.
  intros fs file_path. unfold extract_text_from_pdf. cbv zeta.
  destruct (pdf_pages fs file_path) as [pages|e]; cbn [Exceptions.bind].
  - rewrite page_loop. cbn [List.app].
    destruct (Pages.readable pages); reflexivity.
  - destruct e; reflexivity.
Qed.

End PdfFacts.

(** One readable page out of three is enough. *)
Example pdf_scan_with_one_readable_page :
  Extraction.extract_text_from_pdf
    (Extraction.mkFiles "d1" (fun _ _ => Ok tt) (fun _ => true)
       (fun _ => Ok Pages.scan) (fun _ _ => Ok "") (fun _ _ => Ok tt))
    "data/uploads/d1_scan.pdf"
  = Ok "Visiting hours".
Proof. vm_compute. reflexivity. Qed.
